(** * pycomm3 SLC driver: address grammar, value packing and reply status

    A shallow embedding of [pycomm3/slc.py]: the cascade of regular
    expressions of [parse_tag], [writeable_value], [request_status], the
    read and write round trips and the chunked read of the file directory.

    Conventions of the embedding.
    - A Python [str] is a [string]: a sequence of code points below 256.
      On that alphabet [\d] is exactly [0-9], [re.IGNORECASE] only folds
      the ASCII letters of the patterns, and [.] is any character but a
      line feed.
    - A Python [bytes] is a [list byte].
    - A Python [int] is a [Z], a Python [float] is a binary64 [float].
    - A function that can raise returns a [result]; the constructors of
      [exn] are the exception classes, with the message kept as data.
    - The constants and tables of [const.py], the packers of [bytes_.py],
      the [Tag] of [tag.py] and the transport of [cip_base.py] live outside
      [slc.py]: they are section variables here, or definitions marked as
      modelled from the specification. *)

From Stdlib Require Import ZArith String Ascii List Lia.
From Stdlib.Strings Require Import Byte.
From Stdlib Require Import PrimFloat FloatOps SpecFloat Uint63.
From stdpp Require Import base option list gmap strings.

Local Open Scope string_scope.
Local Open Scope Z_scope.
Local Open Scope list_scope.

(** ** Python values and exceptions *)

#[local] Set Warnings "-register-all".

Inductive pyval : Type :=
| VNone
| VBool (b : bool)
| VInt (n : Z)
| VFloat (f : float)
| VStr (s : string)
| VBytes (b : list byte)
| VList (l : list pyval).

(** The text of an error message, with the values its f-string formats. *)
Inductive message : Type :=
| ParseRead (tag : string)
| ParseWrite (tag : string)
| InsufficientData (expected : Z) (got : Z)
| NotWriteable (tag : string) (v : pyval)
| BadReadReply
| File0Error (status : string).

Inductive exn : Type :=
| RequestError (m : message)
| DataError (m : message)
| KeyError
| IndexError
| TypeError
| ValueError
| ZeroDivisionError
| OverflowError
| StructError.

Inductive result (A : Type) : Type :=
| Ok (a : A)
| Raise (e : exn).
Arguments Ok {A} a.
Arguments Raise {A} e.

Definition bind {A B} (r : result A) (f : A -> result B) : result B :=
  match r with
  | Ok a => f a
  | Raise e => Raise e
  end.

Notation "'let*' x ':=' a 'in' b" := (bind a (fun x => b))
  (at level 10, x pattern, a at level 100, b at level 200).

(** [try: body except Exception: raise e] *)
Definition except_raise {A} (e : exn) (body : result A) : result A :=
  match body with
  | Ok a => Ok a
  | Raise _ => Raise e
  end.

(** [a and b] on conditions that may raise: [b] is not evaluated when [a]
    is false. *)
Definition py_and (a b : result bool) : result bool :=
  let* x := a in if x then b else Ok false.

Definition of_option {A} (e : exn) (o : option A) : result A :=
  match o with
  | Some a => Ok a
  | None => Raise e
  end.

(** ** Strings *)

Definition is_digit (c : ascii) : bool :=
  let n := nat_of_ascii c in (48 <=? n)%nat && (n <=? 57)%nat.

Definition is_upper (c : ascii) : bool :=
  let n := nat_of_ascii c in (65 <=? n)%nat && (n <=? 90)%nat.

Definition is_lower (c : ascii) : bool :=
  let n := nat_of_ascii c in (97 <=? n)%nat && (n <=? 122)%nat.

Definition lower_char (c : ascii) : ascii :=
  if is_upper c then ascii_of_nat (nat_of_ascii c + 32) else c.

Definition upper_char (c : ascii) : ascii :=
  if is_lower c then ascii_of_nat (nat_of_ascii c - 32) else c.

Fixpoint map_string (f : ascii -> ascii) (s : string) : string :=
  match s with
  | EmptyString => EmptyString
  | String c s' => String (f c) (map_string f s')
  end.

(** [str.upper] and [str.lower] on strings of ASCII letters, digits and
    punctuation, which is what the driver applies them to. *)
Definition upper (s : string) : string := map_string upper_char s.
Definition lower (s : string) : string := map_string lower_char s.

Fixpoint digits_value (acc : Z) (s : string) : option Z :=
  match s with
  | EmptyString => Some acc
  | String c s' =>
      if is_digit c
      then digits_value (10 * acc + Z.of_nat (nat_of_ascii c - 48)) s'
      else None
  end.

(** [sys.get_int_max_str_digits()]: CPython 3.11 (and the security
    releases of the versions before it) refuses to read an [int] from more
    digits than this, 4300 unless the interpreter is told otherwise. *)
Definition int_max_str_digits : nat := 4300.

(** [int(s)] for a string of decimal digits, all that a [\d] group can
    hold: a [ValueError] on the empty string and on more than
    [int_max_str_digits] digits, leading zeros counted.  Python also
    reads a sign, blanks and underscores; the driver never passes them,
    and here any other string is a [ValueError]. *)
Definition int_of_str (s : string) : result Z :=
  match s with
  | EmptyString => Raise ValueError
  | _ =>
      if Nat.ltb int_max_str_digits (String.length s) then Raise ValueError
      else of_option ValueError (digits_value 0 s)
  end.

Fixpoint replace_go (old : string) (skip : nat) (s : string) : string :=
  match s with
  | EmptyString => EmptyString
  | String c s' =>
      match skip with
      | S n => replace_go old n s'
      | O =>
          if String.prefix old s
          then replace_go old (Nat.pred (String.length old)) s'
          else String c (replace_go old O s')
      end
  end.

(** [s.replace(old, '')]: every non-overlapping occurrence of [old], left
    to right, is deleted. *)
Definition replace_empty (s old : string) : string :=
  match old with
  | EmptyString => s
  | _ => replace_go old O s
  end.

(** ** Regular expressions

    The fragment of [re] the driver's patterns are written in, matched by
    backtracking with Python's priorities: alternatives left to right,
    quantifiers greedy, [re.search] at the leftmost position that works. *)

Inductive regex : Type :=
| Chr (c : ascii)                     (* a literal character *)
| Cls (cs : string)                   (* [..] over literal characters *)
| Dig                                 (* \d *)
| Dot                                 (* . *)
| Cat (r1 r2 : regex)
| Alt (r1 r2 : regex)
| Rep (r : regex) (lo hi : nat)       (* r{lo,hi} *)
| Plus (r : regex)                    (* r+ *)
| Opt (r : regex)                     (* r? *)
| Grp (name : option string) (r : regex).

Definition captures : Type := list (string * string).

Fixpoint in_string (p : ascii -> bool) (cs : string) : bool :=
  match cs with
  | EmptyString => false
  | String c cs' => p c || in_string p cs'
  end.

(** Equality of characters under [re.IGNORECASE], on code points below
    256: a character matches a letter of a pattern when it is that letter
    in either case.  The characters beyond that alphabet whose lower case
    is an ASCII letter or its equivalent (U+0130 and U+0131 for [I],
    U+017F for [S]) are not characters of a [string]. *)
Definition chr_eq (c d : ascii) : bool :=
  Ascii.eqb (lower_char c) (lower_char d).

Definition newline : ascii := ascii_of_nat 10.

(** The text between two positions of one string, the second a suffix of
    the first. *)
Definition consumed (s s' : string) : string :=
  substring 0 (String.length s - String.length s') s.

Definition record_group (name : option string) (txt : string)
    (cs : captures) : captures :=
  match name with
  | Some n => (n, txt) :: cs
  | None => cs
  end.

Section Matcher.
Context {R : Type}.

Definition cont : Type := string -> captures -> option R.
Definition matcher : Type := string -> captures -> cont -> option R.

Definition one (p : ascii -> bool) : matcher := fun s cs k =>
  match s with
  | String c s' => if p c then k s' cs else None
  | EmptyString => None
  end.

Definition or_else (a b : option R) : option R :=
  match a with
  | Some x => Some x
  | None => b
  end.

(** Greedy bounded repetition: one more round of [body] is tried before
    stopping, and stopping is allowed once [lo] rounds are done. *)
Fixpoint rep_greedy (body : matcher) (lo hi : nat) : matcher :=
  fun s cs k =>
    match hi with
    | O => match lo with O => k s cs | S _ => None end
    | S hi' =>
        or_else
          (body s cs (fun s' cs' => rep_greedy body (Nat.pred lo) hi' s' cs' k))
          (match lo with O => k s cs | S _ => None end)
    end.

Fixpoint run (r : regex) : matcher :=
  fun s cs k =>
    match r with
    | Chr c => one (chr_eq c) s cs k
    | Cls set => one (fun d => in_string (chr_eq d) set) s cs k
    | Dig => one is_digit s cs k
    | Dot => one (fun d => negb (Ascii.eqb d newline)) s cs k
    | Cat r1 r2 => run r1 s cs (fun s' cs' => run r2 s' cs' k)
    | Alt r1 r2 => or_else (run r1 s cs k) (run r2 s cs k)
    | Rep r1 lo hi => rep_greedy (run r1) lo hi s cs k
    | Plus r1 => rep_greedy (run r1) 1 (String.length s) s cs k
    | Opt r1 => or_else (run r1 s cs k) (k s cs)
    | Grp name r1 =>
        run r1 s cs (fun s' cs' => k s' (record_group name (consumed s s') cs'))
    end.
End Matcher.

Fixpoint group_names (r : regex) : list string :=
  match r with
  | Chr _ | Cls _ | Dig | Dot => []
  | Cat r1 r2 | Alt r1 r2 => group_names r1 ++ group_names r2
  | Rep r1 _ _ | Plus r1 | Opt r1 => group_names r1
  | Grp (Some n) r1 => n :: group_names r1
  | Grp None r1 => group_names r1
  end.

(** A match object: [group(0)], the named groups that took part, and the
    names the pattern declares. *)
Record Match : Type := mkMatch {
  whole : string;
  groups : captures;
  declared : list string
}.

Fixpoint assoc (n : string) (cs : captures) : option string :=
  match cs with
  | [] => None
  | (k, v) :: cs' => if String.eqb n k then Some v else assoc n cs'
  end.

(** [re.search(r, s, flags=re.IGNORECASE)] *)
Fixpoint search (r : regex) (s : string) : option Match :=
  match run r s [] (fun s' cs => Some (s', cs)) with
  | Some (s', cs) => Some (mkMatch (consumed s s') cs (group_names r))
  | None =>
      match s with
      | EmptyString => None
      | String _ s' => search r s'
      end
  end.

(** [t.group(name)]: [None] for a declared group that took no part,
    [IndexError] for a name the pattern does not declare. *)
Definition group (t : Match) (n : string) : result (option string) :=
  if existsb (String.eqb n) (declared t)
  then Ok (assoc n (groups t))
  else Raise IndexError.

(** Builders for writing the patterns down. *)
Fixpoint lit (s : string) : regex :=
  match s with
  | EmptyString => Rep Dig 0 0
  | String c EmptyString => Chr c
  | String c s' => Cat (Chr c) (lit s')
  end.

Fixpoint cat (rs : list regex) : regex :=
  match rs with
  | [] => Rep Dig 0 0
  | [r] => r
  | r :: rs' => Cat r (cat rs')
  end.

Fixpoint alts (ws : list string) : regex :=
  match ws with
  | [] => Cls EmptyString
  | [w] => lit w
  | w :: ws' => Alt (lit w) (alts ws')
  end.

Definition named (n : string) (r : regex) : regex := Grp (Some n) r.
Definition paren (r : regex) : regex := Grp None r.

(** ** Numbers *)

(** [float(n)] for an [int] of magnitude below [2^53], where it is exact. *)
Definition float_of_int (n : Z) : float :=
  if n <? 0
  then PrimFloat.opp (PrimFloat.of_uint63 (Uint63.of_Z (- n)))
  else PrimFloat.of_uint63 (Uint63.of_Z n).

(** [a / b] on two [int]s: Python 3 true division, a [float].  For operands
    below [2^53] it is the binary64 quotient of the converted operands. *)
Definition truediv (a b : Z) : result float :=
  if b =? 0 then Raise ZeroDivisionError
  else Ok (PrimFloat.div (float_of_int a) (float_of_int b)).

(** [int(f)] on a [float]: truncation toward zero. *)
Definition int_of_float (f : float) : result Z :=
  match Prim2SF f with
  | S754_zero _ => Ok 0
  | S754_infinity _ => Raise OverflowError
  | S754_nan => Raise ValueError
  | S754_finite s m e =>
      let v := if 0 <=? e then Z.shiftl (Z.pos m) e else Z.shiftr (Z.pos m) (- e) in
      Ok (if s then - v else v)
  end.

(** [int(v)] *)
Definition py_int (v : pyval) : result Z :=
  match v with
  | VInt n => Ok n
  | VBool b => Ok (if b then 1 else 0)
  | VFloat f => int_of_float f
  | VStr s => int_of_str s
  | VBytes b => int_of_str (string_of_list_byte b)
  | VNone | VList _ => Raise TypeError
  end.

(** Truth value of an object, as [or], [and] and [if] take it. *)
Definition truthy (v : pyval) : bool :=
  match v with
  | VNone => false
  | VBool b => b
  | VInt n => negb (n =? 0)
  | VFloat f => negb (PrimFloat.eqb f 0%float)
  | VStr s => negb (String.eqb s EmptyString)
  | VBytes b => match b with [] => false | _ => true end
  | VList l => match l with [] => false | _ => true end
  end.

(** [v > 0] *)
Definition gt_zero (v : pyval) : result bool :=
  match v with
  | VBool b => Ok b
  | VInt n => Ok (0 <? n)
  | VFloat f => Ok (PrimFloat.ltb 0%float f)
  | VNone | VStr _ | VBytes _ | VList _ => Raise TypeError
  end.

(** [math.pow(2, k)] for an [int] exponent: the [float] [2.0 ** k], or
    [OverflowError] when it is out of range. *)
Definition math_pow2 (k : Z) : result float :=
  if 1024 <=? k then Raise OverflowError else Ok (Z.ldexp 1%float k).

(** [(value & (1 << idx)) != 0] *)
Definition get_bit (value idx : Z) : result bool :=
  if idx <? 0 then Raise ValueError
  else Ok (negb (Z.land value (Z.shiftl 1 idx) =? 0)).

(** ** Packers of [bytes_.py] *)

Definition byte_of_Z (n : Z) : byte :=
  match Byte.of_N (Z.to_N (n mod 256)) with
  | Some b => b
  | None => x00
  end.

Definition Z_of_byte (b : byte) : Z := Z.of_N (Byte.to_N b).

#[global] Instance byte_eq_decision : EqDecision byte := Byte.byte_eq_dec.

(** Modelled from the spec: [Pack.usint] of [bytes_.py], which is not part
    of these sources.  The specification has it write one unsigned byte;
    a value that does not fit is a packing error. *)
Definition Pack_usint (n : Z) : result (list byte) :=
  if (0 <=? n) && (n <? 256) then Ok [byte_of_Z n] else Raise StructError.

(** Modelled from the spec: [Pack.uint] of [bytes_.py], which is not part
    of these sources.  The specification has it write a 2-byte
    little-endian unsigned value; a value that does not fit is a packing
    error. *)
Definition Pack_uint (n : Z) : result (list byte) :=
  if (0 <=? n) && (n <? 65536)
  then Ok [byte_of_Z n; byte_of_Z (n / 256)]
  else Raise StructError.

(** Modelled from the spec: [Pack.uint] of [bytes_.py] applied to a
    [float], which is what [math.pow] returns.  The specification makes a
    value of the wrong type a packing error, and the packer of a 2-byte
    unsigned integer takes an integer: a [float] is refused whatever number
    it holds. *)
Definition Pack_uint_float (f : float) : result (list byte) :=
  Raise StructError.

(** ** The parsed address *)

(** The dict that [parse_tag] returns.  A key that a rule leaves out is
    [None] here; a key bound to Python's [None] is [Some VNone]. *)
Record TagAddress : Type := mkTagAddress {
  file_type : string;
  file_number : string;
  element_number : pyval;
  pos_number : option string;
  sub_element : option pyval;
  address_field : Z;
  element_count : Z;
  tag : string;
  data_size : option Z
}.

(** [tag.get('sub_element')] *)
Definition get_sub_element (t : TagAddress) : pyval :=
  match sub_element t with
  | Some v => v
  | None => VNone
  end.

(** [x or 0] *)
Definition or_zero (v : pyval) : pyval := if truthy v then v else VInt 0.

(** ** The patterns of [parse_tag] *)

Definition digits (lo hi : nat) : regex := Rep Dig lo hi.

(** [(?P<_elem_cnt_token>{(?P<element_count>\d+)})?] *)
Definition count_token : regex :=
  Opt (named "_elem_cnt_token"
         (cat [Chr "{"; named "element_count" (Plus Dig); Chr "}"])).

(** [(/(?P<sub_element>\d{1,2}))?] *)
Definition bit_suffix : regex :=
  Opt (paren (cat [Chr "/"; named "sub_element" (digits 1 2)])).

Definition re_timer_counter : regex :=
  cat [named "file_type" (Cls "CT"); named "file_number" (digits 1 3);
       paren (Chr ":"); named "element_number" (digits 1 3);
       paren Dot;
       named "sub_element"
         (alts ["ACC"; "PRE"; "EN"; "DN"; "TT"; "CU"; "CD"; "DN"; "OV"; "UN"; "UA"])].

Definition re_word : regex :=
  cat [named "file_type" (Cls "LFBN"); named "file_number" (digits 1 3);
       paren (Chr ":"); named "element_number" (digits 1 3);
       bit_suffix; count_token].

Definition re_io : regex :=
  cat [named "file_type" (Cls "IO"); paren (Chr ":");
       named "element_number" (digits 1 3);
       paren Dot; named "position_number" (digits 1 3);
       bit_suffix; count_token].

Definition re_string : regex :=
  cat [named "file_type" (lit "ST"); named "file_number" (digits 1 3);
       paren (Chr ":"); named "element_number" (digits 1 4);
       Opt (named "_elem_cnt_token"
              (cat [Chr "{"; named "element_count" (Cls "12"); Chr "}"]))].

Definition re_ascii : regex :=
  cat [named "file_type" (Chr "A"); named "file_number" (digits 1 3);
       paren (Chr ":"); named "element_number" (digits 1 4);
       count_token].

Definition re_status : regex :=
  cat [named "file_type" (Chr "S");
       paren (Chr ":"); named "element_number" (digits 1 3);
       bit_suffix; count_token].

Definition re_binary : regex :=
  cat [named "file_type" (Chr "B"); named "file_number" (digits 1 3);
       paren (Chr "/"); named "element_number" (digits 1 4);
       count_token].

(** ** [parse_tag] *)

(** A group that the code uses as a [str]; on [None] the use raises. *)
Definition str_group (t : Match) (n : string) : result string :=
  let* g := group t n in
  match g with
  | Some s => Ok s
  | None => Raise TypeError
  end.

(** [int(t.group(n))] *)
Definition int_group (t : Match) (n : string) : result Z :=
  let* s := str_group t n in int_of_str s.

(** [lo <= x <= hi] *)
Definition between (lo hi : Z) (x : result Z) : result bool :=
  let* v := x in Ok ((lo <=? v) && (v <=? hi)).

(** [t.group(0).replace(_cnt, '') if _cnt else t.group(0)] *)
Definition tag_name_of (t : Match) : result string :=
  let* _cnt := group t "_elem_cnt_token" in
  match _cnt with
  | Some c => Ok (if String.eqb c EmptyString then whole t
                  else replace_empty (whole t) c)
  | None => Ok (whole t)
  end.

(** [int(element_count) if element_count is not None else 1] *)
Definition count_of (t : Match) : result Z :=
  let* c := group t "element_count" in
  match c with
  | Some s => int_of_str s
  | None => Ok 1
  end.

Section ParseTag.
(** [PCCC_CT] of [const.py]: the index of each named timer or counter
    field. *)
Variable PCCC_CT : gmap string Z.

(** Each rule is one [re.search] block of the function: [Ok (Some d)]
    when the block returns the dict [d], [Ok None] when control falls
    out of the block. *)

Definition rule_timer_counter (s : string) : result (option TagAddress) :=
  match search re_timer_counter s with
  | None => Ok None
  | Some t =>
      let* ok := py_and (between 1 255 (int_group t "file_number"))
                        (between 0 255 (int_group t "element_number")) in
      if ok then
        let* ft := str_group t "file_type" in
        let* fn := str_group t "file_number" in
        let* en := str_group t "element_number" in
        let* se := str_group t "sub_element" in
        let* idx := of_option KeyError (PCCC_CT !! upper se) in
        Ok (Some {| file_type := upper ft; file_number := fn;
                    element_number := VStr en; pos_number := None;
                    sub_element := Some (VInt idx); address_field := 3;
                    element_count := 1; tag := whole t;
                    data_size := None |})
      else Ok None
  end.

Definition rule_word (s : string) : result (option TagAddress) :=
  match search re_word s with
  | None => Ok None
  | Some t =>
      let* tag_name := tag_name_of t in
      let* se := group t "sub_element" in
      match se with
      | Some bit =>
          let* ok :=
            py_and (between 1 255 (int_group t "file_number"))
              (py_and (between 0 255 (int_group t "element_number"))
                      (between 0 15 (int_group t "sub_element"))) in
          if ok then
            let* cnt := count_of t in
            let* ft := str_group t "file_type" in
            let* fn := str_group t "file_number" in
            let* en := str_group t "element_number" in
            Ok (Some {| file_type := upper ft; file_number := fn;
                        element_number := VStr en; pos_number := None;
                        sub_element := Some (VStr bit); address_field := 3;
                        element_count := cnt; tag := tag_name;
                        data_size := None |})
          else Ok None
      | None =>
          let* ok := py_and (between 1 255 (int_group t "file_number"))
                            (between 0 255 (int_group t "element_number")) in
          if ok then
            let* cnt := count_of t in
            let* ft := str_group t "file_type" in
            let* fn := str_group t "file_number" in
            let* en := str_group t "element_number" in
            Ok (Some {| file_type := upper ft; file_number := fn;
                        element_number := VStr en; pos_number := None;
                        sub_element := Some VNone; address_field := 2;
                        element_count := cnt; tag := tag_name;
                        data_size := None |})
          else Ok None
      end
  end.

Definition rule_io (s : string) : result (option TagAddress) :=
  match search re_io s with
  | None => Ok None
  | Some t =>
      let* tag_name := tag_name_of t in
      let* se := group t "sub_element" in
      match se with
      | Some bit =>
          (* the pattern declares no group [file_number] *)
          let* ok :=
            py_and (between 0 255 (int_group t "file_number"))
              (py_and (between 0 255 (int_group t "element_number"))
                      (between 0 15 (int_group t "sub_element"))) in
          if ok then
            let* cnt := count_of t in
            let* ft := str_group t "file_type" in
            let* en := str_group t "element_number" in
            let* pos := str_group t "position_number" in
            Ok (Some {| file_type := upper ft; file_number := "0";
                        element_number := VStr en; pos_number := Some pos;
                        sub_element := Some (VStr bit); address_field := 3;
                        element_count := cnt; tag := tag_name;
                        data_size := None |})
          else Ok None
      | None =>
          let* ok := between 0 255 (int_group t "element_number") in
          if ok then
            let* cnt := count_of t in
            let* ft := str_group t "file_type" in
            let* en := str_group t "element_number" in
            let* pos := str_group t "position_number" in
            Ok (Some {| file_type := upper ft; file_number := "0";
                        element_number := VStr en; pos_number := Some pos;
                        sub_element := None; address_field := 2;
                        element_count := cnt; tag := tag_name;
                        data_size := None |})
          else Ok None
      end
  end.

(** The blocks for [ST] and [A] files share their shape. *)
Definition rule_plain (re : regex) (s : string) : result (option TagAddress) :=
  match search re s with
  | None => Ok None
  | Some t =>
      let* ok := py_and (between 1 255 (int_group t "file_number"))
                        (between 0 255 (int_group t "element_number")) in
      if ok then
        let* tag_name := tag_name_of t in
        let* en := int_group t "element_number" in
        let* ft := str_group t "file_type" in
        let* fn := str_group t "file_number" in
        let* cnt := count_of t in
        Ok (Some {| file_type := upper ft; file_number := fn;
                    element_number := VInt en; pos_number := None;
                    sub_element := None; address_field := 2;
                    element_count := cnt; tag := tag_name;
                    data_size := None |})
      else Ok None
  end.

Definition rule_string : string -> result (option TagAddress) :=
  rule_plain re_string.

Definition rule_ascii : string -> result (option TagAddress) :=
  rule_plain re_ascii.

Definition rule_status (s : string) : result (option TagAddress) :=
  match search re_status s with
  | None => Ok None
  | Some t =>
      let* tag_name := tag_name_of t in
      let* se := group t "sub_element" in
      match se with
      | Some bit =>
          let* ok := py_and (between 0 255 (int_group t "element_number"))
                            (between 0 15 (int_group t "sub_element")) in
          if ok then
            let* ft := str_group t "file_type" in
            let* en := str_group t "element_number" in
            let* cnt := count_of t in
            (* this branch stores [t.group(0)], not [tag_name] *)
            Ok (Some {| file_type := upper ft; file_number := "2";
                        element_number := VStr en; pos_number := None;
                        sub_element := Some (VStr bit); address_field := 3;
                        element_count := cnt; tag := whole t;
                        data_size := None |})
          else Ok None
      | None =>
          let* ok := between 0 255 (int_group t "element_number") in
          if ok then
            let* ft := str_group t "file_type" in
            let* en := str_group t "element_number" in
            let* cnt := count_of t in
            Ok (Some {| file_type := upper ft; file_number := "2";
                        element_number := VStr en; pos_number := None;
                        sub_element := None; address_field := 2;
                        element_count := cnt; tag := tag_name;
                        data_size := None |})
          else Ok None
      end
  end.

(** [element_number = bit_position / 16] and
    [sub_element = bit_position - (element_number * 16)], with Python 3's
    [/] on two [int]s. *)
Definition rule_binary (s : string) : result (option TagAddress) :=
  match search re_binary s with
  | None => Ok None
  | Some t =>
      let* ok := py_and (between 1 255 (int_group t "file_number"))
                        (between 0 4095 (int_group t "element_number")) in
      if ok then
        let* tag_name := tag_name_of t in
        let* bit_position := int_group t "element_number" in
        let* en := truediv bit_position 16 in
        let se := PrimFloat.sub (float_of_int bit_position)
                    (PrimFloat.mul en (float_of_int 16)) in
        let* ft := str_group t "file_type" in
        let* fn := str_group t "file_number" in
        let* cnt := count_of t in
        Ok (Some {| file_type := upper ft; file_number := fn;
                    element_number := VFloat en; pos_number := None;
                    sub_element := Some (VFloat se); address_field := 3;
                    element_count := cnt; tag := tag_name;
                    data_size := None |})
      else Ok None
  end.

(** Run the blocks in order; the first that returns a dict ends the
    function. *)
Fixpoint first_rule (rules : list (string -> result (option TagAddress)))
    (s : string) : result (option TagAddress) :=
  match rules with
  | [] => Ok None
  | rule :: rest =>
      let* r := rule s in
      match r with
      | Some d => Ok (Some d)
      | None => first_rule rest s
      end
  end.

Definition parse_tag (s : string) : result (option TagAddress) :=
  first_rule [rule_timer_counter; rule_word; rule_io; rule_string;
              rule_ascii; rule_status; rule_binary] s.
End ParseTag.

(** ** Sequences *)

(** [len(v)] *)
Definition py_len (v : pyval) : result Z :=
  match v with
  | VList l => Ok (Z.of_nat (length l))
  | VStr s => Ok (Z.of_nat (String.length s))
  | VBytes b => Ok (Z.of_nat (length b))
  | VNone | VBool _ | VInt _ | VFloat _ => Raise TypeError
  end.

Fixpoint chars (s : string) : list pyval :=
  match s with
  | EmptyString => []
  | String c s' => VStr (String c EmptyString) :: chars s'
  end.

(** The items that [for val in v] goes through. *)
Definition py_iter (v : pyval) : result (list pyval) :=
  match v with
  | VList l => Ok l
  | VStr s => Ok (chars s)
  | VBytes b => Ok (map (fun x => VInt (Z_of_byte x)) b)
  | VNone | VBool _ | VInt _ | VFloat _ => Raise TypeError
  end.

(** [v[:n]] for a positive [n] *)
Definition py_prefix (n : Z) (v : pyval) : pyval :=
  match v with
  | VList l => VList (take (Z.to_nat n) l)
  | VStr s => VStr (substring 0 (Z.to_nat n) s)
  | VBytes b => VBytes (take (Z.to_nat n) b)
  | _ => v
  end.

(** A slice index brought into [0, len]. *)
Definition clamp (len i : Z) : Z :=
  if i <? 0 then Z.max 0 (i + len) else Z.min i len.

(** [data[a:b]] *)
Definition slice {A} (a b : Z) (data : list A) : list A :=
  let len := Z.of_nat (length data) in
  let a' := clamp len a in
  let b' := clamp len b in
  take (Z.to_nat (b' - a')) (drop (Z.to_nat a') data).

(** [[data[i:i + n] for i in range(0, len(data), n)]] for a positive [n] *)
Fixpoint chunks {A} (fuel : nat) (n : nat) (data : list A) : list (list A) :=
  match fuel, data with
  | O, _ | _, [] => []
  | S fuel', _ => take n data :: chunks fuel' n (drop n data)
  end.

(** [b''.join(pack_func(val) for val in items)] *)
Fixpoint join_packed (pack_func : pyval -> result (list byte))
    (items : list pyval) : result (list byte) :=
  match items with
  | [] => Ok []
  | v :: rest =>
      let* b := pack_func v in
      let* bs := join_packed pack_func rest in
      Ok (b ++ bs)
  end.

(** ** [writeable_value] *)

Definition set_data_size (n : Z) (t : TagAddress) : TagAddress :=
  {| file_type := file_type t; file_number := file_number t;
     element_number := element_number t; pos_number := pos_number t;
     sub_element := sub_element t; address_field := address_field t;
     element_count := element_count t; tag := tag t;
     data_size := Some n |}.

Definition is_timer_counter (ft : string) : bool :=
  String.eqb ft "T" || String.eqb ft "C".

(** [int(tag.get('sub_element') or 0) if bit_field else 0] *)
Definition bit_position_of (t : TagAddress) : result Z :=
  if address_field t =? 3 then py_int (or_zero (get_sub_element t)) else Ok 0.

(** [tag.get('element_count') or 1] *)
Definition element_count_or_1 (t : TagAddress) : Z :=
  if element_count t =? 0 then 1 else element_count t.

(** [f'pccc_{tag["file_type"].lower()}'] *)
Definition pccc_key (t : TagAddress) : string :=
  String.append "pccc_" (lower (file_type t)).

Section Pack.
Variable PCCC_CT : gmap string Z.

(** The [pccc_*] entries of [Pack] in [bytes_.py], by name. *)
Variable Pack : gmap string (pyval -> result (list byte)).

(** [bit_position in {PCCC_CT['PRE'], PCCC_CT['ACC']}] *)
Definition is_pre_or_acc (bit_position : Z) : result bool :=
  let* pre := of_option KeyError (PCCC_CT !! "PRE") in
  let* acc := of_option KeyError (PCCC_CT !! "ACC") in
  Ok ((bit_position =? pre) || (bit_position =? acc)).

(** The mask and value halves of a bit write. *)
Definition bit_pair (bit_position : Z) (value : pyval) : result (list byte) :=
  let* set := gt_zero value in
  if set then
    let* p1 := math_pow2 bit_position in
    let* m := Pack_uint_float p1 in
    let* p2 := math_pow2 bit_position in
    let* v := Pack_uint_float p2 in
    Ok (m ++ v)
  else
    let* p1 := math_pow2 bit_position in
    let* m := Pack_uint_float p1 in
    let* z := Pack_uint 0 in
    Ok (m ++ z).

(** The body of the [try] block.  It returns the dict as well, since the
    bit branch stores [data_size] in it. *)
Definition pack_value (t : TagAddress) (bit_field : bool)
    (bit_position element_count : Z) (value : pyval)
    : TagAddress * result (list byte) :=
  match Pack !! pccc_key t with
  | None => (t, Raise KeyError)
  | Some pack_func =>
      if 1 <? element_count then
        (t, let* items := py_iter value in join_packed pack_func items)
      else if bit_field then
        (set_data_size 2 t,
         let* whole_word :=
           py_and (Ok (is_timer_counter (file_type t)))
                  (is_pre_or_acc bit_position) in
         if whole_word then
           let* p := pack_func value in Ok ([xff; xff] ++ p)
         else bit_pair bit_position value)
      else (t, pack_func value)
  end.

(** The length check and truncation for [element_count > 1]. *)
Definition check_count (element_count : Z) (value : pyval) : result pyval :=
  if 1 <? element_count then
    let* n := py_len value in
    if n <? element_count
    then Raise (RequestError (InsufficientData element_count n))
    else if element_count <? n then Ok (py_prefix element_count value)
    else Ok value
  else Ok value.

Definition writeable_value (t : TagAddress) (value : pyval)
    : TagAddress * result (list byte) :=
  match value with
  | VBytes b => (t, Ok b)
  | _ =>
      let bit_field := address_field t =? 3 in
      let checked :=
        let* bit_position := bit_position_of t in
        let element_count := element_count_or_1 t in
        let* value' := check_count element_count value in
        Ok (bit_position, element_count, value') in
      match checked with
      | Raise e => (t, Raise e)
      | Ok (bit_position, element_count, value') =>
          let '(t', r) :=
            pack_value t bit_field bit_position element_count value' in
          (t', except_raise (RequestError (NotWriteable (tag t) value')) r)
      end
  end.
End Pack.

(** ** [request_status] *)

(** Modelled from the spec: [SUCCESS] of [const.py], status value [0x00]. *)
Definition SUCCESS : Z := 0.

(** Modelled from the spec: [SLC_REPLY_START] of [const.py], the offset at
    which the payload of a reply starts. *)
Definition SLC_REPLY_START : nat := 61.

Definition unknown_status : string := "Unknown Status".

Section Status.
(** [PCCC_ERROR_CODE] of [const.py]: the message of each status code. *)
Variable PCCC_ERROR_CODE : gmap Z string.

(** [data[58]] out of range raises inside the [try], which the [except]
    turns into the unknown-status message. *)
Definition request_status (data : list byte) : option string :=
  match data !! 58%nat with
  | Some b =>
      let _status_code := Z_of_byte b in
      if _status_code =? SUCCESS then None
      else Some (default unknown_status (PCCC_ERROR_CODE !! _status_code))
  | None => Some unknown_status
  end.

(** The message that a non-zero status byte stands for. *)
Definition status_text (b : byte) : string :=
  default unknown_status (PCCC_ERROR_CODE !! Z_of_byte b).
End Status.

(** ** Results *)

(** Modelled from the spec: the [Tag] result of [tag.py], with its four
    fields [name], [value], [file_type] (here [type]) and [error]. *)
Record Tag : Type := mkTag {
  name : string;
  value : pyval;
  type : string;
  error : option string
}.

Definition bad_read_reply : string := "Failed parsing tag read reply".

(** ** [_parse_read_reply] *)

Section ReadReply.
Variable PCCC_CT : gmap string Z.

(** [PCCC_DATA_SIZE] of [const.py]: the byte width of each file type. *)
Variable PCCC_DATA_SIZE : gmap string Z.

(** The [pccc_*] entries of [Unpack] in [bytes_.py], by name. *)
Variable Unpack : gmap string (list byte -> result pyval).

(** [get_bit(tag_value, bit_position)] on what an unpacker returned. *)
Definition get_bit_of (v : pyval) (idx : Z) : result bool :=
  match v with
  | VInt n => get_bit n idx
  | VBool b => get_bit (if b then 1 else 0) idx
  | _ => Raise TypeError
  end.

Fixpoint unpack_all (unpack_func : list byte -> result pyval)
    (parts : list (list byte)) : result (list pyval) :=
  match parts with
  | [] => Ok []
  | p :: rest =>
      let* v := unpack_func p in
      let* vs := unpack_all unpack_func rest in
      Ok (v :: vs)
  end.

(** [range(0, len(data), data_size)] raises on a zero step and is empty
    on a negative one. *)
Definition reply_chunks (data_size : Z) (data : list byte)
    : result (list (list byte)) :=
  if data_size =? 0 then Raise ValueError
  else if data_size <? 0 then Ok []
  else Ok (chunks (length data) (Z.to_nat data_size) data).

Definition parse_read_reply_body (t : TagAddress) (data : list byte)
    : result Tag :=
  let bit_read := address_field t =? 3 in
  let* bit_position := py_int (or_zero (get_sub_element t)) in
  let* data_size := of_option KeyError (PCCC_DATA_SIZE !! file_type t) in
  let* unpack_func := of_option KeyError (Unpack !! pccc_key t) in
  if bit_read then
    let new_value := 0 in
    let bit_of_word :=
      let* tag_value := unpack_func (slice new_value (new_value + data_size) data) in
      let* b := get_bit_of tag_value bit_position in
      Ok (mkTag (tag t) (VBool b) (file_type t) None) in
    if is_timer_counter (file_type t) then
      let* pre := of_option KeyError (PCCC_CT !! "PRE") in
      if bit_position =? pre then
        let* v := unpack_func
                    (slice (new_value + 2) (new_value + 2 + data_size) data) in
        Ok (mkTag (tag t) v (file_type t) None)
      else
        let* acc := of_option KeyError (PCCC_CT !! "ACC") in
        if bit_position =? acc then
          let* v := unpack_func
                      (slice (new_value + 4) (new_value + 4 + data_size) data) in
          Ok (mkTag (tag t) v (file_type t) None)
        else bit_of_word
    else bit_of_word
  else
    let* parts := reply_chunks data_size data in
    let* values_list := unpack_all unpack_func parts in
    match values_list with
    | _ :: _ :: _ => Ok (mkTag (tag t) (VList values_list) (file_type t) None)
    | [v] => Ok (mkTag (tag t) v (file_type t) None)
    | [] => Raise IndexError
    end.

Definition _parse_read_reply (t : TagAddress) (data : list byte)
    : result Tag :=
  except_raise (DataError BadReadReply) (parse_read_reply_body t data).
End ReadReply.

(** ** The round trips of [SLCDriver] *)

Section Driver.
Variable PCCC_CT : gmap string Z.
Variable PCCC_DATA_SIZE : gmap string Z.

(** [PCCC_DATA_TYPE] of [const.py]: the type code of each file type. *)
Variable PCCC_DATA_TYPE : gmap string (list byte).
Variable PCCC_ERROR_CODE : gmap Z string.
Variable Pack : gmap string (pyval -> result (list byte)).
Variable Unpack : gmap string (list byte -> result pyval).

(** Byte strings of [const.py] and of the connection's configuration. *)
Variables CLASS_TYPE_8bit PCCC_PATH vid vsn : list byte.
Variables SLC_CMD_CODE SLC_FNC_READ SLC_FNC_WRITE : list byte.

(** The collaborator of [cip_base.py]: the state of the connection, the
    [_sequence] property, and a [send_unit_data] request sent with its
    reply's [raw] buffer. *)
Variable Conn : Type.
Variable next_sequence : Conn -> Z * Conn.
Variable send_unit_data : Conn -> list byte -> list byte * Conn.

Definition _msg_start : list byte :=
  [x4b] ++ [x02] ++ CLASS_TYPE_8bit ++ PCCC_PATH ++ [x07] ++ vid ++ vsn.

(** [int(_tag.get('pos_number', 0))] *)
Definition pos_number_int (t : TagAddress) : result Z :=
  match pos_number t with
  | Some s => int_of_str s
  | None => Ok 0
  end.

(** The fields that the read and the write request share, from the
    command code to the sub-element number. *)
Definition request_head (fnc : list byte) (sequence : Z)
    (byte_size : result Z) (t : TagAddress) : result (list byte) :=
  let* sq := Pack_uint sequence in
  let* n := byte_size in
  let* size := Pack_usint n in
  let* fn := int_of_str (file_number t) in
  let* file := Pack_usint fn in
  let* code := of_option KeyError (PCCC_DATA_TYPE !! file_type t) in
  let* en := py_int (element_number t) in
  let* elem := Pack_usint en in
  let* pn := pos_number_int t in
  let* pos := Pack_usint pn in
  Ok (_msg_start ++ SLC_CMD_CODE ++ [x00] ++ sq ++ fnc ++ size ++ file
        ++ code ++ elem ++ pos).

(** [b''.join(message_request)] of [_read_tag] *)
Definition read_request (sequence : Z) (_tag : TagAddress)
    : result (list byte) :=
  request_head SLC_FNC_READ sequence
    (let* width := of_option KeyError (PCCC_DATA_SIZE !! file_type _tag) in
     Ok (width * element_count _tag)) _tag.

(** [b''.join(message_request)] of [_write_tag], for the dict that
    already holds its [data_size]. *)
Definition write_request (sequence width : Z) (_tag : TagAddress)
    (v : pyval) : result (list byte) :=
  let* head :=
    request_head SLC_FNC_WRITE sequence (Ok (width * element_count _tag))
      _tag in
  let* body := snd (writeable_value PCCC_CT Pack _tag v) in
  Ok (head ++ body).

Definition _read_tag (c : Conn) (s : string) : Conn * result Tag :=
  match parse_tag PCCC_CT s with
  | Raise e => (c, Raise e)
  | Ok None => (c, Raise (RequestError (ParseRead s)))
  | Ok (Some _tag) =>
      let '(sequence, c1) := next_sequence c in
      match read_request sequence _tag with
      | Raise e => (c1, Raise e)
      | Ok request =>
          let '(raw, c2) := send_unit_data c1 request in
          match request_status PCCC_ERROR_CODE raw with
          | Some status =>
              (c2, Ok (mkTag (tag _tag) VNone (file_type _tag) (Some status)))
          | None =>
              match _parse_read_reply PCCC_CT PCCC_DATA_SIZE Unpack _tag
                      (drop SLC_REPLY_START raw) with
              | Ok r => (c2, Ok r)
              | Raise (DataError _) =>
                  (c2, Ok (mkTag (tag _tag) VNone (file_type _tag)
                             (Some bad_read_reply)))
              | Raise e => (c2, Raise e)
              end
          end
      end
  end.

Definition _write_tag (c : Conn) (s : string) (v : pyval)
    : Conn * result Tag :=
  match parse_tag PCCC_CT s with
  | Raise e => (c, Raise e)
  | Ok None => (c, Raise (RequestError (ParseWrite s)))
  | Ok (Some parsed) =>
      match PCCC_DATA_SIZE !! file_type parsed with
      | None => (c, Raise KeyError)
      | Some width =>
          let _tag := set_data_size width parsed in
          let '(sequence, c1) := next_sequence c in
          match write_request sequence width _tag v with
          | Raise e => (c1, Raise e)
          | Ok request =>
              let '(raw, c2) := send_unit_data c1 request in
              match request_status PCCC_ERROR_CODE raw with
              | Some status =>
                  (c2, Ok (mkTag (tag _tag) VNone (file_type _tag) (Some status)))
              | None => (c2, Ok (mkTag (tag _tag) v (file_type _tag) None))
              end
          end
      end
  end.

(** *** [_read_whole_file_directory] *)

(** The offset of a chunk, as the last two items of its request. *)
Definition offset_field (offset : Z) : result (list byte) :=
  if offset <? 256
  then let* o := Pack_usint offset in Ok ([x00] ++ o)
  else let* o := Pack_uint offset in Ok ([xff] ++ o).

Definition chunk_request (file_type : list byte) (sequence size offset : Z)
    : result (list byte) :=
  let* sq := Pack_uint sequence in
  let* sz := Pack_usint size in
  let* off := offset_field offset in
  Ok (_msg_start ++ SLC_CMD_CODE ++ [x00] ++ sq ++ SLC_FNC_READ ++ sz
        ++ [x00] ++ file_type ++ off).

(** A chunk request that went out, kept to reason about the exchange:
    the size and offset it asks for and its bytes. *)
Record chunk : Type := mkChunk {
  chunk_size : Z;
  chunk_offset : Z;
  chunk_bytes : list byte
}.

(** What a run of the loop leaves: the connection, the requests sent in
    order, the final [offset], and the returned data or the exception. *)
Record outcome : Type := mkOutcome {
  out_conn : Conn;
  out_sent : list chunk;
  out_offset : Z;
  out_result : result (list byte)
}.

(** The [while] loop, one iteration per unit of [fuel]; [None] when the
    fuel runs out before the loop ends. *)
Fixpoint read_directory_loop (fuel : nat) (file_type : list byte)
    (file0_size : Z) (c : Conn) (sent : list chunk)
    (file0_data : list byte) (offset : Z) : option outcome :=
  if Z.of_nat (length file0_data) <? file0_size then
    match fuel with
    | O => None
    | S fuel' =>
        let bytes_remaining := file0_size - Z.of_nat (length file0_data) in
        let size := if 80 <? bytes_remaining then 80 else bytes_remaining in
        let '(sequence, c1) := next_sequence c in
        match chunk_request file_type sequence size offset with
        | Raise e => Some (mkOutcome c1 sent offset (Raise e))
        | Ok request =>
            let '(raw, c2) := send_unit_data c1 request in
            let sent' := sent ++ [mkChunk size offset request] in
            match request_status PCCC_ERROR_CODE raw with
            | None =>
                let data := drop SLC_REPLY_START raw in
                read_directory_loop fuel' file_type file0_size c2 sent'
                  (file0_data ++ data)
                  (offset + Z.of_nat (length data) / 2)
            | Some status =>
                Some (mkOutcome c2 sent' offset
                        (Raise (DataError (File0Error status))))
            end
        end
    end
  else Some (mkOutcome c sent offset (Ok file0_data)).

(** The connection returns each requested chunk in full: the reply to a
    chunk request reports success and carries as many payload bytes as
    the request asks for. *)
Definition full_chunks (file_type : list byte) : Prop :=
  forall c size offset request,
    chunk_request file_type (fst (next_sequence c)) size offset = Ok request ->
    let raw := fst (send_unit_data (snd (next_sequence c)) request) in
    request_status PCCC_ERROR_CODE raw = None
    /\ Z.of_nat (length (drop SLC_REPLY_START raw)) = size.

(** The transaction sequence number fits the two bytes it is sent in. *)
Definition sequence_fits : Prop :=
  forall c, 0 <= fst (next_sequence c) < 65536.

Definition _read_whole_file_directory (fuel : nat)
    (file_type element : list byte) (file0_size : Z) (c : Conn)
    : option outcome :=
  read_directory_loop fuel file_type file0_size c [] [] 0.
End Driver.

Arguments mkOutcome {Conn} _ _ _ _.
Arguments out_conn {Conn} _.
Arguments out_sent {Conn} _.
Arguments out_offset {Conn} _.
Arguments out_result {Conn} _.

(** ** Sample tables and a sample connection

    Instances of the tables and of the collaborator, to run the driver on
    concrete inputs. *)

Definition sample_PCCC_CT : gmap string Z :=
  list_to_map [("PRE", 1); ("ACC", 2); ("EN", 15); ("TT", 14); ("DN", 13);
               ("CU", 15); ("CD", 14); ("OV", 12); ("UN", 11); ("UA", 10)].

Definition sample_PCCC_DATA_SIZE : gmap string Z :=
  list_to_map [("N", 2); ("B", 2); ("T", 6); ("C", 6); ("S", 2); ("F", 4);
               ("L", 4); ("ST", 84); ("A", 2); ("I", 2); ("O", 2)].

Definition sample_PCCC_DATA_TYPE : gmap string (list byte) :=
  list_to_map [("N", [x89]); ("B", [x85]); ("T", [x86]); ("C", [x87]);
               ("S", [x84]); ("F", [x8a]); ("L", [x91]); ("ST", [x8d]);
               ("A", [x8e]); ("I", [x83]); ("O", [x82])].

Definition sample_PCCC_ERROR_CODE : gmap Z string :=
  list_to_map [(16, "Illegal command or format");
               (32, "PLC has a problem and will not communicate")].

(** A 16-bit signed little-endian packer, for the word file types. *)
Definition sample_pack_int (v : pyval) : result (list byte) :=
  match v with
  | VInt n =>
      if (-32768 <=? n) && (n <? 32768)
      then Ok [byte_of_Z n; byte_of_Z (n / 256)]
      else Raise StructError
  | VBool b => Ok [if b then x01 else x00; x00]
  | _ => Raise StructError
  end.

Definition sample_unpack_int (data : list byte) : result pyval :=
  match data with
  | [lo; hi] =>
      let u := Z_of_byte lo + 256 * Z_of_byte hi in
      Ok (VInt (if u <? 32768 then u else u - 65536))
  | _ => Raise StructError
  end.

Definition sample_Pack : gmap string (pyval -> result (list byte)) :=
  list_to_map [("pccc_n", sample_pack_int); ("pccc_b", sample_pack_int);
               ("pccc_t", sample_pack_int); ("pccc_c", sample_pack_int);
               ("pccc_s", sample_pack_int)].

Definition sample_Unpack : gmap string (list byte -> result pyval) :=
  list_to_map [("pccc_n", sample_unpack_int); ("pccc_b", sample_unpack_int);
               ("pccc_t", sample_unpack_int); ("pccc_c", sample_unpack_int);
               ("pccc_s", sample_unpack_int)].

(** A connection that counts its requests.  Its controller answers every
    request with the given status byte at offset 58 and, from offset 61
    on, as many payload bytes as the size byte of the request asks for
    (the byte at [size_at]). *)
Definition sample_next_sequence (c : Z) : Z * Z := (c mod 65536, c + 1).

Definition sample_reply (status : byte) (size_at : nat) (request : list byte)
    : list byte :=
  let size := Z.to_nat (Z_of_byte (default x00 (request !! size_at))) in
  replicate 58 x00 ++ [status] ++ [x00; x00] ++ replicate size xab.

Definition sample_send (status : byte) (size_at : nat) (c : Z)
    (request : list byte) : list byte * Z :=
  (sample_reply status size_at request, c).

Definition sample_path : list byte := [x67; x24; x01].
Definition sample_vid : list byte := [x09; x10].
Definition sample_vsn : list byte := [x09; x10; x19; x71].

(** The size byte follows the preamble, the command code, the status
    byte, the two sequence bytes and the function code. *)
Definition sample_size_at : nat := 18.

Definition sample_read_tag : Z -> string -> Z * result Tag :=
  _read_tag sample_PCCC_CT sample_PCCC_DATA_SIZE sample_PCCC_DATA_TYPE
    sample_PCCC_ERROR_CODE sample_Unpack [x20] sample_path sample_vid
    sample_vsn [x0f] [xa2] Z sample_next_sequence
    (sample_send x10 sample_size_at).

Definition sample_read_directory (fuel : nat) (file0_size : Z)
    : option (outcome Z) :=
  _read_whole_file_directory sample_PCCC_ERROR_CODE [x20] sample_path
    sample_vid sample_vsn [x0f] [xa2] Z sample_next_sequence
    (sample_send x00 sample_size_at) fuel [x01] [x23] file0_size 0.

(** The two bytes [b0 b1] read as a little-endian unsigned value. *)
Definition uint16_le (b0 b1 : byte) : Z := Z_of_byte b0 + 256 * Z_of_byte b1.

(** The decimal numeral of a natural number below 10000. *)
Definition digit_char (d : Z) : ascii := ascii_of_nat (48 + Z.to_nat d).

Definition decimal (n : Z) : string :=
  let d3 := n / 1000 in
  let d2 := n / 100 mod 10 in
  let d1 := n / 10 mod 10 in
  let d0 := n mod 10 in
  if n <? 10 then String (digit_char d0) EmptyString
  else if n <? 100 then String (digit_char d1) (String (digit_char d0) EmptyString)
  else if n <? 1000 then
    String (digit_char d2) (String (digit_char d1) (String (digit_char d0) EmptyString))
  else
    String (digit_char d3) (String (digit_char d2)
      (String (digit_char d1) (String (digit_char d0) EmptyString))).

(** [re.fullmatch(r, s, flags=re.IGNORECASE) is not None] *)
Definition fullmatch (r : regex) (s : string) : bool :=
  match run r s []
          (fun s' _ => match s' with EmptyString => Some tt | _ => None end) with
  | Some _ => true
  | None => false
  end.

Definition patterns : list regex :=
  [re_timer_counter; re_word; re_io; re_string; re_ascii; re_status; re_binary].

(** What [parse_tag] makes of [B3/<n>]: the quotient [n / 16] as a
    [float], and a remainder that is always [0.0]. *)
Definition binary_result (n : Z) : TagAddress :=
  {| file_type := "B"; file_number := "3";
     element_number := VFloat (PrimFloat.div (float_of_int n) (float_of_int 16));
     pos_number := None; sub_element := Some (VFloat 0%float);
     address_field := 3; element_count := 1;
     tag := String.append "B3/" (decimal n); data_size := None |}.

Definition pyval_eqb (a b : pyval) : bool :=
  match a, b with
  | VNone, VNone => true
  | VInt x, VInt y => x =? y
  | VStr x, VStr y => String.eqb x y
  | VFloat x, VFloat y =>
      match Prim2SF x, Prim2SF y with
      | S754_zero s1, S754_zero s2 => Bool.eqb s1 s2
      | S754_finite s1 m1 e1, S754_finite s2 m2 e2 =>
          Bool.eqb s1 s2 && Pos.eqb m1 m2 && (e1 =? e2)
      | _, _ => false
      end
  | _, _ => false
  end.

Definition binary_agrees (n : Z) : bool :=
  match parse_tag ∅ (String.append "B3/" (decimal n)) with
  | Ok (Some t) =>
      let e := binary_result n in
      String.eqb (file_type t) (file_type e)
      && String.eqb (file_number t) (file_number e)
      && pyval_eqb (element_number t) (element_number e)
      && pyval_eqb (get_sub_element t) (get_sub_element e)
      && (address_field t =? 3) && (element_count t =? 1)
      && String.eqb (tag t) (tag e)
  | _ => false
  end.

(** * The rest of the driver *)

(** ** Unpacking *)

(** Modelled from the spec: [Unpack.uint] of [bytes_.py], which is not part
    of these sources.  The specification has it read a 2-byte
    little-endian unsigned value at the start of the buffer it is given;
    a buffer of fewer than two bytes is an unpacking error. *)
Definition Unpack_uint (data : list byte) : result Z :=
  match data with
  | b0 :: b1 :: _ => Ok (uint16_le b0 b1)
  | _ => Raise StructError
  end.

(** [a // b] *)
Definition floordiv (a b : Z) : result Z :=
  if b =? 0 then Raise ZeroDivisionError else Ok (a / b).

Fixpoint digits_of (fuel : nat) (n : Z) (acc : string) : string :=
  match fuel with
  | O => acc
  | S fuel' =>
      let acc' := String (digit_char (n mod 10)) acc in
      if n <? 10 then acc' else digits_of fuel' (n / 10) acc'
  end.

(** [str(n)] for a natural number *)
Definition str_of_nat (n : Z) : string :=
  digits_of (S (Z.to_nat n)) n EmptyString.

(** ** The file directory *)

(** One value of the dict that [_parse_file0] returns:
    [{'elements': ..., 'length': ...}]. *)
Record file_info : Type := mkFileInfo {
  elements : Z;
  byte_length : Z
}.

Definition _get_file_and_element_for_plc_type (plc_type : string)
    : list byte * list byte :=
  if String.eqb plc_type "5/02" then ([x00], [x23])
  else if false (* [plc_type in {}]: nothing is in the empty dict *)
  then ([x02], [x2f])
  else ([x01], [x23]).

Definition _get_file_position_row_size_for_plc_type (plc_type : string)
    : Z * Z :=
  let prefix := substring 0 4 plc_type in
  if String.eqb prefix "5/02" || String.eqb prefix "1761" then (93, 8)
  else if String.eqb prefix "1763" || String.eqb prefix "1762"
          || String.eqb prefix "1764" then (103, 10)
  else (79, 10).

Section File0.
Variable PCCC_DATA_SIZE : gmap string Z.

(** [PCCC_DATA_TYPE] of [const.py], read from a type code to the name of
    the file type, the direction in which [_parse_file0] uses it. *)
Variable PCCC_DATA_TYPE_name : list byte -> option string.

(** [PCCC_DATA_TYPE.get(file_code, None)] as the truth value [if file_type]
    takes it: a name that is not empty. *)
Definition known_type (file_code : list byte) : option string :=
  match PCCC_DATA_TYPE_name file_code with
  | Some n => if String.eqb n EmptyString then None else Some n
  | None => None
  end.

(** One row of the table, at [file_pos]: the dict and the file number
    after it. *)
Definition parse_row (data : list byte) (file_pos file_num : Z)
    (data_files : gmap string file_info)
    : result (gmap string file_info * Z) :=
  let file_code := slice file_pos (file_pos + 1) data in
  match known_type file_code with
  | Some file_type =>
      let file_name := String.append file_type (str_of_nat file_num) in
      let element_size := default 2 (PCCC_DATA_SIZE !! file_type) in
      let* file_size :=
        Unpack_uint (slice (file_pos + 1) (Z.of_nat (length data)) data) in
      let* n := floordiv file_size element_size in
      Ok (<[file_name := mkFileInfo n file_size]> data_files, file_num + 1)
  | None =>
      Ok (data_files,
          if bool_decide (file_code = [x81]) then file_num + 1 else file_num)
  end.

(** The [while] loop of [_parse_file0], one row per unit of [fuel];
    [None] when the fuel runs out before the loop ends. *)
Fixpoint parse_file0_loop (fuel : nat) (row_size : Z) (data : list byte)
    (file_pos file_num : Z) (data_files : gmap string file_info)
    : option (result (gmap string file_info)) :=
  if file_pos <? Z.of_nat (length data) then
    match fuel with
    | O => None
    | S fuel' =>
        match parse_row data file_pos file_num data_files with
        | Raise e => Some (Raise e)
        | Ok (data_files', file_num') =>
            parse_file0_loop fuel' row_size data (file_pos + row_size)
              file_num' data_files'
        end
    end
  else Some (Ok data_files).

(** [data[52]] and [data[46]] are read first, in that order; the line that
    prints them is left out. *)
Definition _parse_file0 (fuel : nat) (plc_type : string) (data : list byte)
    : option (result (gmap string file_info)) :=
  match data !! 52%nat with
  | None => Some (Raise IndexError)
  | Some num_data_files =>
      match data !! 46%nat with
      | None => Some (Raise IndexError)
      | Some num_lad_files =>
          let '(file_pos, row_size) :=
            _get_file_position_row_size_for_plc_type plc_type in
          parse_file0_loop fuel row_size data file_pos 0 ∅
      end
  end.
End File0.

Section DirectorySize.
Variable PCCC_ERROR_CODE : gmap Z string.
Variables CLASS_TYPE_8bit PCCC_PATH vid vsn SLC_CMD_CODE : list byte.
Variable Conn : Type.
Variable next_sequence : Conn -> Z * Conn.
Variable send_unit_data : Conn -> list byte -> list byte * Conn.

Definition size_request (file_type element : list byte) (sequence : Z)
    : result (list byte) :=
  let* sq := Pack_uint sequence in
  Ok (_msg_start CLASS_TYPE_8bit PCCC_PATH vid vsn ++ SLC_CMD_CODE ++ [x00]
        ++ sq ++ [xa1] ++ [x04] ++ [x00] ++ file_type ++ element).

(** [Ok None] is the [None] the function returns: on a status that is not
    success, and when unpacking the size raises. *)
Definition _get_file_directory_size (c : Conn) (file_type element : list byte)
    : Conn * result (option Z) :=
  let '(sequence, c1) := next_sequence c in
  match size_request file_type element sequence with
  | Raise e => (c1, Raise e)
  | Ok request =>
      let '(raw, c2) := send_unit_data c1 request in
      match request_status PCCC_ERROR_CODE raw with
      | None =>
          match Unpack_uint (drop SLC_REPLY_START raw) with
          | Ok size => (c2, Ok (Some size))
          | Raise _ => (c2, Ok None)
          end
      | Some status => (c2, Ok None)
      end
  end.
End DirectorySize.

(** ** [read] and [write] *)

(** What [read] and [write] return: the one [Tag] of a single address, or
    the list of results. *)
Inductive ReadWriteReturn : Type :=
| Single (t : Tag)
| Several (ts : list Tag).

(** [results[0] if len(results) == 1 else results] *)
Definition single_or_list (results : list Tag) : ReadWriteReturn :=
  match results with
  | [t] => Single t
  | _ => Several results
  end.

Section ReadWrite.
Variable PCCC_CT : gmap string Z.
Variable PCCC_DATA_SIZE : gmap string Z.
Variable PCCC_DATA_TYPE : gmap string (list byte).
Variable PCCC_ERROR_CODE : gmap Z string.
Variable Pack : gmap string (pyval -> result (list byte)).
Variable Unpack : gmap string (list byte -> result pyval).
Variables CLASS_TYPE_8bit PCCC_PATH vid vsn : list byte.
Variables SLC_CMD_CODE SLC_FNC_READ SLC_FNC_WRITE : list byte.
Variable Conn : Type.
Variable next_sequence : Conn -> Z * Conn.
Variable send_unit_data : Conn -> list byte -> list byte * Conn.

(** [[self._read_tag(tag) for tag in addresses]]: the first exception
    ends the comprehension. *)
Fixpoint read_each (c : Conn) (addresses : list string)
    : Conn * result (list Tag) :=
  match addresses with
  | [] => (c, Ok [])
  | a :: rest =>
      match _read_tag PCCC_CT PCCC_DATA_SIZE PCCC_DATA_TYPE PCCC_ERROR_CODE
              Unpack CLASS_TYPE_8bit PCCC_PATH vid vsn SLC_CMD_CODE
              SLC_FNC_READ Conn next_sequence send_unit_data c a with
      | (c1, Raise e) => (c1, Raise e)
      | (c1, Ok t) =>
          match read_each c1 rest with
          | (c2, Raise e) => (c2, Raise e)
          | (c2, Ok ts) => (c2, Ok (t :: ts))
          end
      end
  end.

(** The body of [read]; the decorator [with_forward_open] of
    [cip_base.py], which opens the connection before the body runs, is
    the collaborator's. *)
Definition read (c : Conn) (addresses : list string)
    : Conn * result ReadWriteReturn :=
  let '(c', r) := read_each c addresses in
  (c', let* results := r in Ok (single_or_list results)).

Fixpoint write_each (c : Conn) (address_values : list (string * pyval))
    : Conn * result (list Tag) :=
  match address_values with
  | [] => (c, Ok [])
  | (a, v) :: rest =>
      match _write_tag PCCC_CT PCCC_DATA_SIZE PCCC_DATA_TYPE PCCC_ERROR_CODE
              Pack CLASS_TYPE_8bit PCCC_PATH vid vsn SLC_CMD_CODE
              SLC_FNC_WRITE Conn next_sequence send_unit_data c a v with
      | (c1, Raise e) => (c1, Raise e)
      | (c1, Ok t) =>
          match write_each c1 rest with
          | (c2, Raise e) => (c2, Raise e)
          | (c2, Ok ts) => (c2, Ok (t :: ts))
          end
      end
  end.

(** The body of [write], under the same decorator. *)
Definition write (c : Conn) (address_values : list (string * pyval))
    : Conn * result ReadWriteReturn :=
  let '(c', r) := write_each c address_values in
  (c', let* results := r in Ok (single_or_list results)).
End ReadWrite.

(** ** The shape of a parsed address *)

(** What the bounds checks of [parse_tag] leave true of the dict it
    returns. *)
Record parsed_ok (PCCC_CT : gmap string Z) (t : TagAddress) : Prop := {
  ok_field :
    (address_field t = 2 /\ get_sub_element t = VNone)
    \/ (address_field t = 3
        /\ exists k, bit_position_of t = Ok k
             /\ (0 <= k <= 15 \/ exists n, PCCC_CT !! n = Some k));
  ok_file : exists n, int_of_str (file_number t) = Ok n /\ 0 <= n <= 255;
  ok_element : exists e, py_int (element_number t) = Ok e /\ 0 <= e <= 255;
  ok_count : 0 <= element_count t;
  ok_size : data_size t = None;
  ok_io : pos_number t <> None ->
          address_field t = 2 /\ file_number t = "0"
}.

(** ** How the directory read can end *)

(** The three ways a run of the directory loop ends: with at least the
    announced number of bytes, with the [DataError] of a failed chunk, or
    with the packing error of a request that could not be built. *)
Definition ends_well (Conn : Type) (file0_size : Z) (o : outcome Conn)
    : Prop :=
  (exists data, out_result o = Ok data /\ file0_size <= Z.of_nat (length data))
  \/ (exists status, out_result o = Raise (DataError (File0Error status)))
  \/ out_result o = Raise StructError.

(** ** The entries of the file directory *)

(** What [_parse_file0] stores under a name: the name is a known file type
    followed by a file number, the byte length is an unsigned 16-bit
    value, and the element count is the byte length divided by the element
    size of the type, 2 when the table has none. *)
Definition entry_ok (PCCC_DATA_SIZE : gmap string Z)
    (PCCC_DATA_TYPE_name : list byte -> option string)
    (file_name : string) (e : file_info) : Prop :=
  exists file_type n code,
    file_name = String.append file_type (str_of_nat n)
    /\ 0 <= n
    /\ known_type PCCC_DATA_TYPE_name code = Some file_type
    /\ 0 <= byte_length e <= 65535
    /\ elements e = byte_length e / default 2 (PCCC_DATA_SIZE !! file_type).

(** ** What a write reports *)

(** The [Tag] that [_write_tag] makes of the reply [raw] to the request
    for the address [t] and the value [v]: it is named and typed by the
    address, its error is the status of that reply, and it carries the
    value that was passed when there is no error and no value when there
    is one. *)
Definition reports (PCCC_ERROR_CODE : gmap Z string) (t : TagAddress)
    (v : pyval) (raw : list byte) (r : Tag) : Prop :=
  name r = tag t /\ type r = file_type t
  /\ error r = request_status PCCC_ERROR_CODE raw
  /\ (error r = None -> value r = v)
  /\ (error r <> None -> value r = VNone).

Section WriteRun.
Variable PCCC_CT : gmap string Z.
Variable PCCC_DATA_SIZE : gmap string Z.
Variable PCCC_DATA_TYPE : gmap string (list byte).
Variable PCCC_ERROR_CODE : gmap Z string.
Variable Pack : gmap string (pyval -> result (list byte)).
Variables CLASS_TYPE_8bit PCCC_PATH vid vsn : list byte.
Variables SLC_CMD_CODE SLC_FNC_WRITE : list byte.
Variable Conn : Type.
Variable next_sequence : Conn -> Z * Conn.
Variable send_unit_data : Conn -> list byte -> list byte * Conn.

(** A run of writes that takes the connection from [c] to [c']: pair by
    pair, in order, the address parses, the request is built with the
    sequence number the connection hands out then, it is sent, the [Tag]
    reports the reply to it, and the next pair starts from the connection
    as the exchange left it. *)
Inductive write_run
    : Conn -> list (string * pyval) -> list Tag -> Conn -> Prop :=
| write_run_nil (c : Conn) : write_run c [] [] c
| write_run_cons (c : Conn) (a : string) (v : pyval)
    (rest : list (string * pyval)) (t : TagAddress) (w : Z)
    (request : list byte) (r : Tag) (ts : list Tag) (c' : Conn) :
    parse_tag PCCC_CT a = Ok (Some t) ->
    PCCC_DATA_SIZE !! file_type t = Some w ->
    write_request PCCC_CT PCCC_DATA_TYPE Pack CLASS_TYPE_8bit PCCC_PATH vid
      vsn SLC_CMD_CODE SLC_FNC_WRITE (fst (next_sequence c)) w
      (set_data_size w t) v = Ok request ->
    reports PCCC_ERROR_CODE t v
      (fst (send_unit_data (snd (next_sequence c)) request)) r ->
    write_run (snd (send_unit_data (snd (next_sequence c)) request))
      rest ts c' ->
    write_run c ((a, v) :: rest) (r :: ts) c'.
End WriteRun.

(** ** What a pattern matches

    The matches of a pattern, apart from the matcher: [matches r txt new]
    when the pattern [r] matches the whole of [txt] and its named groups
    capture the list [new], the last capture first. *)

Inductive matches : regex -> string -> captures -> Prop :=
| matches_chr (c d : ascii) :
    chr_eq c d = true -> matches (Chr c) (String d EmptyString) []
| matches_cls (set : string) (d : ascii) :
    in_string (chr_eq d) set = true ->
    matches (Cls set) (String d EmptyString) []
| matches_dig (d : ascii) :
    is_digit d = true -> matches Dig (String d EmptyString) []
| matches_dot (d : ascii) :
    Ascii.eqb d newline = false -> matches Dot (String d EmptyString) []
| matches_cat (r1 r2 : regex) (t1 t2 : string) (n1 n2 : captures) :
    matches r1 t1 n1 -> matches r2 t2 n2 ->
    matches (Cat r1 r2) (String.append t1 t2) (n2 ++ n1)
| matches_alt_l (r1 r2 : regex) (t : string) (n : captures) :
    matches r1 t n -> matches (Alt r1 r2) t n
| matches_alt_r (r1 r2 : regex) (t : string) (n : captures) :
    matches r2 t n -> matches (Alt r1 r2) t n
| matches_rep_stop (r : regex) (hi : nat) :
    matches (Rep r 0 hi) EmptyString []
| matches_rep_more (r : regex) (lo hi : nat) (t1 t2 : string)
    (n1 n2 : captures) :
    matches r t1 n1 -> matches (Rep r (Nat.pred lo) hi) t2 n2 ->
    matches (Rep r lo (S hi)) (String.append t1 t2) (n2 ++ n1)
| matches_plus (r : regex) (hi : nat) (t : string) (n : captures) :
    matches (Rep r 1 hi) t n -> matches (Plus r) t n
| matches_opt_some (r : regex) (t : string) (n : captures) :
    matches r t n -> matches (Opt r) t n
| matches_opt_none (r : regex) :
    matches (Opt r) EmptyString []
| matches_grp (name : option string) (r : regex) (t : string)
    (n : captures) :
    matches r t n -> matches (Grp name r) t (record_group name t n).

(** What [run] hands to its continuation on success is a match of the
    pattern: the text it moved over and the captures it added. *)
Definition run_sound_at (r : regex) : Prop :=
  forall (R : Type) (s : string) (cs : captures)
         (k : string -> captures -> option R) (x : R),
    run r s cs k = Some x ->
    exists txt new s',
      s = String.append txt s' /\ matches r txt new
      /\ k s' (new ++ cs) = Some x.

(** A string that [int] reads. *)
Definition numeral (s : string) : Prop := exists v, int_of_str s = Ok v.

(** The names of the eleven file types. *)
Definition file_types : list string :=
  ["T"; "C"; "L"; "F"; "B"; "N"; "I"; "O"; "ST"; "A"; "S"].

(** The names of the timer and counter fields that the first pattern
    accepts. *)
Definition field_names : list string :=
  ["ACC"; "PRE"; "EN"; "DN"; "TT"; "CU"; "CD"; "OV"; "UN"; "UA"].

(** All 256 characters. *)
Definition all_ascii : list ascii := map ascii_of_nat (seq 0 256).

Fixpoint all_upper (s : string) : bool :=
  match s with
  | EmptyString => true
  | String c s' => is_upper c && all_upper s'
  end.

(** The group [n] of [m] took part in the match, with a text that [P]
    holds of. *)
Definition text_of (m : Match) (n : string) (P : string -> Prop) : Prop :=
  exists txt, group m n = Ok (Some txt) /\ P txt.

(** The group [n] of [m] is declared, and [P] holds of its text when it
    took part. *)
Definition optional (m : Match) (n : string) (P : string -> Prop) : Prop :=
  group m n = Ok None \/ text_of m n P.

(** The evaluation ends without an exception. *)
Definition returns {A : Type} (x : result A) : Prop := exists v, x = Ok v.

Definition any_text (txt : string) : Prop := True.

(** The upper case of the text is one of [names]. *)
Definition named_in (names : list string) (txt : string) : Prop :=
  In (upper txt) names.

(** A text of decimal digits, one at least: what [\d+] matches. *)
Definition digit_text (t : string) : Prop :=
  (1 <= String.length t)%nat
  /\ forall acc, exists v, digits_value acc t = Some v.

(** The pattern [r] matches in [s] with a count of more digits than [int]
    reads. *)
Definition long_count (r : regex) (s : string) : Prop :=
  exists m cnt,
    search r s = Some m
    /\ group m "element_count" = Ok (Some cnt)
    /\ (int_max_str_digits < String.length cnt)%nat.

(** A string of [n] digits [1]. *)
Fixpoint ones (n : nat) : string :=
  match n with
  | O => EmptyString
  | S n' => String "1" (ones n')
  end.

(** ** More samples *)

(** The address [N7:0] as [parse_tag] returns it. *)
Definition sample_N7 : TagAddress :=
  mkTagAddress "N" "7" (VStr "0") None (Some VNone) 2 1 "N7:0" None.

(** The address [N7:0{2}]. *)
Definition sample_N7_pair : TagAddress :=
  mkTagAddress "N" "7" (VStr "0") None (Some VNone) 2 2 "N7:0" None.

(** The sample connection with a controller that accepts every request. *)
Definition sample_read_ok : Z -> string -> Z * result Tag :=
  _read_tag sample_PCCC_CT sample_PCCC_DATA_SIZE sample_PCCC_DATA_TYPE
    sample_PCCC_ERROR_CODE sample_Unpack [x20] sample_path sample_vid
    sample_vsn [x0f] [xa2] Z sample_next_sequence
    (sample_send x00 sample_size_at).

Definition sample_write_tag : Z -> string -> pyval -> Z * result Tag :=
  _write_tag sample_PCCC_CT sample_PCCC_DATA_SIZE sample_PCCC_DATA_TYPE
    sample_PCCC_ERROR_CODE sample_Pack [x20] sample_path sample_vid
    sample_vsn [x0f] [xaa] Z sample_next_sequence
    (sample_send x00 sample_size_at).

Definition sample_read : Z -> list string -> Z * result ReadWriteReturn :=
  read sample_PCCC_CT sample_PCCC_DATA_SIZE sample_PCCC_DATA_TYPE
    sample_PCCC_ERROR_CODE sample_Unpack [x20] sample_path sample_vid
    sample_vsn [x0f] [xa2] Z sample_next_sequence
    (sample_send x00 sample_size_at).

Definition sample_write
    : Z -> list (string * pyval) -> Z * result ReadWriteReturn :=
  write sample_PCCC_CT sample_PCCC_DATA_SIZE sample_PCCC_DATA_TYPE
    sample_PCCC_ERROR_CODE sample_Pack [x20] sample_path sample_vid
    sample_vsn [x0f] [xaa] Z sample_next_sequence
    (sample_send x00 sample_size_at).

(** A controller that answers every request with a success status and no
    payload. *)
Definition starved_send (c : Z) (request : list byte) : list byte * Z :=
  (replicate 61 x00, c).

(** A controller that reports a directory of 130 bytes when asked for the
    size, function code [0xa1], and answers every other request as the
    sample controller does. *)
Definition directory_send (c : Z) (request : list byte) : list byte * Z :=
  if bool_decide (request !! 17%nat = Some xa1)
  then (replicate 61 x00 ++ [x82; x00], c)
  else sample_send x00 sample_size_at c request.

(** The type codes of the sample [PCCC_DATA_TYPE], read from code to
    name. *)
Definition sample_type_codes : list (list byte * string) :=
  [([x89], "N"); ([x85], "B"); ([x86], "T"); ([x87], "C"); ([x84], "S");
   ([x8a], "F"); ([x91], "L"); ([x8d], "ST"); ([x8e], "A"); ([x83], "I");
   ([x82], "O")].

Definition sample_PCCC_DATA_TYPE_name (code : list byte) : option string :=
  match list_find (fun p => bool_decide (fst p = code)) sample_type_codes with
  | Some (_, p) => Some (snd p)
  | None => None
  end.

(** A directory with three rows of 10 bytes after a header of 79 bytes: an
    integer file of 10 bytes, a reserved row, a binary file of 4 bytes. *)
Definition sample_file0 : list byte :=
  replicate 79 x00
    ++ [x89; x0a; x00] ++ replicate 7 x00
    ++ [x81] ++ replicate 9 x00
    ++ [x85; x04; x00] ++ replicate 7 x00.

Definition sample_file0_entries : gmap string file_info :=
  <["B2" := mkFileInfo 2 4]> (<["N0" := mkFileInfo 5 10]> ∅).

(** * Properties *)

(** ** Bytes *)

Lemma Z_of_byte_of_Z (n : Z) : Z_of_byte (byte_of_Z n) = n mod 256.
Proof.
  unfold Z_of_byte, byte_of_Z.
  assert (Hr : 0 <= n mod 256 < 256) by (apply Z.mod_pos_bound; lia).
  destruct (Byte.of_N (Z.to_N (n mod 256))) as [b|] eqn:E.
  - apply Byte.to_of_N in E. rewrite E. lia.
  - apply Byte.of_N_None_iff in E. lia.
Qed.

Lemma Z_of_byte_zero (b : byte) : Z_of_byte b = 0 <-> b = x00.
Proof.
  split.
  - intros H.
    assert (E : Byte.to_N b = 0%N) by (unfold Z_of_byte in H; lia).
    pose proof (Byte.of_to_N b) as P. rewrite E in P.
    cbv in P. congruence.
  - intros ->. reflexivity.
Qed.

(** ** The reply status *)

Section StatusFacts.
Variable PCCC_ERROR_CODE : gmap Z string.

Lemma request_status_at (data : list byte) (b : byte) :
  data !! 58%nat = Some b ->
  request_status PCCC_ERROR_CODE data =
    if decide (b = x00) then None
    else Some (default unknown_status (PCCC_ERROR_CODE !! Z_of_byte b)).
Proof.
  intros H. unfold request_status. rewrite H. unfold SUCCESS.
  destruct (decide (b = x00)) as [->|Hb]; [reflexivity|].
  destruct (Z.eqb_spec (Z_of_byte b) 0) as [E|E]; [|reflexivity].
  apply Z_of_byte_zero in E. contradiction.
Qed.

(** C8: a reply buffer with fewer than 59 bytes has no byte at offset 58;
    [request_status] then returns the message "Unknown Status", and never
    [None], which stands for success. *)
Theorem request_status_truncated (data : list byte) :
  (length data < 59)%nat ->
  request_status PCCC_ERROR_CODE data = Some "Unknown Status"
  /\ request_status PCCC_ERROR_CODE data <> None.
Proof.
  intros H. unfold request_status.
  rewrite (lookup_ge_None_2 data 58) by lia.
  split; [reflexivity | discriminate].
Qed.
End StatusFacts.

Lemma request_status_truncated_witness :
  (length [x00; x00; x00] < 59)%nat
  /\ request_status sample_PCCC_ERROR_CODE [x00; x00; x00] = Some "Unknown Status"
  /\ request_status sample_PCCC_ERROR_CODE [x00; x00; x00] <> None.
Proof.
  split; [simpl; lia|].
  apply (request_status_truncated sample_PCCC_ERROR_CODE [x00; x00; x00]).
  simpl; lia.
Defined.

Section RoundTripFacts.
Variable PCCC_CT : gmap string Z.
Variable PCCC_DATA_SIZE : gmap string Z.
Variable PCCC_DATA_TYPE : gmap string (list byte).
Variable PCCC_ERROR_CODE : gmap Z string.
Variable Pack : gmap string (pyval -> result (list byte)).
Variable Unpack : gmap string (list byte -> result pyval).
Variables CLASS_TYPE_8bit PCCC_PATH vid vsn : list byte.
Variables SLC_CMD_CODE SLC_FNC_READ SLC_FNC_WRITE : list byte.
Variable Conn : Type.
Variable next_sequence : Conn -> Z * Conn.
Variable send_unit_data : Conn -> list byte -> list byte * Conn.

Local Abbreviation read_tag :=
  (_read_tag PCCC_CT PCCC_DATA_SIZE PCCC_DATA_TYPE PCCC_ERROR_CODE Unpack
     CLASS_TYPE_8bit PCCC_PATH vid vsn SLC_CMD_CODE SLC_FNC_READ
     Conn next_sequence send_unit_data).
Local Abbreviation write_tag :=
  (_write_tag PCCC_CT PCCC_DATA_SIZE PCCC_DATA_TYPE PCCC_ERROR_CODE Pack
     CLASS_TYPE_8bit PCCC_PATH vid vsn SLC_CMD_CODE SLC_FNC_WRITE
     Conn next_sequence send_unit_data).
Local Abbreviation read_req :=
  (read_request PCCC_DATA_SIZE PCCC_DATA_TYPE
     CLASS_TYPE_8bit PCCC_PATH vid vsn SLC_CMD_CODE SLC_FNC_READ).
Local Abbreviation write_req :=
  (write_request PCCC_CT PCCC_DATA_TYPE Pack
     CLASS_TYPE_8bit PCCC_PATH vid vsn SLC_CMD_CODE SLC_FNC_WRITE).

Lemma read_tag_reply (c : Conn) (s : string) (_tag : TagAddress)
    (request : list byte) :
  parse_tag PCCC_CT s = Ok (Some _tag) ->
  read_req (fst (next_sequence c)) _tag = Ok request ->
  forall status,
    request_status PCCC_ERROR_CODE
      (fst (send_unit_data (snd (next_sequence c)) request)) = Some status ->
    snd (read_tag c s) =
      Ok (mkTag (tag _tag) VNone (file_type _tag) (Some status)).
Proof.
  intros Hp Hr status Hs. unfold _read_tag. rewrite Hp.
  destruct (next_sequence c) as [sq c1]; simpl in *. rewrite Hr.
  destruct (send_unit_data c1 request) as [raw c2]; simpl in *.
  rewrite Hs. reflexivity.
Qed.

Lemma write_tag_reply (c : Conn) (s : string) (v : pyval)
    (parsed : TagAddress) (width : Z) (request : list byte) :
  parse_tag PCCC_CT s = Ok (Some parsed) ->
  PCCC_DATA_SIZE !! file_type parsed = Some width ->
  write_req (fst (next_sequence c)) width (set_data_size width parsed) v
    = Ok request ->
  forall status,
    request_status PCCC_ERROR_CODE
      (fst (send_unit_data (snd (next_sequence c)) request)) = Some status ->
    snd (write_tag c s v) =
      Ok (mkTag (tag parsed) VNone (file_type parsed) (Some status)).
Proof.
  intros Hp Hw Hr status Hs. unfold _write_tag. rewrite Hp, Hw.
  destruct (next_sequence c) as [sq c1]; simpl in *. rewrite Hr.
  destruct (send_unit_data c1 request) as [raw c2]; simpl in *.
  rewrite Hs. reflexivity.
Qed.

(** C4: the status of a reply is its byte at offset 58.  The value 0x00
    is success: [request_status] returns [None].  Any other value is
    looked up in the error-code table, a code the table does not hold
    giving "Unknown Status"; and when such a reply answers the request
    of a read or of a write, the call returns a [Tag] with no value that
    carries the message, it does not raise. *)
Theorem status_of_reply (raw : list byte) (b : byte) :
  raw !! 58%nat = Some b ->
  (b = x00 -> request_status PCCC_ERROR_CODE raw = None)
  /\ (b <> x00 ->
      request_status PCCC_ERROR_CODE raw = Some (status_text PCCC_ERROR_CODE b)
      /\ (PCCC_ERROR_CODE !! Z_of_byte b = None ->
          status_text PCCC_ERROR_CODE b = "Unknown Status")
      /\ (forall c s _tag request,
            parse_tag PCCC_CT s = Ok (Some _tag) ->
            read_req (fst (next_sequence c)) _tag = Ok request ->
            fst (send_unit_data (snd (next_sequence c)) request) = raw ->
            snd (read_tag c s) =
              Ok (mkTag (tag _tag) VNone (file_type _tag)
                    (Some (status_text PCCC_ERROR_CODE b))))
      /\ (forall c s v parsed width request,
            parse_tag PCCC_CT s = Ok (Some parsed) ->
            PCCC_DATA_SIZE !! file_type parsed = Some width ->
            write_req (fst (next_sequence c)) width
              (set_data_size width parsed) v = Ok request ->
            fst (send_unit_data (snd (next_sequence c)) request) = raw ->
            snd (write_tag c s v) =
              Ok (mkTag (tag parsed) VNone (file_type parsed)
                    (Some (status_text PCCC_ERROR_CODE b))))).
Proof.
  intros H58. pose proof (request_status_at PCCC_ERROR_CODE raw b H58) as St.
  split.
  - intros ->. rewrite St. reflexivity.
  - intros Hb. destruct (decide (b = x00)) as [|_]; [contradiction|].
    repeat split.
    + exact St.
    + intros Hn. unfold status_text. rewrite Hn. reflexivity.
    + intros c s _tag request Hp Hr Hraw.
      eapply read_tag_reply; eauto. rewrite Hraw. exact St.
    + intros c s v parsed width request Hp Hw Hr Hraw.
      eapply write_tag_reply; eauto. rewrite Hraw. exact St.
Qed.
End RoundTripFacts.

Lemma status_of_reply_witness :
  let raw := replicate 58 x00 ++ [x10; x00; x00; xab; xab] in
  raw !! 58%nat = Some x10
  /\ request_status sample_PCCC_ERROR_CODE raw = Some "Illegal command or format"
  /\ snd (sample_read_tag 7 "N7:0") =
       Ok (mkTag "N7:0" VNone "N" (Some "Illegal command or format")).
Proof.
  intros raw.
  assert (H58 : raw !! 58%nat = Some x10) by reflexivity.
  destruct (status_of_reply sample_PCCC_CT sample_PCCC_DATA_SIZE
              sample_PCCC_DATA_TYPE sample_PCCC_ERROR_CODE sample_Pack
              sample_Unpack [x20] sample_path sample_vid sample_vsn
              [x0f] [xa2] [xaa] Z sample_next_sequence
              (sample_send x10 sample_size_at) raw x10 H58) as [_ Hne].
  destruct (Hne ltac:(discriminate)) as (Hst & _ & Hread & _).
  split; [exact H58|]. split; [exact Hst|].
  unfold sample_read_tag.
  eapply (Hread 7 "N7:0"
            (mkTagAddress "N" "7" (VStr "0") None (Some VNone) 2 1 "N7:0" None));
    vm_compute; reflexivity.
Defined.

(** ** The address grammar *)

(** C1: on ["B3/20"] the code does not return element 1 and bit 4.  The
    [/] of [bit_position / 16] is Python 3's true division, so
    [element_number] is the float 1.25, and the remainder computed from it,
    [20 - 1.25 * 16], is 0.0. *)
Theorem parse_tag_B3_20 (PCCC_CT : gmap string Z) :
  parse_tag PCCC_CT "B3/20" =
    Ok (Some {| file_type := "B"; file_number := "3";
                element_number := VFloat 1.25%float; pos_number := None;
                sub_element := Some (VFloat 0%float); address_field := 3;
                element_count := 1; tag := "B3/20"; data_size := None |})
  /\ bit_position_of
       {| file_type := "B"; file_number := "3";
          element_number := VFloat 1.25%float; pos_number := None;
          sub_element := Some (VFloat 0%float); address_field := 3;
          element_count := 1; tag := "B3/20"; data_size := None |} = Ok 0.
Proof.
  split; vm_compute; reflexivity.
Qed.

(** The same holds along the whole range of the rule: for every bit
    offset from 0 to 4095 of file 3, the element number is the float
    quotient and the sub-element is 0.0. *)
Lemma parse_tag_binary_sweep (n : Z) :
  0 <= n < 4096 -> binary_agrees n = true.
Proof.
  intros Hn.
  assert (H : forallb binary_agrees (map Z.of_nat (seq 0 4096)) = true)
    by (vm_compute; reflexivity).
  rewrite forallb_forall in H. apply H.
  apply in_map_iff. exists (Z.to_nat n). split; [lia|].
  apply in_seq. lia.
Qed.

(** C5: the bit form of the status-file rule stores [t.group(0)] as the
    tag, so the count token stays: ["S:1/5{3}"] keeps its ["{3}"].  The
    word form of the same rule, and the bit form of the word-file rule,
    strip it. *)
Theorem parse_tag_status_bit_keeps_count (PCCC_CT : gmap string Z) :
  parse_tag PCCC_CT "S:1/5{3}" =
    Ok (Some {| file_type := "S"; file_number := "2";
                element_number := VStr "1"; pos_number := None;
                sub_element := Some (VStr "5"); address_field := 3;
                element_count := 3; tag := "S:1/5{3}"; data_size := None |})
  /\ parse_tag PCCC_CT "S:1{3}" =
    Ok (Some {| file_type := "S"; file_number := "2";
                element_number := VStr "1"; pos_number := None;
                sub_element := None; address_field := 2;
                element_count := 3; tag := "S:1"; data_size := None |})
  /\ parse_tag PCCC_CT "N7:1/5{3}" =
    Ok (Some {| file_type := "N"; file_number := "7";
                element_number := VStr "1"; pos_number := None;
                sub_element := Some (VStr "5"); address_field := 3;
                element_count := 3; tag := "N7:1/5"; data_size := None |}).
Proof.
  repeat split; vm_compute; reflexivity.
Qed.

(** C9: the patterns are searched for, not matched against the whole
    input.  No pattern matches all of ["XN7:0Y"], yet [parse_tag] succeeds
    on it and returns the address of the substring ["N7:0"], the result it
    gives for ["N7:0"] itself. *)
Theorem parse_tag_searches_inside (PCCC_CT : gmap string Z) :
  existsb (fun r => fullmatch r "XN7:0Y") patterns = false
  /\ parse_tag PCCC_CT "XN7:0Y" =
    Ok (Some {| file_type := "N"; file_number := "7";
                element_number := VStr "0"; pos_number := None;
                sub_element := Some VNone; address_field := 2;
                element_count := 1; tag := "N7:0"; data_size := None |})
  /\ parse_tag PCCC_CT "XN7:0Y" = parse_tag PCCC_CT "N7:0".
Proof.
  repeat split; vm_compute; reflexivity.
Qed.

(** ** Every parsed address has a bit position *)

Lemma remainder_is_zero (n : Z) :
  0 <= n <= 4095 ->
  truthy (VFloat (PrimFloat.sub (float_of_int n)
                    (PrimFloat.mul
                       (PrimFloat.div (float_of_int n) (float_of_int 16))
                       (float_of_int 16)))) = false.
Proof.
  intros Hn.
  assert (H : forallb
                (fun n => negb (truthy (VFloat
                   (PrimFloat.sub (float_of_int n)
                      (PrimFloat.mul
                         (PrimFloat.div (float_of_int n) (float_of_int 16))
                         (float_of_int 16))))))
                (map Z.of_nat (seq 0 4096)) = true)
    by (vm_compute; reflexivity).
  rewrite forallb_forall in H. apply negb_true_iff. apply H.
  apply in_map_iff. exists (Z.to_nat n). split; [lia|].
  apply in_seq. lia.
Qed.

Lemma first_rule_some
    (rules : list (string -> result (option TagAddress)))
    (s : string) (t : TagAddress) :
  first_rule rules s = Ok (Some t) ->
  exists rule, In rule rules /\ rule s = Ok (Some t).
Proof.
  induction rules as [|rule rest IH]; simpl; [discriminate|].
  destruct (rule s) as [[d|]|e] eqn:E; simpl; try discriminate.
  - intros [= <-]. exists rule. split; [left; reflexivity | exact E].
  - intros H. destruct (IH H) as (r & Hin & Hr).
    exists r. split; [right; exact Hin | exact Hr].
Qed.

(** Case analysis on the next step of a rule that returned a dict. *)
Ltac rule_step :=
  match goal with
  | H : bind ?e _ = Ok _ |- _ =>
      let E := fresh "E" in
      destruct e eqn:E; cbn [bind] in H; [|discriminate H]
  | H : (if ?b then _ else _) = Ok (Some _) |- _ =>
      let E := fresh "E" in
      destruct b eqn:E; [|discriminate H]
  | H : match ?o with Some _ => _ | None => _ end = Ok (Some _) |- _ =>
      let E := fresh "E" in
      destruct o eqn:E
  | H : Ok (Some _) = Ok (Some _) |- _ => injection H as <-
  | H : Ok None = Ok (Some _) |- _ => discriminate H
  end.

(** A bound check that passed gives the number it checked. *)
Lemma between_true (lo hi : Z) (x : result Z) :
  between lo hi x = Ok true -> exists v, x = Ok v /\ lo <= v <= hi.
Proof.
  unfold between. destruct x as [v|]; simpl; [|discriminate].
  intros [= H]. apply andb_prop in H as [H1 H2]. exists v. split; [reflexivity|lia].
Qed.

Lemma py_and_true (a b : result bool) :
  py_and a b = Ok true -> a = Ok true /\ b = Ok true.
Proof.
  unfold py_and. destruct a as [[|]|]; simpl; try discriminate.
  intros ->. split; reflexivity.
Qed.

Lemma digit_bit_position (t : Match) (bit : string) (a : TagAddress) :
  group t "sub_element" = Ok (Some bit) ->
  between 0 15 (int_group t "sub_element") = Ok true ->
  address_field a = 3 ->
  sub_element a = Some (VStr bit) ->
  exists k, bit_position_of a = Ok k /\ 0 <= k <= 15.
Proof.
  intros Hg Hb Ha Hs.
  apply between_true in Hb as (v & Hv & Hr).
  unfold int_group, str_group in Hv. rewrite Hg in Hv. simpl in Hv.
  exists v. split; [|exact Hr].
  unfold bit_position_of, get_sub_element, or_zero. rewrite Ha, Hs. simpl.
  destruct bit; [discriminate Hv|]. simpl. exact Hv.
Qed.

Lemma search_declared (r : regex) (s : string) (m : Match) :
  search r s = Some m -> declared m = group_names r.
Proof.
  induction s as [|c s IH]; simpl;
    destruct (run r _ [] _) as [[s' cs]|]; try discriminate;
    try (intros [= <-]; reflexivity).
  exact IH.
Qed.

Ltac split_checks :=
  repeat match goal with
         | H : py_and _ _ = Ok true |- _ =>
             let H1 := fresh "Hc" in
             let H2 := fresh "Hc" in
             apply py_and_true in H as [H1 H2]
         end.

Ltac digit_bit :=
  match goal with
  | Hg : group ?m "sub_element" = Ok (Some ?bit),
    Hb : between 0 15 (int_group ?m "sub_element") = Ok true
    |- exists _, bit_position_of ?a = _ =>
      let k := fresh "k" in
      let Hk := fresh "Hk" in
      destruct (digit_bit_position m bit a Hg Hb eq_refl eq_refl) as (k & Hk & _);
      exists k; exact Hk
  end.

Section ParsedFacts.
Variable PCCC_CT : gmap string Z.

(** Whatever [parse_tag] returns, [writeable_value] and
    [_parse_read_reply] can compute its bit position. *)
Lemma parsed_bit_position (s : string) (t : TagAddress) :
  parse_tag PCCC_CT s = Ok (Some t) -> exists k, bit_position_of t = Ok k.
Proof.
  intros H. apply first_rule_some in H as (rule & Hin & H).
  simpl in Hin.
  destruct Hin as [<-|[<-|[<-|[<-|[<-|[<-|[<-|[]]]]]]]].
  - unfold rule_timer_counter in H. repeat rule_step.
    unfold bit_position_of, or_zero; simpl.
    match goal with |- context [negb ?b] => destruct (negb b) end;
      eexists; reflexivity.
  - unfold rule_word in H. repeat rule_step; split_checks.
    + digit_bit.
    + exists 0. reflexivity.
  - unfold rule_io in H. repeat rule_step; split_checks.
    + match goal with
      | Hs : search re_io s = Some ?m,
        Hb : between 0 255 (int_group ?m "file_number") = Ok true |- _ =>
          apply search_declared in Hs;
          apply between_true in Hb as (v & Hv & _);
          unfold int_group, str_group, group in Hv; rewrite Hs in Hv;
          discriminate Hv
      end.
    + exists 0. reflexivity.
  - unfold rule_string, rule_plain in H. repeat rule_step.
    exists 0. reflexivity.
  - unfold rule_ascii, rule_plain in H. repeat rule_step.
    exists 0. reflexivity.
  - unfold rule_status in H. repeat rule_step; split_checks.
    + digit_bit.
    + exists 0. reflexivity.
  - unfold rule_binary in H. repeat rule_step; split_checks.
    match goal with
    | Hb : between 0 4095 (Ok ?n) = Ok true,
      Hd : truediv ?n 16 = Ok ?f |- _ =>
        apply between_true in Hb as (v & Hv & Hr);
        injection Hv as <-;
        unfold truediv in Hd; simpl in Hd; injection Hd as <-;
        pose proof (remainder_is_zero n Hr) as Hz
    end.
    exists 0. unfold bit_position_of, get_sub_element, or_zero.
    cbn [address_field sub_element]. rewrite Hz. reflexivity.
Qed.
End ParsedFacts.

(** ** [writeable_value] *)

Lemma join_packed_concat (f : pyval -> result (list byte))
    (vs : list pyval) (bss : list (list byte)) :
  Forall2 (fun v bs => f v = Ok bs) vs bss ->
  join_packed f vs = Ok (concat bss).
Proof.
  induction 1 as [|v bs vs bss Hv _ IH]; simpl.
  - reflexivity.
  - rewrite Hv; simpl. rewrite IH; reflexivity.
Qed.

Section PackFacts.
Variable PCCC_CT : gmap string Z.
Variable Pack : gmap string (pyval -> result (list byte)).


(** C10: a value that is already a [bytes] object is returned as it is,
    whatever the parsed tag says: no count check, no mask and value
    pair, no packer, and the dict is left untouched. *)
Theorem writeable_value_bytes (t : TagAddress) (b : list byte) :
  writeable_value PCCC_CT Pack t (VBytes b) = (t, Ok b).
Proof. reflexivity. Qed.

Lemma writeable_value_many (t : TagAddress) (vs : list pyval) (k : Z) :
  1 < element_count t ->
  bit_position_of t = Ok k ->
  (Z.of_nat (length vs) < element_count t ->
     writeable_value PCCC_CT Pack t (VList vs) =
       (t, Raise (RequestError
                    (InsufficientData (element_count t)
                       (Z.of_nat (length vs))))))
  /\ (element_count t <= Z.of_nat (length vs) ->
      forall pack_func bss,
        Pack !! pccc_key t = Some pack_func ->
        Forall2 (fun v bs => pack_func v = Ok bs)
          (take (Z.to_nat (element_count t)) vs) bss ->
        writeable_value PCCC_CT Pack t (VList vs) = (t, Ok (concat bss))).
Proof.
  intros Hn Hk.
  assert (En : element_count_or_1 t = element_count t).
  { unfold element_count_or_1.
    destruct (Z.eqb_spec (element_count t) 0); [lia | reflexivity]. }
  assert (H1 : (1 <? element_count t) = true) by (apply Z.ltb_lt; lia).
  split.
  - intros Hlen. unfold writeable_value. rewrite Hk, En. simpl.
    unfold check_count. rewrite H1. simpl.
    assert (Hlt : (Z.of_nat (length vs) <? element_count t) = true)
      by (apply Z.ltb_lt; lia).
    rewrite Hlt. reflexivity.
  - intros Hlen pack_func bss Hp Hall. unfold writeable_value.
    rewrite Hk, En. simpl. unfold check_count. rewrite H1. simpl.
    assert (Hge : (Z.of_nat (length vs) <? element_count t) = false)
      by (apply Z.ltb_ge; lia).
    rewrite Hge.
    destruct (Z.ltb_spec (element_count t) (Z.of_nat (length vs))) as [Hl|Hl];
      simpl; unfold pack_value; rewrite Hp, H1; simpl.
    + rewrite (join_packed_concat _ _ _ Hall). reflexivity.
    + rewrite take_ge in Hall by lia.
      rewrite (join_packed_concat _ _ _ Hall). reflexivity.
Qed.

Lemma chars_length (s : string) : length (chars s) = String.length s.
Proof. induction s as [|c s IH]; simpl; [reflexivity | now rewrite IH]. Qed.

Lemma chars_prefix (s : string) :
  forall n, chars (substring 0 n s) = take n (chars s).
Proof.
  induction s as [|c s IH]; intros [|n]; simpl; try reflexivity.
  now rewrite IH.
Qed.

(** The same for a [str], whose items are its characters. *)
Lemma writeable_value_text (t : TagAddress) (s : string) (k : Z) :
  1 < element_count t ->
  bit_position_of t = Ok k ->
  (Z.of_nat (String.length s) < element_count t ->
     writeable_value PCCC_CT Pack t (VStr s) =
       (t, Raise (RequestError
                    (InsufficientData (element_count t)
                       (Z.of_nat (String.length s))))))
  /\ (element_count t <= Z.of_nat (String.length s) ->
      forall pack_func bss,
        Pack !! pccc_key t = Some pack_func ->
        Forall2 (fun v bs => pack_func v = Ok bs)
          (take (Z.to_nat (element_count t)) (chars s)) bss ->
        writeable_value PCCC_CT Pack t (VStr s) = (t, Ok (concat bss))).
Proof.
  intros Hn Hk.
  assert (En : element_count_or_1 t = element_count t).
  { unfold element_count_or_1.
    destruct (Z.eqb_spec (element_count t) 0); [lia | reflexivity]. }
  assert (H1 : (1 <? element_count t) = true) by (apply Z.ltb_lt; lia).
  split.
  - intros Hlen. unfold writeable_value. rewrite Hk, En. simpl.
    unfold check_count. rewrite H1. simpl.
    assert (Hlt : (Z.of_nat (String.length s) <? element_count t) = true)
      by (apply Z.ltb_lt; lia).
    rewrite Hlt. reflexivity.
  - intros Hlen pack_func bss Hp Hall. unfold writeable_value.
    rewrite Hk, En. simpl. unfold check_count. rewrite H1. simpl.
    assert (Hge : (Z.of_nat (String.length s) <? element_count t) = false)
      by (apply Z.ltb_ge; lia).
    rewrite Hge.
    destruct (Z.ltb_spec (element_count t) (Z.of_nat (String.length s)))
      as [Hl|Hl]; simpl; unfold pack_value; rewrite Hp, H1; simpl.
    + rewrite chars_prefix, (join_packed_concat _ _ _ Hall). reflexivity.
    + rewrite take_ge in Hall by (rewrite chars_length; lia).
      rewrite (join_packed_concat _ _ _ Hall). reflexivity.
Qed.

(** C7, amended: for a write of more than one element whose value is not
    a [bytes] object, the value is a sequence of at least [element_count]
    items.  [_write_tag] calls [writeable_value] on the parsed address
    with its [data_size] set.  A shorter sequence raises the request error
    for insufficient data and produces no bytes; otherwise the first
    [element_count] items, that is the sequence cut to that length when it
    is longer, are each packed on their own and the results concatenated
    in order. *)
Theorem writeable_value_elements (s : string) (parsed : TagAddress)
    (width : Z) (v : pyval) (items : list pyval) :
  parse_tag PCCC_CT s = Ok (Some parsed) ->
  1 < element_count parsed ->
  (forall b, v <> VBytes b) ->
  py_iter v = Ok items ->
  let t := set_data_size width parsed in
  (Z.of_nat (length items) < element_count t ->
     writeable_value PCCC_CT Pack t v =
       (t, Raise (RequestError
                    (InsufficientData (element_count t)
                       (Z.of_nat (length items))))))
  /\ (element_count t <= Z.of_nat (length items) ->
      forall pack_func bss,
        Pack !! pccc_key t = Some pack_func ->
        Forall2 (fun x bs => pack_func x = Ok bs)
          (take (Z.to_nat (element_count t)) items) bss ->
        writeable_value PCCC_CT Pack t v = (t, Ok (concat bss))).
Proof.
  intros Hp Hn Hv Hi t.
  destruct (parsed_bit_position PCCC_CT s parsed Hp) as [k Hk].
  destruct v as [| | | |txt|b|l]; try discriminate Hi.
  - injection Hi as <-. rewrite chars_length.
    apply (writeable_value_text t txt k); assumption.
  - exfalso. exact (Hv b eq_refl).
  - injection Hi as <-. apply (writeable_value_many t l k); assumption.
Qed.

Lemma writeable_value_single (t : TagAddress) (v : pyval) (k : Z) :
  (forall b, v <> VBytes b) ->
  bit_position_of t = Ok k ->
  element_count t <= 1 ->
  writeable_value PCCC_CT Pack t v =
    let '(t', r) :=
      pack_value PCCC_CT Pack t (address_field t =? 3) k
        (element_count_or_1 t) v in
    (t', except_raise (RequestError (NotWriteable (tag t) v)) r).
Proof.
  intros Hv Hk Hn.
  assert (H1 : (1 <? element_count_or_1 t) = false).
  { unfold element_count_or_1.
    destruct (Z.eqb_spec (element_count t) 0); apply Z.ltb_ge; lia. }
  destruct v; try (exfalso; eapply Hv; reflexivity);
    unfold writeable_value; rewrite Hk; simpl;
    unfold check_count; rewrite H1; reflexivity.
Qed.

(** The two halves of a bit write are never built: [math.pow] returns a
    [float], and [Pack.uint] refuses a [float]. *)
Lemma bit_pair_raises (k : Z) (v : pyval) : exists e, bit_pair k v = Raise e.
Proof.
  unfold bit_pair. destruct (gt_zero v) as [[|]|e]; simpl; [| |eauto];
    destruct (math_pow2 k); simpl; eauto.
Qed.

(** A bit write of one element that is not the PRE or ACC word of a timer
    or counter produces no bytes, whatever the bit and whatever the
    value: the [except] clause turns the packing error into the request
    error that names the tag. *)
Lemma bit_write_never_packs (t : TagAddress) (v : pyval) (k : Z) :
  address_field t = 3 ->
  element_count t <= 1 ->
  bit_position_of t = Ok k ->
  (forall b, v <> VBytes b) ->
  (is_timer_counter (file_type t) = false
   \/ exists pre acc,
        PCCC_CT !! "PRE" = Some pre /\ PCCC_CT !! "ACC" = Some acc
        /\ k <> pre /\ k <> acc) ->
  snd (writeable_value PCCC_CT Pack t v)
  = Raise (RequestError (NotWriteable (tag t) v)).
Proof.
  intros Haf Hn Hk Hv Hplain.
  assert (H1 : (1 <? element_count_or_1 t) = false).
  { unfold element_count_or_1.
    destruct (Z.eqb_spec (element_count t) 0); apply Z.ltb_ge; lia. }
  rewrite (writeable_value_single t v k Hv Hk Hn).
  unfold pack_value. rewrite H1, Haf. simpl.
  destruct (Pack !! pccc_key t) as [pack_func|]; [|reflexivity]. simpl.
  assert (Hw : (if is_timer_counter (file_type t)
                then is_pre_or_acc PCCC_CT k else Ok false) = Ok false).
  { destruct Hplain as [-> | (pre & acc & Hpre & Hacc & H2 & H3)];
      [reflexivity|].
    unfold is_pre_or_acc. rewrite Hpre, Hacc. simpl.
    destruct (Z.eqb_spec k pre); [contradiction|].
    destruct (Z.eqb_spec k acc); [contradiction|].
    destruct (is_timer_counter (file_type t)); reflexivity. }
  rewrite Hw. simpl.
  destruct (bit_pair_raises k v) as [e ->]. reflexivity.
Qed.

(** The sibling branch does write: for the PRE or ACC word of a timer or
    counter the result is 0xFFFF followed by the packed scalar. *)
Lemma timer_field_write (t : TagAddress) (v : pyval) (k pre acc : Z)
    (pack_func : pyval -> result (list byte)) (p : list byte) :
  address_field t = 3 ->
  element_count t <= 1 ->
  bit_position_of t = Ok k ->
  (forall b, v <> VBytes b) ->
  is_timer_counter (file_type t) = true ->
  PCCC_CT !! "PRE" = Some pre ->
  PCCC_CT !! "ACC" = Some acc ->
  k = pre \/ k = acc ->
  Pack !! pccc_key t = Some pack_func ->
  pack_func v = Ok p ->
  snd (writeable_value PCCC_CT Pack t v) = Ok ([xff; xff] ++ p).
Proof.
  intros Haf Hn Hk Hv Htc Hpre Hacc Hin Hp Hpv.
  assert (H1 : (1 <? element_count_or_1 t) = false).
  { unfold element_count_or_1.
    destruct (Z.eqb_spec (element_count t) 0); apply Z.ltb_ge; lia. }
  rewrite (writeable_value_single t v k Hv Hk Hn).
  unfold pack_value. rewrite Hp, H1, Haf. simpl.
  unfold is_pre_or_acc. rewrite Htc, Hpre, Hacc. simpl.
  assert (Hb : ((k =? pre) || (k =? acc)) = true).
  { destruct Hin as [-> | ->]; rewrite Z.eqb_refl;
      [reflexivity | apply orb_true_r]. }
  rewrite Hb. simpl. rewrite Hpv. reflexivity.
Qed.

(** C3: the code does not emit the mask and value pair.  On the dict that
    [parse_tag] returns for ["N7:0/3"], bit 3 of a word of an integer
    file, [writeable_value] raises the request error for [True] and for
    [False], with every packer table: the mask is computed as
    [Pack.uint(math.pow(2, 3))], the power is the [float] 8.0, and the
    packer of an unsigned 16-bit integer refuses a [float]. *)
Theorem bit_write_raises (b : bool) :
  let t := mkTagAddress "N" "7" (VStr "0") None (Some (VStr "3")) 3 1
             "N7:0/3" None in
  parse_tag PCCC_CT "N7:0/3" = Ok (Some t)
  /\ bit_position_of t = Ok 3
  /\ snd (writeable_value PCCC_CT Pack t (VBool b))
     = Raise (RequestError (NotWriteable "N7:0/3" (VBool b))).
Proof.
  intros t. split; [vm_compute; reflexivity|].
  split; [reflexivity|].
  apply (bit_write_never_packs t (VBool b) 3).
  - reflexivity.
  - simpl. lia.
  - reflexivity.
  - intros x. discriminate.
  - left. reflexivity.
Qed.
End PackFacts.

Lemma writeable_value_elements_witness :
  let t := mkTagAddress "N" "7" (VStr "0") None (Some VNone) 2 2 "N7:0"
             (Some 2) in
  writeable_value sample_PCCC_CT sample_Pack t (VList [VInt 7])
    = (t, Raise (RequestError (InsufficientData 2 1)))
  /\ writeable_value sample_PCCC_CT sample_Pack t
       (VList [VInt 1; VInt 2; VInt 3])
     = (t, Ok [x01; x00; x02; x00]).
Proof.
  intros t.
  assert (Hp : parse_tag sample_PCCC_CT "N7:0{2}" =
               Ok (Some (mkTagAddress "N" "7" (VStr "0") None (Some VNone)
                           2 2 "N7:0" None)))
    by (vm_compute; reflexivity).
  assert (Hn : 1 < 2) by lia.
  split.
  - apply (writeable_value_elements sample_PCCC_CT sample_Pack "N7:0{2}"
             _ 2 (VList [VInt 7]) [VInt 7] Hp Hn);
      [intros b; discriminate | reflexivity | simpl; lia].
  - apply (proj2 (writeable_value_elements sample_PCCC_CT sample_Pack
                    "N7:0{2}" _ 2 (VList [VInt 1; VInt 2; VInt 3])
                    [VInt 1; VInt 2; VInt 3] Hp Hn
                    ltac:(intros b; discriminate) eq_refl)
             ltac:(simpl; lia) sample_pack_int [[x01; x00]; [x02; x00]]).
    + vm_compute; reflexivity.
    + repeat constructor.
Defined.

(** A [bytes] value is not checked against the count: for the address
    ["N7:0{2}"], of two elements, the one byte [b'\x01'] is shorter than
    the count, yet it is returned as it is and no request error is
    raised. *)
Lemma writeable_value_short_bytes :
  let t := mkTagAddress "N" "7" (VStr "0") None (Some VNone) 2 2 "N7:0"
             (Some 2) in
  parse_tag sample_PCCC_CT "N7:0{2}"
  = Ok (Some (mkTagAddress "N" "7" (VStr "0") None (Some VNone) 2 2 "N7:0"
                None))
  /\ 1 < element_count t
  /\ py_len (VBytes [x01]) = Ok 1
  /\ writeable_value sample_PCCC_CT sample_Pack t (VBytes [x01])
     = (t, Ok [x01])
  /\ writeable_value sample_PCCC_CT sample_Pack t (VBytes [x01])
     <> (t, Raise (RequestError (InsufficientData 2 1))).
Proof.
  repeat split; try (vm_compute; reflexivity).
  discriminate.
Qed.

(** The sibling branch on the sample tables: the accumulator of timer
    [T4:0] is written as 0xFFFF and the packed value. *)
Lemma timer_field_write_sample :
  let t := mkTagAddress "T" "4" (VStr "0") None (Some (VInt 2)) 3 1
             "T4:0.ACC" None in
  parse_tag sample_PCCC_CT "T4:0.ACC" = Ok (Some t)
  /\ snd (writeable_value sample_PCCC_CT sample_Pack t (VInt 5))
     = Ok [xff; xff; x05; x00].
Proof.
  intros t. split; [vm_compute; reflexivity|].
  apply (timer_field_write sample_PCCC_CT sample_Pack t (VInt 5) 2 1 2
           sample_pack_int [x05; x00]);
    first [ reflexivity | simpl; lia | intros x; discriminate
          | right; reflexivity ].
Qed.

(** ** The directory read *)

Lemma uint16_le_of_Z (n : Z) :
  0 <= n < 65536 -> uint16_le (byte_of_Z n) (byte_of_Z (n / 256)) = n.
Proof.
  intros Hn. unfold uint16_le. rewrite !Z_of_byte_of_Z.
  assert (0 <= n / 256 < 256)
    by (split; [apply Z.div_pos; lia | apply Z.div_lt_upper_bound; lia]).
  rewrite (Z.mod_small (n / 256)) by lia.
  pose proof (Z.div_mod n 256). lia.
Qed.

Lemma Pack_usint_ok (n : Z) :
  0 <= n < 256 -> Pack_usint n = Ok [byte_of_Z n].
Proof.
  intros Hn. unfold Pack_usint.
  destruct (Z.leb_spec 0 n); [|lia]. destruct (Z.ltb_spec n 256); [|lia].
  reflexivity.
Qed.

Lemma Pack_uint_ok (n : Z) :
  0 <= n < 65536 -> Pack_uint n = Ok [byte_of_Z n; byte_of_Z (n / 256)].
Proof.
  intros Hn. unfold Pack_uint.
  destruct (Z.leb_spec 0 n); [|lia]. destruct (Z.ltb_spec n 65536); [|lia].
  reflexivity.
Qed.

Lemma offset_field_small (offset : Z) :
  0 <= offset < 256 -> offset_field offset = Ok [x00; byte_of_Z offset].
Proof.
  intros H. unfold offset_field.
  destruct (Z.ltb_spec offset 256); [|lia].
  rewrite Pack_usint_ok by lia. reflexivity.
Qed.

Lemma offset_field_wide (offset : Z) :
  256 <= offset < 65536 ->
  offset_field offset = Ok [xff; byte_of_Z offset; byte_of_Z (offset / 256)].
Proof.
  intros H. unfold offset_field.
  destruct (Z.ltb_spec offset 256); [lia|].
  rewrite Pack_uint_ok by lia. reflexivity.
Qed.

Section DirectoryFacts.
Variable PCCC_ERROR_CODE : gmap Z string.
Variables CLASS_TYPE_8bit PCCC_PATH vid vsn : list byte.
Variables SLC_CMD_CODE SLC_FNC_READ : list byte.
Variable Conn : Type.
Variable next_sequence : Conn -> Z * Conn.
Variable send_unit_data : Conn -> list byte -> list byte * Conn.
Variables file_type element : list byte.

Local Abbreviation loop :=
  (read_directory_loop PCCC_ERROR_CODE CLASS_TYPE_8bit PCCC_PATH vid vsn
     SLC_CMD_CODE SLC_FNC_READ Conn next_sequence send_unit_data).

(** C6: a directory-chunk request ends with its offset.  For a sequence
    number and a size that fit their fields, the request is the preamble,
    the command code, a zero status, the sequence number, the read
    function code, the size, a zero file number and the file type,
    followed below 256 by the marker byte 0x00 and the offset in one
    byte, and from 256 on by the marker byte 0xFF and the offset in two
    bytes, low byte first. *)
Theorem offset_encoding (sequence size offset : Z) :
  0 <= sequence < 65536 ->
  0 <= size < 256 ->
  0 <= offset < 65536 ->
  let head :=
    _msg_start CLASS_TYPE_8bit PCCC_PATH vid vsn ++ SLC_CMD_CODE ++ [x00]
      ++ [byte_of_Z sequence; byte_of_Z (sequence / 256)] ++ SLC_FNC_READ
      ++ [byte_of_Z size] ++ [x00] ++ file_type in
  (offset < 256 ->
     exists b,
       chunk_request CLASS_TYPE_8bit PCCC_PATH vid vsn SLC_CMD_CODE
         SLC_FNC_READ file_type sequence size offset = Ok (head ++ [x00; b])
       /\ Z_of_byte b = offset)
  /\ (256 <= offset ->
      exists b0 b1,
        chunk_request CLASS_TYPE_8bit PCCC_PATH vid vsn SLC_CMD_CODE
          SLC_FNC_READ file_type sequence size offset
        = Ok (head ++ [xff; b0; b1])
        /\ uint16_le b0 b1 = offset).
Proof.
  intros Hq Hs Hr head. split.
  - intros Hlt. exists (byte_of_Z offset). split.
    + unfold chunk_request.
      rewrite (Pack_uint_ok _ Hq), (Pack_usint_ok _ Hs). simpl.
      rewrite offset_field_small by lia. unfold head, _msg_start. simpl.
      repeat (rewrite <- ?app_assoc; simpl). reflexivity.
    + rewrite Z_of_byte_of_Z. apply Z.mod_small. lia.
  - intros Hge. exists (byte_of_Z offset), (byte_of_Z (offset / 256)). split.
    + unfold chunk_request.
      rewrite (Pack_uint_ok _ Hq), (Pack_usint_ok _ Hs). simpl.
      rewrite offset_field_wide by lia. unfold head, _msg_start. simpl.
      repeat (rewrite <- ?app_assoc; simpl). reflexivity.
    + apply uint16_le_of_Z. lia.
Qed.

Lemma loop_done (fuel : nat) (file0_size : Z) (c : Conn)
    (sent : list chunk) (file0_data : list byte) (offset : Z) :
  file0_size <= Z.of_nat (length file0_data) ->
  loop fuel file_type file0_size c sent file0_data offset
  = Some (mkOutcome c sent offset (Ok file0_data)).
Proof.
  intros H.
  assert (E : (Z.of_nat (length file0_data) <? file0_size) = false)
    by (apply Z.ltb_ge; lia).
  destruct fuel; simpl; rewrite E; reflexivity.
Qed.

(** Whatever the connection answers, every chunk request that the loop
    sends carries an offset that is at most half the bytes read so far,
    hence below half the directory size: for a size that came in two
    bytes the offset is in the range of [offset_encoding]. *)
Lemma sent_offsets_bounded (fuel : nat) (file0_size : Z) :
  forall (c : Conn) (sent : list chunk) (file0_data : list byte)
         (offset : Z) (o : outcome Conn),
    0 <= offset ->
    2 * offset <= Z.of_nat (length file0_data) ->
    Forall (fun ch => 0 <= chunk_offset ch /\ 2 * chunk_offset ch < file0_size)
      sent ->
    loop fuel file_type file0_size c sent file0_data offset = Some o ->
    Forall (fun ch => 0 <= chunk_offset ch /\ 2 * chunk_offset ch < file0_size)
      (out_sent o).
Proof.
  induction fuel as [|fuel IH]; intros c sent file0_data offset o H0 H2 Hs;
    simpl; destruct (Z.ltb_spec (Z.of_nat (length file0_data)) file0_size)
      as [Hlt|Hge]; try discriminate;
    try (intros [= <-]; exact Hs).
  destruct (next_sequence c) as [sq c1].
  match goal with
  | |- context [chunk_request ?a ?b ?c ?d ?e ?f ?g ?h ?i ?j] =>
      destruct (chunk_request a b c d e f g h i j) as [request|e0]
  end; [|intros [= <-]; exact Hs].
  destruct (send_unit_data c1 request) as [raw c2].
  assert (Hs' : Forall
                  (fun ch => 0 <= chunk_offset ch
                             /\ 2 * chunk_offset ch < file0_size)
                  (sent ++ [mkChunk
                              (if 80 <? file0_size - Z.of_nat (length file0_data)
                               then 80
                               else file0_size - Z.of_nat (length file0_data))
                              offset request])).
  { apply Forall_app. split; [exact Hs|]. constructor; [simpl; lia|constructor]. }
  destruct (request_status PCCC_ERROR_CODE raw) as [status|].
  - intros [= <-]. exact Hs'.
  - apply IH; [| |exact Hs'].
    + pose proof (Z.div_pos (Z.of_nat (length (drop SLC_REPLY_START raw))) 2).
      lia.
    + rewrite length_app.
      pose proof (Z.mul_div_le
                    (Z.of_nat (length (drop SLC_REPLY_START raw))) 2).
      lia.
Qed.

Hypothesis full : full_chunks PCCC_ERROR_CODE CLASS_TYPE_8bit PCCC_PATH vid
                    vsn SLC_CMD_CODE SLC_FNC_READ Conn next_sequence
                    send_unit_data file_type.
Hypothesis fits : sequence_fits Conn next_sequence.

Lemma request_built (c : Conn) (size offset : Z) :
  0 <= size < 256 -> 0 <= offset < 65536 ->
  exists request,
    chunk_request CLASS_TYPE_8bit PCCC_PATH vid vsn SLC_CMD_CODE
      SLC_FNC_READ file_type (fst (next_sequence c)) size offset = Ok request.
Proof.
  intros Hs Ho. unfold chunk_request.
  rewrite (Pack_uint_ok _ (fits c)), (Pack_usint_ok _ Hs). simpl.
  destruct (Z.ltb_spec offset 256).
  - rewrite offset_field_small by lia. eexists; reflexivity.
  - rewrite offset_field_wide by lia. eexists; reflexivity.
Qed.

(** One iteration with a connection that returns full chunks: one more
    request goes out, for [min(0x50, remaining)] bytes at the current
    offset; its payload is appended and the offset advances by half the
    payload's length. *)
Lemma loop_step (fuel : nat) (file0_size : Z) (c : Conn)
    (sent : list chunk) (file0_data : list byte) (offset size : Z) :
  Z.of_nat (length file0_data) < file0_size ->
  0 <= offset < 65536 ->
  size = Z.min 80 (file0_size - Z.of_nat (length file0_data)) ->
  exists c' request data,
    Z.of_nat (length data) = size
    /\ loop (S fuel) file_type file0_size c sent file0_data offset
       = loop fuel file_type file0_size c'
           (sent ++ [mkChunk size offset request])
           (file0_data ++ data) (offset + size / 2).
Proof.
  intros Hlt Ho Hsize.
  assert (Hs : 0 <= size < 256) by lia.
  destruct (request_built c size offset Hs Ho) as [request Hreq].
  pose proof (full c size offset request Hreq) as [Hst Hlen].
  simpl in Hst, Hlen.
  simpl. rewrite (proj2 (Z.ltb_lt _ _) Hlt).
  assert (E : (if 80 <? file0_size - Z.of_nat (length file0_data)
               then 80 else file0_size - Z.of_nat (length file0_data))
              = size).
  { destruct (Z.ltb_spec 80 (file0_size - Z.of_nat (length file0_data))); lia. }
  rewrite E.
  destruct (next_sequence c) as [sq c1]; simpl in *.
  rewrite Hreq.
  destruct (send_unit_data c1 request) as [raw c2]; simpl in *.
  rewrite Hst.
  exists c2, request, (drop SLC_REPLY_START raw).
  split; [exact Hlen|]. rewrite Hlen. reflexivity.
Qed.

(** C2, amended: for a directory of 130 bytes and a connection that
    returns every requested chunk in full, the loop sends exactly two
    chunk requests, for 80 bytes at offset 0 and for 50 bytes at offset
    40; each chunk advances the offset by half its byte length (40, then
    25), and the loop ends with the 130 bytes read. *)
Theorem directory_130 (c : Conn) (fuel : nat) :
  (2 <= fuel)%nat ->
  exists o data,
    _read_whole_file_directory PCCC_ERROR_CODE CLASS_TYPE_8bit PCCC_PATH
      vid vsn SLC_CMD_CODE SLC_FNC_READ Conn next_sequence send_unit_data
      fuel file_type element 130 c = Some o
    /\ map chunk_size (out_sent o) = [80; 50]
    /\ map chunk_offset (out_sent o) = [0; 0 + 80 / 2]
    /\ out_offset o = 0 + 80 / 2 + 50 / 2
    /\ out_result o = Ok data
    /\ length data = 130%nat.
Proof.
  intros Hf. destruct fuel as [|[|fuel]]; [lia | lia |].
  unfold _read_whole_file_directory.
  destruct (loop_step (S fuel) 130 c [] [] 0 80) as (c1 & r1 & d1 & L1 & E1);
    [simpl; lia | lia | simpl; lia |].
  rewrite E1. clear E1.
  destruct (loop_step fuel 130 c1 ([] ++ [mkChunk 80 0 r1]) ([] ++ d1)
              (0 + 80 / 2) 50)
    as (c2 & r2 & d2 & L2 & E2);
    [simpl; lia | change (80 / 2) with 40; lia | simpl; lia |].
  rewrite E2. clear E2.
  rewrite loop_done by (rewrite !length_app; simpl; lia).
  eexists; eexists. split; [reflexivity|].
  repeat split. simpl. rewrite length_app. lia.
Qed.
End DirectoryFacts.

(** The sample connection returns every chunk in full. *)
Lemma sample_sequence_fits : sequence_fits Z sample_next_sequence.
Proof.
  intros c. simpl. apply Z.mod_pos_bound. lia.
Qed.

Lemma sample_full_chunks :
  full_chunks sample_PCCC_ERROR_CODE [x20] sample_path sample_vid sample_vsn
    [x0f] [xa2] Z sample_next_sequence (sample_send x00 sample_size_at) [x01].
Proof.
  intros c size offset request H. unfold chunk_request in H.
  rewrite (Pack_uint_ok _ (sample_sequence_fits c)) in H.
  unfold Pack_usint in H.
  destruct ((0 <=? size) && (size <? 256)) eqn:Hs; [|discriminate].
  apply andb_prop in Hs as [H0 H1].
  apply Z.leb_le in H0. apply Z.ltb_lt in H1.
  destruct (offset_field offset) as [field|]; [|discriminate].
  cbv beta iota delta [bind] in H. injection H as <-.
  cbn. rewrite Z_of_byte_of_Z, Z.mod_small by lia.
  split; [reflexivity|].
  rewrite drop_0, length_replicate. lia.
Qed.

Lemma offset_encoding_witness :
  let head :=
    _msg_start [x20] sample_path sample_vid sample_vsn ++ [x0f] ++ [x00]
      ++ [byte_of_Z 7; byte_of_Z (7 / 256)] ++ [xa2]
      ++ [byte_of_Z 80] ++ [x00] ++ [x01] in
  (exists b,
      chunk_request [x20] sample_path sample_vid sample_vsn [x0f] [xa2] [x01]
        7 80 40 = Ok (head ++ [x00; b])
      /\ Z_of_byte b = 40)
  /\ (exists b0 b1,
        chunk_request [x20] sample_path sample_vid sample_vsn [x0f] [xa2]
          [x01] 7 80 300 = Ok (head ++ [xff; b0; b1])
        /\ uint16_le b0 b1 = 300).
Proof.
  intros head.
  assert (Hq : 0 <= 7 < 65536) by lia.
  assert (Hs : 0 <= 80 < 256) by lia.
  assert (H40 : 0 <= 40 < 65536) by lia.
  assert (H300 : 0 <= 300 < 65536) by lia.
  split.
  - apply (proj1 (offset_encoding [x20] sample_path sample_vid sample_vsn
                    [x0f] [xa2] [x01] 7 80 40 Hq Hs H40)). lia.
  - apply (proj2 (offset_encoding [x20] sample_path sample_vid sample_vsn
                    [x0f] [xa2] [x01] 7 80 300 Hq Hs H300)). lia.
Defined.

(** With the sample connection, which returns every chunk in full, the
    read of a 130-byte directory sends two chunk requests, not three. *)
Lemma directory_130_not_three_requests :
  full_chunks sample_PCCC_ERROR_CODE [x20] sample_path sample_vid sample_vsn
    [x0f] [xa2] Z sample_next_sequence (sample_send x00 sample_size_at) [x01]
  /\ exists o,
       sample_read_directory 5 130 = Some o
       /\ length (out_sent o) = 2%nat
       /\ length (out_sent o) <> 3%nat.
Proof.
  split; [exact sample_full_chunks|].
  eexists. split; [vm_compute; reflexivity|].
  split; [reflexivity | discriminate].
Qed.

Lemma directory_130_witness :
  (2 <= 5)%nat
  /\ exists o data,
       sample_read_directory 5 130 = Some o
       /\ map chunk_size (out_sent o) = [80; 50]
       /\ map chunk_offset (out_sent o) = [0; 0 + 80 / 2]
       /\ out_offset o = 0 + 80 / 2 + 50 / 2
       /\ out_result o = Ok data
       /\ length data = 130%nat.
Proof.
  assert (H : (2 <= 5)%nat) by lia.
  split; [exact H|].
  exact (directory_130 sample_PCCC_ERROR_CODE [x20] sample_path sample_vid
           sample_vsn [x0f] [xa2] Z sample_next_sequence
           (sample_send x00 sample_size_at) [x01] [x23]
           sample_full_chunks sample_sequence_fits 0 5 H).
Defined.

(** * More of the driver *)

(** ** What [parse_tag] returns *)

Lemma digits_value_nonneg (s : string) :
  forall acc v, 0 <= acc -> digits_value acc s = Some v -> 0 <= v.
Proof.
  induction s as [|c s IH]; simpl; intros acc v Ha H.
  - injection H as <-. exact Ha.
  - destruct (is_digit c); [|discriminate]. eapply IH; [|exact H]. lia.
Qed.

Lemma int_of_str_nonneg (s : string) (v : Z) : int_of_str s = Ok v -> 0 <= v.
Proof.
  unfold int_of_str. destruct s as [|c s]; [discriminate|].
  destruct (Nat.ltb _ _); [discriminate|].
  destruct (digits_value 0 (String c s)) as [w|] eqn:E; simpl; [|discriminate].
  intros [= <-]. eapply digits_value_nonneg; [|exact E]. lia.
Qed.

Lemma count_of_nonneg (m : Match) (n : Z) : count_of m = Ok n -> 0 <= n.
Proof.
  unfold count_of. destruct (group m "element_count") as [[s|]|]; simpl;
    try discriminate.
  - apply int_of_str_nonneg.
  - intros [= <-]. lia.
Qed.

(** The float quotient of a bit offset truncates to the integer one. *)
Lemma quotient_truncates (n : Z) :
  0 <= n <= 4095 ->
  int_of_float (PrimFloat.div (float_of_int n) (float_of_int 16)) = Ok (n / 16).
Proof.
  intros Hn.
  assert (H : forallb
                (fun n =>
                   match int_of_float
                           (PrimFloat.div (float_of_int n) (float_of_int 16)) with
                   | Ok q => q =? n / 16
                   | Raise _ => false
                   end)
                (map Z.of_nat (seq 0 4096)) = true)
    by (vm_compute; reflexivity).
  rewrite forallb_forall in H.
  specialize (H n). 
  destruct (int_of_float (PrimFloat.div (float_of_int n) (float_of_int 16)))
    as [q|e].
  - f_equal. apply Z.eqb_eq. apply H.
    apply in_map_iff. exists (Z.to_nat n). split; [lia|]. apply in_seq. lia.
  - discriminate H.
    apply in_map_iff. exists (Z.to_nat n). split; [lia|]. apply in_seq. lia.
Qed.

(** A range check on a group, once the group's text is known. *)
Lemma between_group (lo hi : Z) (m : Match) (g txt : string) :
  between lo hi (int_group m g) = Ok true ->
  str_group m g = Ok txt ->
  exists v, int_of_str txt = Ok v /\ lo <= v <= hi.
Proof.
  intros Hb Hs. apply between_true in Hb as (v & Hv & Hr).
  unfold int_group in Hv. rewrite Hs in Hv. exists v. split; assumption.
Qed.

Lemma str_group_of_group (m : Match) (g txt : string) :
  group m g = Ok (Some txt) -> str_group m g = Ok txt.
Proof. intros H. unfold str_group. rewrite H. reflexivity. Qed.

Section ParsedShape.
Variable PCCC_CT : gmap string Z.

Ltac file_ok :=
  match goal with
  | Hb : between _ 255 (int_group ?m "file_number") = Ok true,
    Hs : str_group ?m "file_number" = Ok ?fn |- _ =>
      destruct (between_group _ _ _ _ _ Hb Hs) as (? & ? & ?);
      eexists; split; [eassumption | lia]
  end.

Ltac element_ok :=
  match goal with
  | Hb : between 0 255 (int_group ?m "element_number") = Ok true,
    Hs : str_group ?m "element_number" = Ok ?en |- _ =>
      destruct (between_group _ _ _ _ _ Hb Hs) as (? & ? & ?);
      eexists; split; [simpl; eassumption | lia]
  | Hb : between 0 255 (Ok ?en) = Ok true |- _ =>
      apply between_true in Hb as (? & [= <-] & ?);
      eexists; split; [reflexivity | lia]
  end.

Ltac count_ok :=
  match goal with
  | H : count_of _ = Ok ?n |- 0 <= ?n => exact (count_of_nonneg _ _ H)
  | |- 0 <= 1 => lia
  end.

Lemma rule_timer_counter_ok (s : string) (t : TagAddress) :
  rule_timer_counter PCCC_CT s = Ok (Some t) -> parsed_ok PCCC_CT t.
Proof.
  intros H. unfold rule_timer_counter in H. repeat rule_step; split_checks.
  split; simpl; try file_ok; try element_ok; try count_ok;
    try reflexivity; try (intros []; reflexivity).
  right. split; [reflexivity|].
  match goal with
  | Hk : of_option KeyError (PCCC_CT !! ?n) = Ok ?k |- _ =>
      exists k; split;
      [ unfold bit_position_of, or_zero; simpl;
        destruct (Z.eqb_spec k 0) as [->|]; reflexivity
      | right; exists n; destruct (PCCC_CT !! n); [injection Hk as ->; reflexivity|discriminate]]
  end.
Qed.

Ltac no_position := intros Hp; exfalso; apply Hp; reflexivity.

Lemma rule_word_ok (s : string) (t : TagAddress) :
  rule_word s = Ok (Some t) -> parsed_ok PCCC_CT t.
Proof.
  intros H. unfold rule_word in H. repeat rule_step; split_checks.
  - split; simpl; try file_ok; try element_ok; try count_ok;
      try reflexivity; try no_position.
    right. split; [reflexivity|].
    match goal with
    | Hg : group ?m "sub_element" = Ok (Some ?bit),
      Hb : between 0 15 (int_group ?m "sub_element") = Ok true
      |- exists _, bit_position_of ?a = _ /\ _ =>
        destruct (digit_bit_position m bit a Hg Hb eq_refl eq_refl)
          as (k & Hk & Hr);
        exists k; split; [exact Hk | left; exact Hr]
    end.
  - split; simpl; try file_ok; try element_ok; try count_ok;
      try reflexivity; try no_position.
    left. split; reflexivity.
Qed.

Lemma rule_io_ok (s : string) (t : TagAddress) :
  rule_io s = Ok (Some t) ->
  parsed_ok PCCC_CT t /\ address_field t = 2.
Proof.
  intros H. unfold rule_io in H. repeat rule_step; split_checks.
  - match goal with
    | Hs : search re_io s = Some ?m,
      Hb : between 0 255 (int_group ?m "file_number") = Ok true |- _ =>
        apply search_declared in Hs;
        apply between_true in Hb as (v & Hv & _);
        unfold int_group, str_group, group in Hv; rewrite Hs in Hv;
        discriminate Hv
    end.
  - split; [|reflexivity].
    split; simpl; try element_ok; try count_ok; try reflexivity.
    + left. split; reflexivity.
    + exists 0. split; [reflexivity | lia].
    + intros _. split; reflexivity.
Qed.

Lemma rule_plain_ok (re : regex) (s : string) (t : TagAddress) :
  rule_plain re s = Ok (Some t) -> parsed_ok PCCC_CT t.
Proof.
  intros H. unfold rule_plain in H. repeat rule_step; split_checks.
  split; simpl; try file_ok; try element_ok; try count_ok;
    try reflexivity; try no_position.
  left. split; reflexivity.
Qed.

Lemma rule_status_ok (s : string) (t : TagAddress) :
  rule_status s = Ok (Some t) -> parsed_ok PCCC_CT t.
Proof.
  intros H. unfold rule_status in H. repeat rule_step; split_checks.
  - split; simpl; try element_ok; try count_ok;
      try reflexivity; try no_position.
    + right. split; [reflexivity|].
      match goal with
      | Hg : group ?m "sub_element" = Ok (Some ?bit),
        Hb : between 0 15 (int_group ?m "sub_element") = Ok true
        |- exists _, bit_position_of ?a = _ /\ _ =>
          destruct (digit_bit_position m bit a Hg Hb eq_refl eq_refl)
            as (k & Hk & Hr);
          exists k; split; [exact Hk | left; exact Hr]
      end.
    + exists 2. split; [reflexivity | lia].
  - split; simpl; try element_ok; try count_ok;
      try reflexivity; try no_position.
    + left. split; reflexivity.
    + exists 2. split; [reflexivity | lia].
Qed.

Lemma rule_binary_ok (s : string) (t : TagAddress) :
  rule_binary s = Ok (Some t) -> parsed_ok PCCC_CT t.
Proof.
  intros H. unfold rule_binary in H. repeat rule_step; split_checks.
  match goal with
  | Hb : between 0 4095 (Ok ?n) = Ok true,
    Hd : truediv ?n 16 = Ok ?f |- _ =>
      apply between_true in Hb as (v & Hv & Hr);
      injection Hv as <-;
      unfold truediv in Hd; simpl in Hd; injection Hd as <-;
      pose proof (remainder_is_zero n Hr) as Hz;
      pose proof (quotient_truncates n Hr) as Hq
  end.
  split; simpl; try file_ok; try count_ok; try reflexivity; try no_position.
  - right. split; [reflexivity|]. exists 0. split; [|left; lia].
    unfold bit_position_of, get_sub_element, or_zero.
    cbn [address_field sub_element]. rewrite Hz. reflexivity.
  - match type of Hq with
    | _ = Ok (?n / 16) =>
        exists (n / 16); split; [exact Hq|];
        split; [apply Z.div_pos; lia | ];
        assert (n / 16 < 256) by (apply Z.div_lt_upper_bound; lia); lia
    end.
Qed.

Lemma parsed_shape (s : string) (t : TagAddress) :
  parse_tag PCCC_CT s = Ok (Some t) -> parsed_ok PCCC_CT t.
Proof.
  intros H. apply first_rule_some in H as (rule & Hin & H).
  simpl in Hin.
  destruct Hin as [<-|[<-|[<-|[<-|[<-|[<-|[<-|[]]]]]]]].
  - exact (rule_timer_counter_ok s t H).
  - exact (rule_word_ok s t H).
  - exact (proj1 (rule_io_ok s t H)).
  - exact (rule_plain_ok _ s t H).
  - exact (rule_plain_ok _ s t H).
  - exact (rule_status_ok s t H).
  - exact (rule_binary_ok s t H).
Qed.

(** X1: The bounds that [parse_tag] checks hold of every dict it returns: the
    access is a word access without sub-element or a bit access whose bit
    position is within 0..15 or an entry of [PCCC_CT]; the file number and
    the element number are integers within 0..255; the count is not
    negative; and an address with a position number, an I/O address, is
    never a bit access. *)
Theorem parsed_well_formed (s : string) (t : TagAddress) :
  parse_tag PCCC_CT s = Ok (Some t) -> parsed_ok PCCC_CT t.
Proof. apply parsed_shape. Qed.
End ParsedShape.

Lemma parsed_well_formed_witness :
  parsed_ok sample_PCCC_CT
    (mkTagAddress "N" "7" (VStr "0") None (Some (VStr "3")) 3 1 "N7:0/3" None).
Proof.
  apply (parsed_well_formed sample_PCCC_CT "N7:0/3").
  vm_compute. reflexivity.
Defined.

(** X2: An I/O address with a bit never parses: the block asks its match for
    a group [file_number] that the I/O pattern does not declare, and the
    [IndexError] leaves [parse_tag]. *)
Theorem io_bit_address_raises (PCCC_CT : gmap string Z) (s : string)
    (m : Match) (bit : string) :
  rule_timer_counter PCCC_CT s = Ok None ->
  rule_word s = Ok None ->
  search re_io s = Some m ->
  group m "sub_element" = Ok (Some bit) ->
  parse_tag PCCC_CT s = Raise IndexError.
Proof.
  intros H1 H2 Hs Hg. unfold parse_tag, first_rule. rewrite H1. simpl.
  rewrite H2. simpl. unfold rule_io. rewrite Hs.
  pose proof (search_declared _ _ _ Hs) as Hd.
  assert (Ht : exists n, tag_name_of m = Ok n).
  { unfold tag_name_of, group. rewrite Hd. simpl.
    destruct (assoc "_elem_cnt_token" (groups m)); eexists; reflexivity. }
  destruct Ht as [n ->]. simpl. rewrite Hg. simpl.
  unfold int_group at 1. unfold str_group at 1. unfold group at 1.
  rewrite Hd. reflexivity.
Qed.

Lemma io_bit_address_raises_witness :
  parse_tag sample_PCCC_CT "I:1.0/5" = Raise IndexError.
Proof.
  eapply (io_bit_address_raises sample_PCCC_CT "I:1.0/5");
    vm_compute; reflexivity.
Defined.

(** ** Reading a reply *)

(** X5: [get_bit] is the bit of that index in the two's complement form of the
    value. *)
Theorem get_bit_testbit (value idx : Z) :
  0 <= idx -> get_bit value idx = Ok (Z.testbit value idx).
Proof.
  intros Hi. unfold get_bit.
  destruct (Z.ltb_spec idx 0); [lia|]. f_equal.
  rewrite Z.shiftl_1_l.
  destruct (Z.testbit value idx) eqn:T.
  - apply negb_true_iff. apply Z.eqb_neq. intros E.
    assert (B : Z.testbit (Z.land value (2 ^ idx)) idx = true).
    { rewrite Z.land_spec, T, Z.pow2_bits_true by lia. reflexivity. }
    rewrite E, Z.bits_0 in B. discriminate.
  - apply negb_false_iff. apply Z.eqb_eq. apply Z.bits_inj'.
    intros n Hn. rewrite Z.land_spec, Z.bits_0.
    destruct (Z.eq_dec n idx) as [->|Hne].
    + rewrite T. reflexivity.
    + rewrite Z.pow2_bits_false by lia. apply andb_false_r.
Qed.

Lemma get_bit_testbit_witness : get_bit (-3) 1 = Ok false.
Proof. apply (get_bit_testbit (-3) 1). lia. Defined.

Section ReplyFacts.
Variable PCCC_CT : gmap string Z.
Variable PCCC_DATA_SIZE : gmap string Z.
Variable PCCC_DATA_TYPE : gmap string (list byte).
Variable PCCC_ERROR_CODE : gmap Z string.
Variable Pack : gmap string (pyval -> result (list byte)).
Variable Unpack : gmap string (list byte -> result pyval).
Variables CLASS_TYPE_8bit PCCC_PATH vid vsn : list byte.
Variables SLC_CMD_CODE SLC_FNC_READ SLC_FNC_WRITE : list byte.
Variable Conn : Type.
Variable next_sequence : Conn -> Z * Conn.
Variable send_unit_data : Conn -> list byte -> list byte * Conn.

(** A reply that parses is reported under the address's own name and
    file type, with no error. *)
Lemma parse_read_reply_tag (t : TagAddress) (data : list byte) (r : Tag) :
  _parse_read_reply PCCC_CT PCCC_DATA_SIZE Unpack t data = Ok r ->
  name r = tag t /\ type r = file_type t /\ error r = None.
Proof.
  unfold _parse_read_reply, parse_read_reply_body.
  destruct (py_int (or_zero (get_sub_element t))) as [k|]; simpl;
    [|discriminate].
  destruct (PCCC_DATA_SIZE !! file_type t) as [ds|]; simpl; [|discriminate].
  destruct (Unpack !! pccc_key t) as [up|]; simpl; [|discriminate].
  assert (Hbit : forall x,
             except_raise (DataError BadReadReply)
               (let* tag_value := up (slice 0 (0 + ds) data) in
                let* b := get_bit_of tag_value k in
                Ok (mkTag (tag t) (VBool b) (file_type t) None)) = Ok x ->
             name x = tag t /\ type x = file_type t /\ error x = None).
  { intros x. destruct (up (slice 0 (0 + ds) data)) as [v|]; simpl;
      [|discriminate].
    destruct (get_bit_of v k); simpl; [|discriminate].
    intros [= <-]. repeat split. }
  destruct (address_field t =? 3).
  - destruct (is_timer_counter (file_type t)); [|apply Hbit].
    destruct (PCCC_CT !! "PRE") as [pre|]; simpl; [|discriminate].
    destruct (k =? pre).
    + match goal with
      | |- context [up (slice ?a ?b data)] =>
          destruct (up (slice a b data)) as [v|]; simpl; [|discriminate]
      end.
      intros [= <-]. repeat split.
    + destruct (PCCC_CT !! "ACC") as [acc|]; simpl; [|discriminate].
      destruct (k =? acc); [|apply Hbit].
      match goal with
      | |- context [up (slice ?a ?b data)] =>
          destruct (up (slice a b data)) as [v|]; simpl; [|discriminate]
      end.
      intros [= <-]. repeat split.
  - destruct (reply_chunks ds data) as [parts|]; simpl; [|discriminate].
    destruct (unpack_all up parts) as [[|v [|w vs]]|]; simpl;
      try discriminate; intros [= <-]; repeat split.
Qed.

Lemma read_tag_tagged (c : Conn) (s : string) (t : TagAddress)
    (request : list byte) :
  parse_tag PCCC_CT s = Ok (Some t) ->
  read_request PCCC_DATA_SIZE PCCC_DATA_TYPE CLASS_TYPE_8bit PCCC_PATH vid vsn
    SLC_CMD_CODE SLC_FNC_READ (fst (next_sequence c)) t = Ok request ->
  exists r,
    snd (_read_tag PCCC_CT PCCC_DATA_SIZE PCCC_DATA_TYPE PCCC_ERROR_CODE Unpack
           CLASS_TYPE_8bit PCCC_PATH vid vsn SLC_CMD_CODE SLC_FNC_READ
           Conn next_sequence send_unit_data c s) = Ok r
    /\ name r = tag t /\ type r = file_type t
    /\ (error r = None \/ value r = VNone).
Proof.
  intros Hp Hr. unfold _read_tag. rewrite Hp.
  destruct (next_sequence c) as [sq c1]; simpl in *. rewrite Hr.
  destruct (send_unit_data c1 request) as [raw c2].
  destruct (request_status PCCC_ERROR_CODE raw) as [status|].
  - eexists. split; [reflexivity|]. simpl. auto.
  - destruct (_parse_read_reply PCCC_CT PCCC_DATA_SIZE Unpack t
                (drop SLC_REPLY_START raw)) as [r|e] eqn:E.
    + destruct (parse_read_reply_tag _ _ _ E) as (Hn & Ht & He).
      exists r. simpl. auto.
    + unfold _parse_read_reply, except_raise in E.
      destruct (parse_read_reply_body _ _ _ _ _); [discriminate|].
      injection E as <-. eexists. split; [reflexivity|]. simpl. auto.
Qed.

(** X6: Once the address has parsed and the request is built, [_read_tag]
    returns a [Tag] for that address whatever the controller answers; it
    never raises.  The [Tag] either has no error or has no value. *)
Theorem read_tag_returns (c : Conn) (s : string) (t : TagAddress)
    (request : list byte) :
  parse_tag PCCC_CT s = Ok (Some t) ->
  read_request PCCC_DATA_SIZE PCCC_DATA_TYPE CLASS_TYPE_8bit PCCC_PATH vid vsn
    SLC_CMD_CODE SLC_FNC_READ (fst (next_sequence c)) t = Ok request ->
  exists r,
    snd (_read_tag PCCC_CT PCCC_DATA_SIZE PCCC_DATA_TYPE PCCC_ERROR_CODE Unpack
           CLASS_TYPE_8bit PCCC_PATH vid vsn SLC_CMD_CODE SLC_FNC_READ
           Conn next_sequence send_unit_data c s) = Ok r
    /\ name r = tag t /\ type r = file_type t
    /\ (error r = None \/ value r = VNone).
Proof. apply read_tag_tagged. Qed.

(** X7: A word read whose reply has no payload cannot be parsed: the list of
    values is empty and indexing it raises, which [_parse_read_reply]
    reports as a [DataError]. *)
Theorem parse_read_reply_empty (t : TagAddress) :
  address_field t <> 3 ->
  _parse_read_reply PCCC_CT PCCC_DATA_SIZE Unpack t []
  = Raise (DataError BadReadReply).
Proof.
  intros Ha. unfold _parse_read_reply, parse_read_reply_body.
  destruct (py_int (or_zero (get_sub_element t))) as [k|]; simpl;
    [|reflexivity].
  destruct (PCCC_DATA_SIZE !! file_type t) as [ds|]; simpl; [|reflexivity].
  destruct (Unpack !! pccc_key t) as [up|]; simpl; [|reflexivity].
  destruct (Z.eqb_spec (address_field t) 3); [contradiction|].
  unfold reply_chunks.
  destruct (ds =? 0); [reflexivity|]. destruct (ds <? 0); reflexivity.
Qed.

(** X8: A parsed address that is not an I/O address, with a width and a type
    code for its file type and a byte size that fits one byte, gives the
    read request its fixed layout: preamble, command, a zero status, the
    sequence low byte first, the read function, then one byte each for
    the byte size, the file number and (after the type code) the element
    number, and a zero sub-element. *)
Theorem read_request_layout (s : string) (t : TagAddress) (w sequence : Z)
    (code : list byte) :
  parse_tag PCCC_CT s = Ok (Some t) ->
  pos_number t = None ->
  PCCC_DATA_SIZE !! file_type t = Some w ->
  PCCC_DATA_TYPE !! file_type t = Some code ->
  0 <= sequence < 65536 ->
  0 <= w * element_count t < 256 ->
  exists fn en,
    int_of_str (file_number t) = Ok fn /\ py_int (element_number t) = Ok en
    /\ read_request PCCC_DATA_SIZE PCCC_DATA_TYPE CLASS_TYPE_8bit PCCC_PATH
         vid vsn SLC_CMD_CODE SLC_FNC_READ sequence t
       = Ok (_msg_start CLASS_TYPE_8bit PCCC_PATH vid vsn ++ SLC_CMD_CODE
               ++ [x00] ++ [byte_of_Z sequence; byte_of_Z (sequence / 256)]
               ++ SLC_FNC_READ ++ [byte_of_Z (w * element_count t)]
               ++ [byte_of_Z fn] ++ code ++ [byte_of_Z en] ++ [x00]).
Proof.
  intros Hp Hpos Hw Hc Hs Hsize.
  destruct (parsed_shape PCCC_CT s t Hp)
    as [_ (fn & Hfn & Hfr) (en & Hen & Her) _ _ _].
  exists fn, en. split; [exact Hfn|]. split; [exact Hen|].
  unfold read_request, request_head, pos_number_int.
  rewrite (Pack_uint_ok _ Hs), Hw, Hfn, Hc, Hen, Hpos. simpl.
  rewrite (Pack_usint_ok _ Hsize). simpl.
  rewrite (Pack_usint_ok fn) by lia. simpl.
  rewrite (Pack_usint_ok en) by lia. simpl.
  reflexivity.
Qed.

(** X9: A read that asks for more than 255 bytes raises the packing error out
    of [_read_tag]; the connection has only handed out a sequence
    number. *)
Theorem read_too_large (c : Conn) (s : string) (t : TagAddress) (w : Z) :
  parse_tag PCCC_CT s = Ok (Some t) ->
  PCCC_DATA_SIZE !! file_type t = Some w ->
  0 <= fst (next_sequence c) < 65536 ->
  255 < w * element_count t ->
  _read_tag PCCC_CT PCCC_DATA_SIZE PCCC_DATA_TYPE PCCC_ERROR_CODE Unpack
    CLASS_TYPE_8bit PCCC_PATH vid vsn SLC_CMD_CODE SLC_FNC_READ
    Conn next_sequence send_unit_data c s
  = (snd (next_sequence c), Raise StructError).
Proof.
  intros Hp Hw Hs Hbig. unfold _read_tag. rewrite Hp.
  destruct (next_sequence c) as [sq c1]; simpl in *.
  unfold read_request, request_head.
  rewrite (Pack_uint_ok _ Hs), Hw. simpl.
  unfold Pack_usint.
  destruct (Z.ltb_spec (w * element_count t) 256); [lia|].
  rewrite andb_false_r. reflexivity.
Qed.

Lemma write_tag_tagged (c : Conn) (s : string) (v : pyval)
    (t : TagAddress) (w : Z) (request : list byte) :
  parse_tag PCCC_CT s = Ok (Some t) ->
  PCCC_DATA_SIZE !! file_type t = Some w ->
  write_request PCCC_CT PCCC_DATA_TYPE Pack CLASS_TYPE_8bit PCCC_PATH vid vsn
    SLC_CMD_CODE SLC_FNC_WRITE (fst (next_sequence c)) w
    (set_data_size w t) v = Ok request ->
  exists r,
    _write_tag PCCC_CT PCCC_DATA_SIZE PCCC_DATA_TYPE PCCC_ERROR_CODE Pack
      CLASS_TYPE_8bit PCCC_PATH vid vsn SLC_CMD_CODE SLC_FNC_WRITE
      Conn next_sequence send_unit_data c s v
    = (snd (send_unit_data (snd (next_sequence c)) request), Ok r)
    /\ reports PCCC_ERROR_CODE t v
         (fst (send_unit_data (snd (next_sequence c)) request)) r.
Proof.
  intros Hp Hw Hr. unfold _write_tag, reports. rewrite Hp, Hw.
  destruct (next_sequence c) as [sq c1]; simpl in *. rewrite Hr.
  destruct (send_unit_data c1 request) as [raw c2]; simpl.
  destruct (request_status PCCC_ERROR_CODE raw) as [status|];
    eexists; (split; [reflexivity|]); simpl; repeat split;
    try reflexivity; try discriminate; intros Hne; contradiction.
Qed.

(** X10: Once the address has parsed, its file type has a width and the
    request is built, [_write_tag] sends that request once and returns a
    [Tag] for that address whatever the controller answers.  The [Tag]
    reports the reply to that request: its error is the status that
    [request_status] reads from the reply, it carries the value that was
    passed when the status is success and no value otherwise, and the
    connection is left as the exchange left it. *)
Theorem write_tag_returns (c : Conn) (s : string) (v : pyval)
    (t : TagAddress) (w : Z) (request : list byte) :
  parse_tag PCCC_CT s = Ok (Some t) ->
  PCCC_DATA_SIZE !! file_type t = Some w ->
  write_request PCCC_CT PCCC_DATA_TYPE Pack CLASS_TYPE_8bit PCCC_PATH vid vsn
    SLC_CMD_CODE SLC_FNC_WRITE (fst (next_sequence c)) w
    (set_data_size w t) v = Ok request ->
  exists r,
    _write_tag PCCC_CT PCCC_DATA_SIZE PCCC_DATA_TYPE PCCC_ERROR_CODE Pack
      CLASS_TYPE_8bit PCCC_PATH vid vsn SLC_CMD_CODE SLC_FNC_WRITE
      Conn next_sequence send_unit_data c s v
    = (snd (send_unit_data (snd (next_sequence c)) request), Ok r)
    /\ name r = tag t /\ type r = file_type t
    /\ error r
       = request_status PCCC_ERROR_CODE
           (fst (send_unit_data (snd (next_sequence c)) request))
    /\ (error r = None -> value r = v)
    /\ (error r <> None -> value r = VNone).
Proof. apply write_tag_tagged. Qed.
End ReplyFacts.

(** ** Writing words and reading them back *)

Lemma chunks_concat {A} (n : nat) (bss : list (list A)) :
  (0 < n)%nat ->
  Forall (fun b => length b = n) bss ->
  forall fuel, (length bss <= fuel)%nat -> chunks fuel n (concat bss) = bss.
Proof.
  intros Hn Hall. induction Hall as [|b bss Hb _ IH]; intros fuel Hf.
  - destruct fuel; reflexivity.
  - destruct fuel as [|fuel]; [simpl in Hf; lia|].
    simpl. destruct (b ++ concat bss) as [|x l] eqn:E.
    + destruct b; [simpl in Hb; lia | discriminate].
    + rewrite <- E. rewrite take_app_length' by (symmetry; exact Hb).
      rewrite drop_app_length' by (symmetry; exact Hb).
      f_equal. apply IH. simpl in Hf. lia.
Qed.

Lemma length_concat_le {A} (n : nat) (bss : list (list A)) :
  (0 < n)%nat ->
  Forall (fun b => length b = n) bss ->
  (length bss <= length (concat bss))%nat.
Proof.
  intros Hn Hall. induction Hall as [|b bss Hb _ IH]; simpl; [lia|].
  rewrite length_app. lia.
Qed.

Lemma unpack_all_each (up : list byte -> result pyval)
    (bss : list (list byte)) (vs : list pyval) :
  Forall2 (fun b v => up b = Ok v) bss vs -> unpack_all up bss = Ok vs.
Proof.
  induction 1 as [|b v bss vs Hb _ IH]; simpl; [reflexivity|].
  rewrite Hb. simpl. rewrite IH. reflexivity.
Qed.

(** The packed form of each value of a list, when every value has one. *)
Lemma packed_list (pk : pyval -> result (list byte))
    (up : list byte -> result pyval) (n : nat) (vs : list pyval) :
  Forall (fun v => exists b, pk v = Ok b /\ length b = n /\ up b = Ok v) vs ->
  exists bss,
    Forall2 (fun v b => pk v = Ok b) vs bss
    /\ Forall (fun b => length b = n) bss
    /\ Forall2 (fun b v => up b = Ok v) bss vs.
Proof.
  induction 1 as [|v vs (b & Hp & Hl & Hu) _ (bss & H1 & H2 & H3)].
  - exists []. repeat constructor.
  - exists (b :: bss). repeat constructor; assumption.
Qed.

Section RoundTrip.
Variable PCCC_CT : gmap string Z.
Variable PCCC_DATA_SIZE : gmap string Z.
Variable Pack : gmap string (pyval -> result (list byte)).
Variable Unpack : gmap string (list byte -> result pyval).

(** The word branch of [_parse_read_reply] on a payload made of whole
    elements. *)
Lemma parse_read_reply_words (t : TagAddress) (ds : nat)
    (up : list byte -> result pyval) (bss : list (list byte))
    (vs : list pyval) :
  address_field t = 2 ->
  get_sub_element t = VNone ->
  PCCC_DATA_SIZE !! file_type t = Some (Z.of_nat ds) ->
  Unpack !! pccc_key t = Some up ->
  (0 < ds)%nat ->
  Forall (fun b => length b = ds) bss ->
  Forall2 (fun b v => up b = Ok v) bss vs ->
  _parse_read_reply PCCC_CT PCCC_DATA_SIZE Unpack t (concat bss)
  = match vs with
    | [] => Raise (DataError BadReadReply)
    | [v] => Ok (mkTag (tag t) v (file_type t) None)
    | _ => Ok (mkTag (tag t) (VList vs) (file_type t) None)
    end.
Proof.
  intros Ha Hsub Hds Hup Hpos Hlen Hall.
  unfold _parse_read_reply, parse_read_reply_body.
  rewrite Hsub, Hds, Hup, Ha. simpl.
  unfold reply_chunks.
  destruct (Z.eqb_spec (Z.of_nat ds) 0); [lia|].
  destruct (Z.ltb_spec (Z.of_nat ds) 0); [lia|].
  rewrite Nat2Z.id.
  rewrite (chunks_concat ds bss Hpos Hlen)
    by (apply (length_concat_le ds); assumption).
  simpl. rewrite (unpack_all_each up bss vs Hall). simpl.
  destruct vs as [|v [|v' vs]]; reflexivity.
Qed.

(** X11: What [writeable_value] makes of a list for a word address of that many
    elements, [_parse_read_reply] turns back into the list: the packed
    elements are cut apart again at the width of the file type and
    unpacked one by one. *)
Theorem words_round_trip (s : string) (parsed : TagAddress) (ds : nat)
    (vs : list pyval) (pk : pyval -> result (list byte))
    (up : list byte -> result pyval) :
  parse_tag PCCC_CT s = Ok (Some parsed) ->
  address_field parsed = 2 ->
  element_count parsed = Z.of_nat (length vs) ->
  (2 <= length vs)%nat ->
  Pack !! pccc_key parsed = Some pk ->
  Unpack !! pccc_key parsed = Some up ->
  PCCC_DATA_SIZE !! file_type parsed = Some (Z.of_nat ds) ->
  (0 < ds)%nat ->
  Forall (fun v => exists b, pk v = Ok b /\ length b = ds /\ up b = Ok v) vs ->
  exists payload,
    snd (writeable_value PCCC_CT Pack (set_data_size (Z.of_nat ds) parsed)
           (VList vs)) = Ok payload
    /\ length payload = (ds * length vs)%nat
    /\ _parse_read_reply PCCC_CT PCCC_DATA_SIZE Unpack parsed payload
       = Ok (mkTag (tag parsed) (VList vs) (file_type parsed) None).
Proof.
  intros Hp Ha Hn H2 Hpk Hup Hds Hpos Hall.
  destruct (packed_list pk up ds vs Hall) as (bss & Hpack & Hlen & Hunp).
  exists (concat bss).
  assert (Hsub : get_sub_element parsed = VNone).
  { destruct (parsed_shape PCCC_CT s parsed Hp) as [[[_ H]|[H _]] _ _ _ _ _];
      [exact H | congruence]. }
  split; [|split].
  - assert (Hk : bit_position_of (set_data_size (Z.of_nat ds) parsed) = Ok 0).
    { unfold bit_position_of. simpl. rewrite Ha. reflexivity. }
    rewrite (proj2 (writeable_value_many PCCC_CT Pack
                      (set_data_size (Z.of_nat ds) parsed) vs 0
                      ltac:(simpl; lia) Hk)
               ltac:(simpl; lia) pk bss Hpk); [reflexivity|].
    simpl. rewrite Hn, Nat2Z.id, take_ge by lia. exact Hpack.
  - clear -Hlen Hpack. pose proof (Forall2_length _ _ _ Hpack) as L.
    rewrite L. clear L Hpack.
    induction Hlen as [|b bss Hb _ IH]; simpl; [lia|].
    rewrite length_app, IH, Hb. lia.
  - rewrite (parse_read_reply_words parsed ds up bss vs Ha Hsub Hds Hup Hpos
               Hlen Hunp).
    destruct vs as [|v [|v' vs]]; [simpl in H2; lia | simpl in H2; lia |].
    reflexivity.
Qed.

(** X12: The same for one value and an address of one element: the packed
    value, read back as a reply, is the value again, not a list. *)
Theorem word_round_trip (s : string) (parsed : TagAddress) (ds : nat)
    (v : pyval) (pk : pyval -> result (list byte))
    (up : list byte -> result pyval) (b : list byte) :
  parse_tag PCCC_CT s = Ok (Some parsed) ->
  address_field parsed = 2 ->
  element_count parsed <= 1 ->
  (forall x, v <> VBytes x) ->
  Pack !! pccc_key parsed = Some pk ->
  Unpack !! pccc_key parsed = Some up ->
  PCCC_DATA_SIZE !! file_type parsed = Some (Z.of_nat ds) ->
  (0 < ds)%nat ->
  pk v = Ok b -> length b = ds -> up b = Ok v ->
  snd (writeable_value PCCC_CT Pack (set_data_size (Z.of_nat ds) parsed) v)
    = Ok b
  /\ _parse_read_reply PCCC_CT PCCC_DATA_SIZE Unpack parsed b
     = Ok (mkTag (tag parsed) v (file_type parsed) None).
Proof.
  intros Hp Ha Hn Hv Hpk Hup Hds Hpos Hb Hl Hu.
  assert (Hsub : get_sub_element parsed = VNone).
  { destruct (parsed_shape PCCC_CT s parsed Hp) as [[[_ H]|[H _]] _ _ _ _ _];
      [exact H | congruence]. }
  split.
  - assert (Hk : bit_position_of (set_data_size (Z.of_nat ds) parsed) = Ok 0).
    { unfold bit_position_of. simpl. rewrite Ha. reflexivity. }
    rewrite (writeable_value_single PCCC_CT Pack _ v 0 Hv Hk)
      by (simpl; exact Hn).
    unfold pack_value. simpl address_field. rewrite Ha.
    change (pccc_key (set_data_size (Z.of_nat ds) parsed))
      with (pccc_key parsed).
    rewrite Hpk.
    assert (H1 : (1 <? element_count_or_1 (set_data_size (Z.of_nat ds) parsed))
                 = false).
    { unfold element_count_or_1. simpl.
      destruct (Z.eqb_spec (element_count parsed) 0); apply Z.ltb_ge; lia. }
    rewrite H1. simpl. rewrite Hb. reflexivity.
  - pose proof (parse_read_reply_words parsed ds up [b] [v] Ha Hsub Hds Hup
                  Hpos) as H.
    simpl in H. rewrite app_nil_r in H. apply H; repeat constructor; assumption.
Qed.
End RoundTrip.

(** ** More on the directory read *)

Lemma Z_of_byte_bounds (b : byte) : 0 <= Z_of_byte b < 256.
Proof.
  unfold Z_of_byte. pose proof (Byte.to_N_bounded b) as H. lia.
Qed.

Lemma uint16_le_bounds (b0 b1 : byte) : 0 <= uint16_le b0 b1 <= 65535.
Proof.
  unfold uint16_le.
  pose proof (Z_of_byte_bounds b0). pose proof (Z_of_byte_bounds b1). lia.
Qed.

Lemma Unpack_uint_bounds (data : list byte) (n : Z) :
  Unpack_uint data = Ok n -> 0 <= n <= 65535.
Proof.
  destruct data as [|b0 [|b1 rest]]; simpl; try discriminate.
  intros [= <-]. apply uint16_le_bounds.
Qed.

Lemma chunk_request_raises (a b c d e f g : list byte) (sq sz off : Z)
    (x : exn) :
  chunk_request a b c d e f g sq sz off = Raise x -> x = StructError.
Proof.
  unfold chunk_request, offset_field, Pack_uint, Pack_usint.
  repeat match goal with
         | |- context [if ?b then _ else _] => destruct b; simpl
         end; congruence.
Qed.

Section DirectoryMore.
Variable PCCC_ERROR_CODE : gmap Z string.
Variables CLASS_TYPE_8bit PCCC_PATH vid vsn : list byte.
Variables SLC_CMD_CODE SLC_FNC_READ : list byte.
Variable Conn : Type.
Variable next_sequence : Conn -> Z * Conn.
Variable send_unit_data : Conn -> list byte -> list byte * Conn.
Variables file_type element : list byte.

Local Abbreviation run_loop :=
  (read_directory_loop PCCC_ERROR_CODE CLASS_TYPE_8bit PCCC_PATH vid vsn
     SLC_CMD_CODE SLC_FNC_READ Conn next_sequence send_unit_data).

Lemma loop_ends_well (fuel : nat) (file0_size : Z) :
  forall (c : Conn) (sent : list chunk) (file0_data : list byte)
         (offset : Z) (o : outcome Conn),
    run_loop fuel file_type file0_size c sent file0_data offset = Some o ->
    ends_well Conn file0_size o.
Proof.
  induction fuel as [|fuel IH]; intros c sent file0_data offset o; simpl;
    destruct (Z.ltb_spec (Z.of_nat (length file0_data)) file0_size)
      as [Hlt|Hge]; try discriminate;
    try (intros [= <-]; left; eexists; split; [reflexivity | lia]).
  destruct (next_sequence c) as [sq c1].
  match goal with
  | |- context [chunk_request ?a ?b ?c ?d ?e ?f ?g ?h ?i ?j] =>
      destruct (chunk_request a b c d e f g h i j) as [request|e0] eqn:E
  end.
  - destruct (send_unit_data c1 request) as [raw c2].
    destruct (request_status PCCC_ERROR_CODE raw) as [status|].
    + intros [= <-]. right; left. eexists; reflexivity.
    + apply IH.
  - intros [= <-]. right; right. simpl. f_equal.
    eapply chunk_request_raises; exact E.
Qed.

(** X13: Whatever the connection does, the loop hands back data only when it
    has at least the announced number of bytes; otherwise it raises, a
    [DataError] with the status of the chunk that failed or the packing
    error of a request that could not be built.  No shorter, partial
    buffer is ever returned. *)
Theorem directory_never_partial (fuel : nat) (file0_size : Z) (c : Conn)
    (o : outcome Conn) :
  _read_whole_file_directory PCCC_ERROR_CODE CLASS_TYPE_8bit PCCC_PATH vid
    vsn SLC_CMD_CODE SLC_FNC_READ Conn next_sequence send_unit_data
    fuel file_type element file0_size c = Some o ->
  (exists data, out_result o = Ok data /\ file0_size <= Z.of_nat (length data))
  \/ (exists status, out_result o = Raise (DataError (File0Error status)))
  \/ out_result o = Raise StructError.
Proof.
  unfold _read_whole_file_directory. apply loop_ends_well.
Qed.

(** The request that went out as number [i]: it asks for [min(80, rest)]
    bytes at word offset [40 * i]. *)
Local Abbreviation nth_chunk file0_size :=
  (fun (i : nat) (ch : chunk) =>
     chunk_offset ch = 40 * Z.of_nat i
     /\ chunk_size ch = Z.min 80 (file0_size - 80 * Z.of_nat i)).

Section FullChunks.
Hypothesis full : full_chunks PCCC_ERROR_CODE CLASS_TYPE_8bit PCCC_PATH vid
                    vsn SLC_CMD_CODE SLC_FNC_READ Conn next_sequence
                    send_unit_data file_type.
Hypothesis fits : sequence_fits Conn next_sequence.

Lemma full_run (file0_size : Z) (Hsize : 0 <= file0_size <= 65535)
    (fuel : nat) :
  forall (i : nat) (c : Conn) (sent : list chunk) (file0_data : list byte),
    Z.of_nat (length file0_data) = 80 * Z.of_nat i ->
    80 * Z.of_nat i < file0_size ->
    length sent = i ->
    (forall j ch, sent !! j = Some ch -> nth_chunk file0_size j ch) ->
    file0_size <= 80 * (Z.of_nat i + Z.of_nat fuel) ->
    exists o data,
      run_loop fuel file_type file0_size c sent file0_data (40 * Z.of_nat i)
        = Some o
      /\ out_result o = Ok data
      /\ Z.of_nat (length data) = file0_size
      /\ file0_size <= 80 * Z.of_nat (length (out_sent o)) < file0_size + 80
      /\ (forall j ch, out_sent o !! j = Some ch -> nth_chunk file0_size j ch).
Proof.
  induction fuel as [|fuel IH]; intros i c sent file0_data Hlen Hlt Hi Hsent Hf;
    [lia|].
  destruct (loop_step PCCC_ERROR_CODE CLASS_TYPE_8bit PCCC_PATH vid vsn
              SLC_CMD_CODE SLC_FNC_READ Conn next_sequence send_unit_data
              file_type full fits fuel file0_size c sent file0_data
              (40 * Z.of_nat i) (Z.min 80 (file0_size - 80 * Z.of_nat i)))
    as (c' & request & data & Hd & Hstep); [lia | lia | rewrite Hlen; lia |].
  rewrite Hstep. clear Hstep.
  set (ch := mkChunk (Z.min 80 (file0_size - 80 * Z.of_nat i))
                     (40 * Z.of_nat i) request) in *.
  assert (Hsent' : forall j x, (sent ++ [ch]) !! j = Some x ->
                               nth_chunk file0_size j x).
  { intros j x Hj. apply lookup_app_Some in Hj as [Hj|[Hge Hj]].
    - apply Hsent; exact Hj.
    - apply list_lookup_singleton_Some in Hj as [Hj <-].
      assert (j = i) by lia. subst j. split; reflexivity. }
  destruct (Z.le_gt_cases (file0_size - 80 * Z.of_nat i) 80) as [Hlast|Hmore].
  - rewrite loop_done by (rewrite length_app; lia).
    eexists; eexists. split; [reflexivity|]. simpl.
    split; [reflexivity|]. split; [rewrite length_app; lia|].
    split; [rewrite length_app; simpl; lia | exact Hsent'].
  - replace (40 * Z.of_nat i + Z.min 80 (file0_size - 80 * Z.of_nat i) / 2)
      with (40 * Z.of_nat (S i)).
    2:{ rewrite Z.min_l by lia. change (80 / 2) with 40. lia. }
    apply IH.
    + rewrite length_app. lia.
    + lia.
    + rewrite length_app. simpl. lia.
    + exact Hsent'.
    + lia.
Qed.

(** X14: With a connection that returns every chunk in full, the read of a
    directory of any size that two bytes can announce ends, given fuel for
    one iteration per 80 bytes: it returns exactly that many bytes after
    one request per started 80 bytes, request number [i] asking for
    [min(80, rest)] bytes at word offset [40 * i]. *)
Theorem directory_full_run (c : Conn) (fuel : nat) (file0_size : Z) :
  0 <= file0_size <= 65535 ->
  file0_size <= 80 * Z.of_nat fuel ->
  exists o data,
    _read_whole_file_directory PCCC_ERROR_CODE CLASS_TYPE_8bit PCCC_PATH vid
      vsn SLC_CMD_CODE SLC_FNC_READ Conn next_sequence send_unit_data
      fuel file_type element file0_size c = Some o
    /\ out_result o = Ok data
    /\ Z.of_nat (length data) = file0_size
    /\ Z.of_nat (length (out_sent o)) = (file0_size + 79) / 80
    /\ (forall (i : nat) ch, out_sent o !! i = Some ch ->
          chunk_offset ch = 40 * Z.of_nat i
          /\ chunk_size ch = Z.min 80 (file0_size - 80 * Z.of_nat i)).
Proof.
  intros Hsize Hfuel. unfold _read_whole_file_directory.
  destruct (Z.eq_dec file0_size 0) as [->|Hpos].
  - rewrite loop_done by (simpl; lia).
    eexists; eexists. split; [reflexivity|]. simpl.
    split; [reflexivity|]. split; [reflexivity|]. split; [reflexivity|].
    intros i ch H. discriminate H.
  - destruct (full_run file0_size Hsize fuel 0 c [] []) as
      (o & data & Hrun & Hres & Hlen & Hcount & Hsent);
      try (simpl; lia); [intros j ch H; discriminate H|].
    exists o, data. change (40 * Z.of_nat 0) with 0 in Hrun.
    split; [exact Hrun|]. split; [exact Hres|]. split; [exact Hlen|].
    split; [|exact Hsent].
    apply (Z.div_unique _ _ _
                       (file0_size + 79 - 80 * Z.of_nat (length (out_sent o))));
      lia.
Qed.
End FullChunks.

(** X15: The converse hazard: a connection that keeps answering success with an
    empty payload never lets the loop end: no amount of fuel is enough. *)
Theorem directory_starved (c : Conn) (file0_size : Z) :
  sequence_fits Conn next_sequence ->
  (forall c' request,
      request_status PCCC_ERROR_CODE (fst (send_unit_data c' request)) = None
      /\ drop SLC_REPLY_START (fst (send_unit_data c' request)) = []) ->
  0 < file0_size ->
  forall fuel,
    _read_whole_file_directory PCCC_ERROR_CODE CLASS_TYPE_8bit PCCC_PATH vid
      vsn SLC_CMD_CODE SLC_FNC_READ Conn next_sequence send_unit_data
      fuel file_type element file0_size c = None.
Proof.
  intros fits Hstarved Hpos fuel. unfold _read_whole_file_directory.
  generalize (@nil chunk) as sent. revert c.
  induction fuel as [|fuel IH]; intros c sent; simpl;
    change (Z.of_nat 0) with 0;
    destruct (Z.ltb_spec 0 file0_size); try lia; [reflexivity|].
  destruct (request_built CLASS_TYPE_8bit PCCC_PATH vid vsn SLC_CMD_CODE
              SLC_FNC_READ Conn next_sequence file_type fits c
              (if 80 <? file0_size - 0 then 80 else file0_size - 0) 0)
    as [request Hreq];
    [destruct (Z.ltb_spec 80 (file0_size - 0)); lia | lia |].
  destruct (next_sequence c) as [sq c1]; simpl in *.
  rewrite Hreq.
  destruct (Hstarved c1 request) as [Hst Hdata].
  destruct (send_unit_data c1 request) as [raw c2]; simpl in *.
  rewrite Hst, Hdata. simpl. apply IH.
Qed.
End DirectoryMore.

(** ** The size of the directory *)

Section DirectorySizeFacts.
Variable PCCC_ERROR_CODE : gmap Z string.
Variables CLASS_TYPE_8bit PCCC_PATH vid vsn : list byte.
Variables SLC_CMD_CODE SLC_FNC_READ : list byte.
Variable Conn : Type.
Variable next_sequence : Conn -> Z * Conn.
Variable send_unit_data : Conn -> list byte -> list byte * Conn.

Lemma directory_size_shape (c : Conn) (file_type element : list byte)
    (size : Z) :
  snd (_get_file_directory_size PCCC_ERROR_CODE CLASS_TYPE_8bit PCCC_PATH vid
         vsn SLC_CMD_CODE Conn next_sequence send_unit_data c file_type
         element) = Ok (Some size) ->
  0 <= size <= 65535
  /\ exists request raw b0 b1 rest,
       size_request CLASS_TYPE_8bit PCCC_PATH vid vsn SLC_CMD_CODE file_type
         element (fst (next_sequence c)) = Ok request
       /\ raw = fst (send_unit_data (snd (next_sequence c)) request)
       /\ raw !! 58%nat = Some x00
       /\ drop SLC_REPLY_START raw = b0 :: b1 :: rest
       /\ size = uint16_le b0 b1.
Proof.
  unfold _get_file_directory_size.
  destruct (next_sequence c) as [sq c1]; simpl.
  destruct (size_request _ _ _ _ _ _ _ sq) as [request|]; [|discriminate].
  destruct (send_unit_data c1 request) as [raw c2] eqn:Es; simpl.
  destruct (request_status PCCC_ERROR_CODE raw) as [status|] eqn:Est;
    [discriminate|].
  destruct (drop SLC_REPLY_START raw) as [|b0 [|b1 rest]] eqn:Ed; simpl;
    try discriminate.
  intros [= <-]. split; [apply uint16_le_bounds|].
  exists request, raw, b0, b1, rest. rewrite Es. simpl.
  repeat split; try reflexivity; try exact Ed.
  unfold request_status in Est.
  destruct (raw !! 58%nat) as [b|]; [|discriminate].
  destruct (Z.eqb_spec (Z_of_byte b) SUCCESS) as [E|]; [|discriminate].
  apply Z_of_byte_zero in E. congruence.
Qed.

(** X16: When [_get_file_directory_size] returns a size, the reply had status 0
    and at least two payload bytes, and the size is their little-endian
    value, at most 65535. *)
Theorem directory_size_reported (c : Conn) (file_type element : list byte)
    (size : Z) :
  snd (_get_file_directory_size PCCC_ERROR_CODE CLASS_TYPE_8bit PCCC_PATH vid
         vsn SLC_CMD_CODE Conn next_sequence send_unit_data c file_type
         element) = Ok (Some size) ->
  0 <= size <= 65535
  /\ exists request raw b0 b1 rest,
       size_request CLASS_TYPE_8bit PCCC_PATH vid vsn SLC_CMD_CODE file_type
         element (fst (next_sequence c)) = Ok request
       /\ raw = fst (send_unit_data (snd (next_sequence c)) request)
       /\ raw !! 58%nat = Some x00
       /\ drop SLC_REPLY_START raw = b0 :: b1 :: rest
       /\ size = uint16_le b0 b1.
Proof. apply directory_size_shape. Qed.

(** X17: As [get_file_directory] chains them: a size that
    [_get_file_directory_size] reported keeps every chunk request of
    [_read_whole_file_directory] at a word offset below 32768, which the
    two-byte offset field holds. *)
Theorem reported_size_offsets_fit (c c' : Conn)
    (file_type element file_type' element' : list byte) (size : Z)
    (fuel : nat) (o : outcome Conn) :
  snd (_get_file_directory_size PCCC_ERROR_CODE CLASS_TYPE_8bit PCCC_PATH vid
         vsn SLC_CMD_CODE Conn next_sequence send_unit_data c file_type
         element) = Ok (Some size) ->
  _read_whole_file_directory PCCC_ERROR_CODE CLASS_TYPE_8bit PCCC_PATH vid
    vsn SLC_CMD_CODE SLC_FNC_READ Conn next_sequence send_unit_data
    fuel file_type' element' size c' = Some o ->
  Forall (fun ch => 0 <= chunk_offset ch < 32768) (out_sent o).
Proof.
  intros Hs Hr.
  destruct (directory_size_shape c file_type element size Hs) as [Hb _].
  unfold _read_whole_file_directory in Hr.
  eapply Forall_impl;
    [eapply (sent_offsets_bounded PCCC_ERROR_CODE CLASS_TYPE_8bit PCCC_PATH
               vid vsn SLC_CMD_CODE SLC_FNC_READ Conn next_sequence
               send_unit_data file_type' fuel size c' [] [] 0 o);
     [lia | simpl; lia | constructor | exact Hr]
    | simpl; intros ch [H0 H1]; lia].
Qed.
End DirectorySizeFacts.

(** ** The file directory *)

Lemma position_row_size (plc_type : string) :
  let '(file_pos, row_size) :=
    _get_file_position_row_size_for_plc_type plc_type in
  79 <= file_pos <= 103 /\ 8 <= row_size <= 10.
Proof.
  unfold _get_file_position_row_size_for_plc_type.
  repeat match goal with
         | |- context [if ?b then _ else _] => destruct b
         end; lia.
Qed.

(** X18: The request for the directory always asks for element [0x23] of file
    type 0 or 1: the branch for file type 2 and element [0x2F] tests
    membership in an empty dict and is never taken.  File type 0 goes to
    the controller type ["5/02"] alone, and for it the table starts at
    byte 93 with rows of 8 bytes. *)
Theorem directory_request_by_type (plc_type : string) :
  snd (_get_file_and_element_for_plc_type plc_type) = [x23]
  /\ (fst (_get_file_and_element_for_plc_type plc_type) = [x00]
      \/ fst (_get_file_and_element_for_plc_type plc_type) = [x01])
  /\ (fst (_get_file_and_element_for_plc_type plc_type) = [x00] <->
      plc_type = "5/02")
  /\ (fst (_get_file_and_element_for_plc_type plc_type) = [x00] ->
      _get_file_position_row_size_for_plc_type plc_type = (93, 8)).
Proof.
  unfold _get_file_and_element_for_plc_type.
  destruct (String.eqb_spec plc_type "5/02") as [->|Hne]; simpl.
  - repeat split; auto.
  - repeat split; auto; try discriminate. intros ->. contradiction.
Qed.

Section File0Facts.
Variable PCCC_DATA_SIZE : gmap string Z.
Variable PCCC_DATA_TYPE_name : list byte -> option string.

Local Abbreviation file0_loop :=
  (parse_file0_loop PCCC_DATA_SIZE PCCC_DATA_TYPE_name).

Lemma parse_file0_loop_total (row_size : Z) (data : list byte) :
  0 < row_size ->
  forall (fuel : nat) (file_pos file_num : Z) (m : gmap string file_info),
    Z.of_nat (length data) - file_pos <= Z.of_nat fuel ->
    exists r, file0_loop fuel row_size data file_pos file_num m = Some r.
Proof.
  intros Hrow. induction fuel as [|fuel IH]; intros file_pos file_num m Hf;
    simpl; destruct (Z.ltb_spec file_pos (Z.of_nat (length data)));
    try lia; try (eexists; reflexivity).
  destruct (parse_row _ _ data file_pos file_num m) as [[m' n']|e].
  - apply IH. lia.
  - eexists; reflexivity.
Qed.

Lemma parse_file0_loop_done (fuel : nat) (row_size : Z) (data : list byte)
    (file_pos file_num : Z) (m : gmap string file_info) :
  Z.of_nat (length data) <= file_pos ->
  file0_loop fuel row_size data file_pos file_num m = Some (Ok m).
Proof.
  intros H.
  assert (E : (file_pos <? Z.of_nat (length data)) = false)
    by (apply Z.ltb_ge; lia).
  destruct fuel; simpl; rewrite E; reflexivity.
Qed.

(** X19: [_parse_file0] always ends: one unit of fuel per byte of the buffer is
    enough for the walk over the table, whatever the processor type.  It
    raises [IndexError] on a buffer of fewer than 53 bytes, and returns the
    empty dict when the buffer ends before the table starts. *)
Theorem parse_file0_total (plc_type : string) (data : list byte) :
  exists r,
    _parse_file0 PCCC_DATA_SIZE PCCC_DATA_TYPE_name (length data) plc_type data
      = Some r
    /\ ((length data < 53)%nat -> r = Raise IndexError)
    /\ ((53 <= length data <= 79)%nat -> r = Ok ∅).
Proof.
  unfold _parse_file0.
  destruct (data !! 52%nat) as [b52|] eqn:E52.
  - apply lookup_lt_Some in E52.
    destruct (data !! 46%nat) as [b46|] eqn:E46.
    2:{ apply lookup_ge_None in E46. lia. }
    pose proof (position_row_size plc_type) as Hpr.
    destruct (_get_file_position_row_size_for_plc_type plc_type)
      as [file_pos row_size].
    destruct (parse_file0_loop_total row_size data ltac:(lia) (length data)
                file_pos 0 ∅ ltac:(lia)) as [r Hr].
    exists r. split; [exact Hr|]. split; [lia|].
    intros Hlen. rewrite parse_file0_loop_done in Hr by lia. congruence.
  - apply lookup_ge_None in E52. eexists. split; [reflexivity|].
    split; [reflexivity | lia].
Qed.

Lemma parse_row_entries (data : list byte) (file_pos file_num : Z)
    (m m' : gmap string file_info) (num' : Z) :
  0 <= file_num ->
  map_Forall (entry_ok PCCC_DATA_SIZE PCCC_DATA_TYPE_name) m ->
  parse_row PCCC_DATA_SIZE PCCC_DATA_TYPE_name data file_pos file_num m
    = Ok (m', num') ->
  0 <= num' /\ map_Forall (entry_ok PCCC_DATA_SIZE PCCC_DATA_TYPE_name) m'.
Proof.
  intros Hn Hm. unfold parse_row.
  destruct (known_type _ _) as [ft|] eqn:Ek.
  - destruct (Unpack_uint _) as [size|] eqn:Eu; simpl; [|discriminate].
    unfold floordiv. destruct (_ =? 0); simpl; [discriminate|].
    intros [= <- <-]. split; [lia|].
    apply map_Forall_insert_2; [|exact Hm].
    eexists ft, file_num, _. simpl.
    repeat split; try reflexivity; try exact Ek; try lia;
      apply (Unpack_uint_bounds _ _ Eu).
  - intros [= <- <-]. split; [|exact Hm]. destruct (bool_decide _); lia.
Qed.

Lemma parse_file0_loop_entries (row_size : Z) (data : list byte) :
  forall (fuel : nat) (file_pos file_num : Z) (m m' : gmap string file_info),
    0 <= file_num ->
    map_Forall (entry_ok PCCC_DATA_SIZE PCCC_DATA_TYPE_name) m ->
    file0_loop fuel row_size data file_pos file_num m = Some (Ok m') ->
    map_Forall (entry_ok PCCC_DATA_SIZE PCCC_DATA_TYPE_name) m'.
Proof.
  induction fuel as [|fuel IH]; intros file_pos file_num m m' Hn Hm; simpl;
    destruct (file_pos <? Z.of_nat (length data)); try discriminate;
    try (intros [= <-]; exact Hm).
  destruct (parse_row _ _ data file_pos file_num m) as [[m1 n1]|e] eqn:E;
    [|discriminate].
  destruct (parse_row_entries _ _ _ _ _ _ Hn Hm E) as [Hn1 Hm1].
  apply IH; assumption.
Qed.

(** X20: Every entry of the dict that [_parse_file0] returns is named by a
    known file type followed by a file number, has a byte length that two
    bytes hold, and an element count that is the byte length divided,
    rounding down, by the element size of the type (2 when the type has
    none). *)
Theorem parse_file0_entries (fuel : nat) (plc_type : string)
    (data : list byte) (m : gmap string file_info) :
  _parse_file0 PCCC_DATA_SIZE PCCC_DATA_TYPE_name fuel plc_type data
    = Some (Ok m) ->
  forall file_name e,
    m !! file_name = Some e ->
    entry_ok PCCC_DATA_SIZE PCCC_DATA_TYPE_name file_name e.
Proof.
  unfold _parse_file0.
  destruct (data !! 52%nat); [|discriminate].
  destruct (data !! 46%nat); [|discriminate].
  destruct (_get_file_position_row_size_for_plc_type plc_type)
    as [file_pos row_size].
  intros H file_name e He.
  eapply (parse_file0_loop_entries row_size data fuel file_pos 0 ∅ m);
    [lia | apply map_Forall_empty | exact H | exact He].
Qed.
End File0Facts.

(** ** [read] and [write] *)

Section ReadWriteFacts.
Variable PCCC_CT : gmap string Z.
Variable PCCC_DATA_SIZE : gmap string Z.
Variable PCCC_DATA_TYPE : gmap string (list byte).
Variable PCCC_ERROR_CODE : gmap Z string.
Variable Pack : gmap string (pyval -> result (list byte)).
Variable Unpack : gmap string (list byte -> result pyval).
Variables CLASS_TYPE_8bit PCCC_PATH vid vsn : list byte.
Variables SLC_CMD_CODE SLC_FNC_READ SLC_FNC_WRITE : list byte.
Variable Conn : Type.
Variable next_sequence : Conn -> Z * Conn.
Variable send_unit_data : Conn -> list byte -> list byte * Conn.

Local Abbreviation read_one :=
  (_read_tag PCCC_CT PCCC_DATA_SIZE PCCC_DATA_TYPE PCCC_ERROR_CODE Unpack
     CLASS_TYPE_8bit PCCC_PATH vid vsn SLC_CMD_CODE SLC_FNC_READ
     Conn next_sequence send_unit_data).
Local Abbreviation read_list :=
  (read_each PCCC_CT PCCC_DATA_SIZE PCCC_DATA_TYPE PCCC_ERROR_CODE Unpack
     CLASS_TYPE_8bit PCCC_PATH vid vsn SLC_CMD_CODE SLC_FNC_READ
     Conn next_sequence send_unit_data).
Local Abbreviation write_one :=
  (_write_tag PCCC_CT PCCC_DATA_SIZE PCCC_DATA_TYPE PCCC_ERROR_CODE Pack
     CLASS_TYPE_8bit PCCC_PATH vid vsn SLC_CMD_CODE SLC_FNC_WRITE
     Conn next_sequence send_unit_data).
Local Abbreviation write_list :=
  (write_each PCCC_CT PCCC_DATA_SIZE PCCC_DATA_TYPE PCCC_ERROR_CODE Pack
     CLASS_TYPE_8bit PCCC_PATH vid vsn SLC_CMD_CODE SLC_FNC_WRITE
     Conn next_sequence send_unit_data).

Lemma read_each_app (pre post : list string) :
  forall c,
    read_list c (pre ++ post) =
      match read_list c pre with
      | (c1, Ok ts) =>
          match read_list c1 post with
          | (c2, Ok ts') => (c2, Ok (ts ++ ts'))
          | (c2, Raise e) => (c2, Raise e)
          end
      | (c1, Raise e) => (c1, Raise e)
      end.
Proof.
  induction pre as [|a pre IH]; intros c; simpl.
  - destruct (read_list c post) as [c2 [ts|e]]; reflexivity.
  - destruct (read_one c a) as [c1 [t|e]]; [|reflexivity].
    rewrite IH. destruct (read_list c1 pre) as [c2 [ts|e]]; [|reflexivity].
    destruct (read_list c2 post) as [c3 [ts'|e]]; reflexivity.
Qed.

(** X21: An address that does not parse aborts the whole [read] with the
    request error that names it.  The addresses before it have been
    requested, and their results are lost; nothing is sent for it or for
    the addresses after it. *)
Theorem read_aborts (c : Conn) (pre post : list string) (a : string)
    (ts : list Tag) :
  snd (read_each PCCC_CT PCCC_DATA_SIZE PCCC_DATA_TYPE PCCC_ERROR_CODE Unpack
         CLASS_TYPE_8bit PCCC_PATH vid vsn SLC_CMD_CODE SLC_FNC_READ
         Conn next_sequence send_unit_data c pre) = Ok ts ->
  parse_tag PCCC_CT a = Ok None ->
  read PCCC_CT PCCC_DATA_SIZE PCCC_DATA_TYPE PCCC_ERROR_CODE Unpack
    CLASS_TYPE_8bit PCCC_PATH vid vsn SLC_CMD_CODE SLC_FNC_READ
    Conn next_sequence send_unit_data c (pre ++ a :: post)
  = (fst (read_each PCCC_CT PCCC_DATA_SIZE PCCC_DATA_TYPE PCCC_ERROR_CODE Unpack
         CLASS_TYPE_8bit PCCC_PATH vid vsn SLC_CMD_CODE SLC_FNC_READ
         Conn next_sequence send_unit_data c pre),
     Raise (RequestError (ParseRead a))).
Proof.
  intros Hpre Ha. unfold read. rewrite read_each_app.
  destruct (read_list c pre) as [c1 r]; simpl in *. subst r. simpl.
  unfold _read_tag. rewrite Ha. reflexivity.
Qed.

(** What one address asks of the tables for its request to be built, at
    any state of the connection. *)
Local Abbreviation readable a :=
  (exists t,
      parse_tag PCCC_CT a = Ok (Some t)
      /\ forall c, exists request,
           read_request PCCC_DATA_SIZE PCCC_DATA_TYPE CLASS_TYPE_8bit
             PCCC_PATH vid vsn SLC_CMD_CODE SLC_FNC_READ
             (fst (next_sequence c)) t = Ok request).

Lemma read_each_results (addresses : list string) :
  Forall (fun a => readable a) addresses ->
  forall c, exists ts,
    snd (read_list c addresses) = Ok ts
    /\ Forall2 (fun a r => exists t, parse_tag PCCC_CT a = Ok (Some t)
                            /\ name r = tag t /\ type r = file_type t)
         addresses ts.
Proof.
  induction 1 as [|a rest (t & Hp & Hreq) _ IH]; intros c; simpl.
  - exists []. split; [reflexivity | constructor].
  - destruct (Hreq c) as [request Hr].
    destruct (read_tag_tagged PCCC_CT PCCC_DATA_SIZE PCCC_DATA_TYPE
                PCCC_ERROR_CODE Unpack CLASS_TYPE_8bit PCCC_PATH vid vsn
                SLC_CMD_CODE SLC_FNC_READ Conn next_sequence send_unit_data
                c a t request Hp Hr) as (r & Hres & Hn & Ht & _).
    destruct (read_one c a) as [c1 res]; simpl in Hres. subst res.
    destruct (IH c1) as (ts & Hts & Hall).
    destruct (read_list c1 rest) as [c2 res]; simpl in Hts. subst res.
    exists (r :: ts). split; [reflexivity|].
    constructor; [exists t; auto | exact Hall].
Qed.

(** X22: When every address parses and its request can be built, [read]
    returns one [Tag] per address, in the order of the addresses, each
    under its address's name and file type, whatever the controller
    answers: the [Tag] itself for a single address, the list otherwise. *)
Theorem read_results (c : Conn) (addresses : list string) :
  Forall (fun a =>
            exists t,
              parse_tag PCCC_CT a = Ok (Some t)
              /\ forall c, exists request,
                   read_request PCCC_DATA_SIZE PCCC_DATA_TYPE CLASS_TYPE_8bit
                     PCCC_PATH vid vsn SLC_CMD_CODE SLC_FNC_READ
                     (fst (next_sequence c)) t = Ok request)
    addresses ->
  exists ts,
    snd (read PCCC_CT PCCC_DATA_SIZE PCCC_DATA_TYPE PCCC_ERROR_CODE Unpack
           CLASS_TYPE_8bit PCCC_PATH vid vsn SLC_CMD_CODE SLC_FNC_READ
           Conn next_sequence send_unit_data c addresses)
      = Ok (single_or_list ts)
    /\ length ts = length addresses
    /\ Forall2 (fun a r => exists t, parse_tag PCCC_CT a = Ok (Some t)
                            /\ name r = tag t /\ type r = file_type t)
         addresses ts.
Proof.
  intros H. destruct (read_each_results addresses H c) as (ts & Hts & Hall).
  exists ts. unfold read.
  destruct (read_list c addresses) as [c1 res]; simpl in *. subst res.
  split; [reflexivity|]. split; [|exact Hall].
  symmetry. eapply Forall2_length; exact Hall.
Qed.
Lemma write_each_app (pre post : list (string * pyval)) :
  forall c,
    write_list c (pre ++ post) =
      match write_list c pre with
      | (c1, Ok ts) =>
          match write_list c1 post with
          | (c2, Ok ts') => (c2, Ok (ts ++ ts'))
          | (c2, Raise e) => (c2, Raise e)
          end
      | (c1, Raise e) => (c1, Raise e)
      end.
Proof.
  induction pre as [|[a v] pre IH]; intros c; simpl.
  - destruct (write_list c post) as [c2 [ts|e]]; reflexivity.
  - destruct (write_one c a v) as [c1 [t|e]]; [|reflexivity].
    rewrite IH. destruct (write_list c1 pre) as [c2 [ts|e]]; [|reflexivity].
    destruct (write_list c2 post) as [c3 [ts'|e]]; reflexivity.
Qed.

(** X23: [write] is not all or nothing.  When a pair's address does not parse,
    the pairs before it have been written, one request each, and the
    connection is left as those writes left it; then [write] raises the
    request error that names the address, their results are lost, and
    nothing is sent for that pair or for the pairs after it. *)
Theorem write_aborts (c : Conn) (pre post : list (string * pyval))
    (a : string) (v : pyval) (ts : list Tag) :
  snd (write_each PCCC_CT PCCC_DATA_SIZE PCCC_DATA_TYPE PCCC_ERROR_CODE Pack
         CLASS_TYPE_8bit PCCC_PATH vid vsn SLC_CMD_CODE SLC_FNC_WRITE
         Conn next_sequence send_unit_data c pre) = Ok ts ->
  parse_tag PCCC_CT a = Ok None ->
  write PCCC_CT PCCC_DATA_SIZE PCCC_DATA_TYPE PCCC_ERROR_CODE Pack
    CLASS_TYPE_8bit PCCC_PATH vid vsn SLC_CMD_CODE SLC_FNC_WRITE
    Conn next_sequence send_unit_data c (pre ++ (a, v) :: post)
  = (fst (write_each PCCC_CT PCCC_DATA_SIZE PCCC_DATA_TYPE PCCC_ERROR_CODE
            Pack CLASS_TYPE_8bit PCCC_PATH vid vsn SLC_CMD_CODE SLC_FNC_WRITE
            Conn next_sequence send_unit_data c pre),
     Raise (RequestError (ParseWrite a))).
Proof.
  intros Hpre Ha. unfold write. rewrite write_each_app.
  destruct (write_list c pre) as [c1 r]; simpl in *. subst r. simpl.
  unfold _write_tag. rewrite Ha. reflexivity.
Qed.

Lemma write_each_results (address_values : list (string * pyval)) :
  Forall (fun av =>
            exists t w,
              parse_tag PCCC_CT (fst av) = Ok (Some t)
              /\ PCCC_DATA_SIZE !! file_type t = Some w
              /\ forall c, exists request,
                   write_request PCCC_CT PCCC_DATA_TYPE Pack CLASS_TYPE_8bit
                     PCCC_PATH vid vsn SLC_CMD_CODE SLC_FNC_WRITE
                     (fst (next_sequence c)) w (set_data_size w t) (snd av)
                   = Ok request)
    address_values ->
  forall c, exists ts c',
    write_list c address_values = (c', Ok ts)
    /\ write_run PCCC_CT PCCC_DATA_SIZE PCCC_DATA_TYPE PCCC_ERROR_CODE Pack
         CLASS_TYPE_8bit PCCC_PATH vid vsn SLC_CMD_CODE SLC_FNC_WRITE
         Conn next_sequence send_unit_data c address_values ts c'.
Proof.
  induction 1 as [|[a v] rest (t & w & Hp & Hw & Hreq) _ IH]; intros c; simpl.
  - exists [], c. split; [reflexivity | constructor].
  - simpl in Hp, Hreq. destruct (Hreq c) as [request Hr].
    destruct (write_tag_tagged PCCC_CT PCCC_DATA_SIZE PCCC_DATA_TYPE
                PCCC_ERROR_CODE Pack CLASS_TYPE_8bit PCCC_PATH vid vsn
                SLC_CMD_CODE SLC_FNC_WRITE Conn next_sequence send_unit_data
                c a v t w request Hp Hw Hr) as (r & Hres & Hrep).
    rewrite Hres.
    destruct (IH (snd (send_unit_data (snd (next_sequence c)) request)))
      as (ts & c' & Hts & Hrun).
    rewrite Hts. exists (r :: ts), c'. split; [reflexivity|].
    econstructor; eassumption.
Qed.

Lemma write_run_length (c c' : Conn) (address_values : list (string * pyval))
    (ts : list Tag) :
  write_run PCCC_CT PCCC_DATA_SIZE PCCC_DATA_TYPE PCCC_ERROR_CODE Pack
    CLASS_TYPE_8bit PCCC_PATH vid vsn SLC_CMD_CODE SLC_FNC_WRITE
    Conn next_sequence send_unit_data c address_values ts c' ->
  length ts = length address_values.
Proof. induction 1; simpl; congruence. Qed.

(** X24: When every address parses, its file type has a width and its
    request can be built, [write] does not raise and returns one [Tag] per
    pair, in the order of the pairs: a single pair gives the [Tag] itself,
    not a list.  The pairs are written one after the other on the
    connection as the exchange before left it, one request each, and each
    [Tag] reports the controller's reply to the request of its own pair:
    its error is the status of that reply, and it carries the value that
    was passed when the status is success and no value otherwise. *)
Theorem write_results (c : Conn) (address_values : list (string * pyval)) :
  Forall (fun av =>
            exists t w,
              parse_tag PCCC_CT (fst av) = Ok (Some t)
              /\ PCCC_DATA_SIZE !! file_type t = Some w
              /\ forall c, exists request,
                   write_request PCCC_CT PCCC_DATA_TYPE Pack CLASS_TYPE_8bit
                     PCCC_PATH vid vsn SLC_CMD_CODE SLC_FNC_WRITE
                     (fst (next_sequence c)) w (set_data_size w t) (snd av)
                   = Ok request)
    address_values ->
  exists ts c',
    write PCCC_CT PCCC_DATA_SIZE PCCC_DATA_TYPE PCCC_ERROR_CODE Pack
      CLASS_TYPE_8bit PCCC_PATH vid vsn SLC_CMD_CODE SLC_FNC_WRITE
      Conn next_sequence send_unit_data c address_values
    = (c', Ok (single_or_list ts))
    /\ length ts = length address_values
    /\ write_run PCCC_CT PCCC_DATA_SIZE PCCC_DATA_TYPE PCCC_ERROR_CODE Pack
         CLASS_TYPE_8bit PCCC_PATH vid vsn SLC_CMD_CODE SLC_FNC_WRITE
         Conn next_sequence send_unit_data c address_values ts c'.
Proof.
  intros H.
  destruct (write_each_results address_values H c) as (ts & c' & Hts & Hrun).
  exists ts, c'. unfold write. rewrite Hts.
  split; [reflexivity|]. split; [|exact Hrun].
  exact (write_run_length _ _ _ _ Hrun).
Qed.
End ReadWriteFacts.

(** ** The matcher against the patterns *)

Lemma length_append (a b : string) :
  String.length (String.append a b) = (String.length a + String.length b)%nat.
Proof. induction a as [|c a IH]; simpl; [reflexivity | rewrite IH; reflexivity]. Qed.

Lemma substring_append (a b : string) :
  substring 0 (String.length a) (String.append a b) = a.
Proof.
  induction a as [|c a IH]; simpl.
  - destruct b; reflexivity.
  - rewrite IH. reflexivity.
Qed.

Lemma consumed_append (a b : string) : consumed (String.append a b) b = a.
Proof.
  unfold consumed. rewrite length_append.
  replace (String.length a + String.length b - String.length b)%nat
    with (String.length a) by lia.
  apply substring_append.
Qed.

Lemma append_cons (x : ascii) (a b : string) :
  String.append (String x a) b = String x (String.append a b).
Proof. reflexivity. Qed.

Lemma append_assoc (a b c : string) :
  String.append (String.append a b) c = String.append a (String.append b c).
Proof.
  induction a as [|x a IH]; [reflexivity|].
  rewrite !append_cons, IH. reflexivity.
Qed.

Lemma one_sound (p : ascii -> bool) (R : Type) (s : string) (cs : captures)
    (k : string -> captures -> option R) (x : R) :
  one p s cs k = Some x ->
  exists d s', s = String d s' /\ p d = true /\ k s' cs = Some x.
Proof.
  unfold one. destruct s as [|d s']; [discriminate|].
  destruct (p d) eqn:E; [|discriminate].
  intros H. exists d, s'. auto.
Qed.

Lemma rep_sound (r : regex) :
  run_sound_at r ->
  forall (R : Type) (hi lo : nat) (s : string) (cs : captures)
         (k : string -> captures -> option R) (x : R),
    rep_greedy (run r) lo hi s cs k = Some x ->
    exists txt new s',
      s = String.append txt s' /\ matches (Rep r lo hi) txt new
      /\ k s' (new ++ cs) = Some x.
Proof.
  intros Hr R. induction hi as [|hi IH]; intros lo s cs k x; simpl.
  - destruct lo; [|discriminate]. intros H.
    exists EmptyString, [], s. repeat split; [apply matches_rep_stop | exact H].
  - unfold or_else.
    destruct (run r s cs _) as [y|] eqn:E.
    + intros [= ->].
      apply Hr in E as (t1 & n1 & s1 & -> & M1 & E).
      apply IH in E as (t2 & n2 & s2 & -> & M2 & E).
      exists (String.append t1 t2), (n2 ++ n1), s2.
      split; [symmetry; apply append_assoc|].
      split; [apply matches_rep_more; assumption|].
      rewrite <- app_assoc. exact E.
    + destruct lo; [|discriminate]. intros H.
      exists EmptyString, [], s. repeat split; [apply matches_rep_stop | exact H].
Qed.

Lemma run_sound (r : regex) : run_sound_at r.
Proof.
  induction r as [c|set| | |r1 IH1 r2 IH2|r1 IH1 r2 IH2|r1 IH1 lo hi
                 |r1 IH1|r1 IH1|name r1 IH1];
    intros R s cs k x; simpl.
  - intros H. apply one_sound in H as (d & s' & -> & Hp & H).
    exists (String d EmptyString), [], s'. repeat split; [constructor|]; assumption.
  - intros H. apply one_sound in H as (d & s' & -> & Hp & H).
    exists (String d EmptyString), [], s'. repeat split; [constructor|]; assumption.
  - intros H. apply one_sound in H as (d & s' & -> & Hp & H).
    exists (String d EmptyString), [], s'. repeat split; [constructor|]; assumption.
  - intros H. apply one_sound in H as (d & s' & -> & Hp & H).
    exists (String d EmptyString), [], s'.
    repeat split; [constructor; apply negb_true_iff|]; assumption.
  - intros H. apply IH1 in H as (t1 & n1 & s1 & -> & M1 & H).
    apply IH2 in H as (t2 & n2 & s2 & -> & M2 & H).
    exists (String.append t1 t2), (n2 ++ n1), s2.
    split; [symmetry; apply append_assoc|].
    split; [constructor; assumption|]. rewrite <- app_assoc. exact H.
  - unfold or_else. destruct (run r1 s cs k) as [y|] eqn:E.
    + intros [= ->]. apply IH1 in E as (t & n & s' & -> & M & E).
      exists t, n, s'. repeat split; [apply matches_alt_l|]; assumption.
    + intros H. apply IH2 in H as (t & n & s' & -> & M & H).
      exists t, n, s'. repeat split; [apply matches_alt_r|]; assumption.
  - apply (rep_sound r1 IH1).
  - intros H. apply (rep_sound r1 IH1) in H as (t & n & s' & -> & M & H).
    exists t, n, s'. repeat split; [econstructor; exact M | exact H].
  - unfold or_else. destruct (run r1 s cs k) as [y|] eqn:E.
    + intros [= ->]. apply IH1 in E as (t & n & s' & -> & M & E).
      exists t, n, s'. repeat split; [apply matches_opt_some|]; assumption.
    + intros H. exists EmptyString, [], s.
      repeat split; [apply matches_opt_none | exact H].
  - intros H. apply IH1 in H as (t & n & s' & -> & M & H).
    rewrite consumed_append in H.
    exists t, (record_group name t n), s'.
    split; [reflexivity|]. split; [constructor; exact M|].
    destruct name; exact H.
Qed.

(** A match object that [search] returns holds a match of the pattern. *)
Lemma search_sound (r : regex) (s : string) (m : Match) :
  search r s = Some m ->
  matches r (whole m) (groups m) /\ declared m = group_names r.
Proof.
  induction s as [|c s IH]; simpl.
  - destruct (run r EmptyString [] _) as [[s' cs]|] eqn:E; [|discriminate].
    intros [= <-]. simpl.
    apply run_sound in E as (t & n & s1 & Hs & M & [= <- <-]).
    rewrite Hs, consumed_append, app_nil_r. split; [exact M | reflexivity].
  - destruct (run r (String c s) [] _) as [[s' cs]|] eqn:E.
    + intros [= <-]. simpl.
      apply run_sound in E as (t & n & s1 & Hs & M & [= <- <-]).
      rewrite Hs, consumed_append, app_nil_r. split; [exact M | reflexivity].
    + exact IH.
Qed.

(** ** The texts of the groups *)

Lemma in_all_ascii (c : ascii) : In c all_ascii.
Proof.
  unfold all_ascii. apply in_map_iff. exists (nat_of_ascii c).
  split; [apply ascii_nat_embedding|]. apply in_seq.
  pose proof (nat_ascii_bounded c). lia.
Qed.

(** Under [re.IGNORECASE] an upper-case letter of a pattern is matched by
    that letter in either case. *)
Lemma chr_eq_upper (c d : ascii) :
  is_upper c = true -> chr_eq c d = true \/ chr_eq d c = true ->
  upper_char d = c.
Proof.
  intros Hu He.
  assert (H : forallb
                (fun c => forallb
                   (fun d => implb (is_upper c && (chr_eq c d || chr_eq d c))
                               (Ascii.eqb (upper_char d) c)) all_ascii)
                all_ascii = true) by (vm_compute; reflexivity).
  rewrite forallb_forall in H. specialize (H c (in_all_ascii c)).
  rewrite forallb_forall in H. specialize (H d (in_all_ascii d)).
  rewrite Hu in H.
  destruct He as [He | He]; rewrite He in H; rewrite ?orb_true_r in H;
    apply Ascii.eqb_eq; exact H.
Qed.

Lemma append_one (d : ascii) (t : string) :
  String.append (String d EmptyString) t = String d t.
Proof. reflexivity. Qed.

Lemma matches_digits (hi : nat) :
  forall (lo : nat) (t : string) (n : captures),
    matches (Rep Dig lo hi) t n ->
    n = [] /\ (lo <= String.length t <= hi)%nat
    /\ forall acc, exists v, digits_value acc t = Some v.
Proof.
  induction hi as [|hi IH]; intros lo t n M; inversion M; subst.
  - repeat split; [simpl; lia|simpl; lia|]. intros acc. exists acc. reflexivity.
  - repeat split; [simpl; lia|simpl; lia|]. intros acc. exists acc. reflexivity.
  - match goal with
    | H1 : matches Dig _ _, H2 : matches (Rep Dig _ hi) _ _ |- _ =>
        inversion H1; subst; apply IH in H2 as (-> & Hlen & Hd)
    end.
    repeat split.
    + rewrite append_one. simpl. lia.
    + rewrite append_one. simpl. lia.
    + intros acc. rewrite append_one. simpl.
      match goal with H : is_digit _ = true |- _ => rewrite H end.
      apply Hd.
Qed.

(** [int] reads a text of digits that is not too long. *)
Lemma digit_text_numeral (t : string) :
  digit_text t -> (String.length t <= int_max_str_digits)%nat -> numeral t.
Proof.
  intros [Hlen Hd] Hshort. destruct (Hd 0) as [v Hv]. exists v.
  unfold int_of_str. destruct t; [simpl in Hlen; lia|].
  rewrite (proj2 (Nat.ltb_ge _ _) Hshort), Hv. reflexivity.
Qed.

(** And refuses one that is. *)
Lemma digit_text_long (t : string) :
  (int_max_str_digits < String.length t)%nat ->
  int_of_str t = Raise ValueError.
Proof.
  intros Hlong. unfold int_of_str. destruct t; [reflexivity|].
  rewrite (proj2 (Nat.ltb_lt _ _) Hlong). reflexivity.
Qed.

Lemma matches_numeral (lo hi : nat) (t : string) (n : captures) :
  (1 <= lo)%nat -> Nat.leb hi int_max_str_digits = true ->
  matches (Rep Dig lo hi) t n -> n = [] /\ numeral t.
Proof.
  intros Hlo Hhi M. apply matches_digits in M as (-> & Hlen & Hd).
  apply Nat.leb_le in Hhi.
  split; [reflexivity|]. apply digit_text_numeral; [|lia].
  split; [lia | exact Hd].
Qed.

Lemma matches_plus_digits (t : string) (n : captures) :
  matches (Plus Dig) t n -> n = [] /\ digit_text t.
Proof.
  intros M. inversion M; subst.
  match goal with H : matches (Rep Dig 1 _) _ _ |- _ =>
    apply matches_digits in H as (-> & Hlen & Hd) end.
  split; [reflexivity|]. split; [lia | exact Hd].
Qed.

Lemma matches_lit (w : string) :
  all_upper w = true -> w <> EmptyString ->
  forall t n, matches (lit w) t n -> n = [] /\ upper t = w.
Proof.
  induction w as [|c w IH]; intros Hu Hne t n M; [contradiction|].
  simpl in Hu. apply andb_prop in Hu as [Hc Hw].
  destruct w as [|c' w'].
  - simpl in M. inversion M; subst. split; [reflexivity|].
    unfold upper. simpl. f_equal. apply chr_eq_upper; auto.
  - change (lit (String c (String c' w')))
      with (Cat (Chr c) (lit (String c' w'))) in M.
    specialize (IH Hw ltac:(discriminate)).
    inversion M as [| | | |r1 r2 t1 t2 n1 n2 M1 M2| | | | | | | |]; subst.
    inversion M1; subst. apply IH in M2 as [-> M2].
    split; [reflexivity|]. rewrite append_one.
    change (upper (String d t2))
      with (String (upper_char d) (upper t2)). f_equal.
    + apply chr_eq_upper; auto.
    + exact M2.
Qed.

Lemma matches_alts (ws : list string) :
  Forall (fun w => all_upper w = true /\ w <> EmptyString) ws ->
  forall t n, matches (alts ws) t n -> n = [] /\ In (upper t) ws.
Proof.
  induction 1 as [|w ws [Hu Hne] Hall IH]; intros t n M.
  - simpl in M. inversion M; subst. discriminate.
  - destruct ws as [|w' ws'].
    + simpl in M. apply (matches_lit w Hu Hne) in M as [-> <-].
      split; [reflexivity | left; reflexivity].
    + change (alts (w :: w' :: ws'))
        with (Alt (lit w) (alts (w' :: ws'))) in M.
      inversion M as [| | | | |r1 r2 t1 n1 M1|r1 r2 t1 n1 M1| | | | | |]; subst.
      * apply (matches_lit w Hu Hne) in M1 as [-> <-].
        split; [reflexivity | left; reflexivity].
      * apply IH in M1 as [-> M1].
        split; [reflexivity | right; exact M1].
Qed.

(** A class of upper-case letters matches one character, whose upper case
    is in the class. *)
Lemma matches_cls_upper (set : string) (t : string) (n : captures) :
  all_upper set = true ->
  matches (Cls set) t n ->
  n = [] /\ exists d, t = String d EmptyString
                 /\ in_string (Ascii.eqb (upper_char d)) set = true.
Proof.
  intros Hu M. inversion M; subst. split; [reflexivity|].
  exists d. split; [reflexivity|].
  match goal with H : in_string _ set = true |- _ => revert H end.
  clear M. induction set as [|c set IH]; simpl; [discriminate|].
  simpl in Hu. apply andb_prop in Hu as [Hc Hs].
  intros H. apply orb_prop in H as [H|H].
  - rewrite (chr_eq_upper c d Hc (or_intror H)), Ascii.eqb_refl. reflexivity.
  - rewrite (IH Hs H). apply orb_true_r.
Qed.

(** ** What each pattern captures *)

Lemma cat_inv (r1 r2 : regex) (t : string) (n : captures) :
  matches (Cat r1 r2) t n ->
  exists t1 t2 n1 n2,
    t = String.append t1 t2 /\ n = n2 ++ n1
    /\ matches r1 t1 n1 /\ matches r2 t2 n2.
Proof. intros M. inversion M; subst. eauto 10. Qed.

Lemma grp_inv (name : option string) (r : regex) (t : string)
    (n : captures) :
  matches (Grp name r) t n ->
  exists n', n = record_group name t n' /\ matches r t n'.
Proof. intros M. inversion M; subst. eauto. Qed.

Lemma opt_inv (r : regex) (t : string) (n : captures) :
  matches (Opt r) t n -> (t = EmptyString /\ n = []) \/ matches r t n.
Proof. intros M. inversion M; subst; auto. Qed.

Ltac inv_matches :=
  repeat match goal with
  | H : matches (Cat _ _) _ _ |- _ =>
      apply cat_inv in H as (? & ? & ? & ? & -> & -> & ? & ?)
  | H : matches (Grp _ _) _ _ |- _ => apply grp_inv in H as (? & -> & ?)
  | H : matches (Opt _) _ _ |- _ => apply opt_inv in H as [[-> ->]|?]
  | H : matches (Chr _) _ _ |- _ => inversion H; subst; clear H
  | H : matches Dot _ _ |- _ => inversion H; subst; clear H
  | H : matches (Rep Dig _ _) _ _ |- _ =>
      apply matches_numeral in H as [-> ?]; [|lia|reflexivity]
  | H : matches (Plus Dig) _ _ |- _ =>
      apply matches_plus_digits in H as [-> ?]
  end.

Lemma cls_named_in (set : string) (t : string) (n : captures) :
  all_upper set = true ->
  matches (Cls set) t n ->
  n = [] /\ named_in (map (fun c => String c EmptyString)
                        (list_ascii_of_string set)) t.
Proof.
  intros Hu M. apply matches_cls_upper in M as (-> & d & -> & H); [|exact Hu].
  split; [reflexivity|]. unfold named_in, upper. simpl. clear Hu.
  induction set as [|c set IH]; simpl in *; [discriminate|].
  apply orb_prop in H as [H|H].
  - left. apply Ascii.eqb_eq in H. congruence.
  - right. apply IH, H.
Qed.

Lemma chr_named_in (c : ascii) (t : string) (n : captures) :
  is_upper c = true ->
  matches (Chr c) t n -> n = [] /\ named_in [String c EmptyString] t.
Proof.
  intros Hu M. inversion M; subst. split; [reflexivity|].
  left. unfold upper. simpl. f_equal. symmetry. apply chr_eq_upper; auto.
Qed.

Lemma alts_named_in (ws : list string) (t : string) (n : captures) :
  forallb (fun w => all_upper w && negb (String.eqb w EmptyString)) ws = true ->
  matches (alts ws) t n -> n = [] /\ named_in ws t.
Proof.
  intros H. apply matches_alts. apply Stdlib.Lists.List.Forall_forall. intros w Hw.
  rewrite forallb_forall in H. apply H in Hw.
  apply andb_prop in Hw as [H1 H2]. split; [exact H1|].
  intros ->. discriminate.
Qed.

(** A class of digits matches that digit only. *)
Lemma cls_digit (t : string) (n : captures) :
  matches (Cls "12") t n -> n = [] /\ numeral t.
Proof.
  intros M. inversion M; subst. split; [reflexivity|].
  assert (H : forallb (fun d => implb (in_string (chr_eq d) "12") (is_digit d))
                all_ascii = true) by (vm_compute; reflexivity).
  rewrite forallb_forall in H. specialize (H d (in_all_ascii d)).
  match goal with H' : in_string _ _ = true |- _ => rewrite H' in H end.
  simpl in H. unfold numeral, int_of_str.
  change (Nat.ltb int_max_str_digits (String.length (String d EmptyString)))
    with false.
  simpl. rewrite H. eexists. reflexivity.
Qed.

Ltac groups_done :=
  cbn [record_group app] in *;
  repeat split;
  unfold optional, text_of, group; simpl;
  solve [ left; reflexivity
        | right; eexists; split; [reflexivity | first [assumption | exact I]]
        | eexists; split; [reflexivity | first [assumption | exact I]] ].

Ltac groups_start H :=
  let M := fresh "M" in
  let D := fresh "D" in
  apply search_sound in H as [M D];
  match goal with m : Match |- _ => destruct m as [w g d] end;
  cbn [whole groups declared] in M, D; subst.

Lemma timer_counter_groups (s : string) (m : Match) :
  search re_timer_counter s = Some m ->
  text_of m "file_type" (named_in ["C"; "T"])
  /\ text_of m "file_number" numeral
  /\ text_of m "element_number" numeral
  /\ text_of m "sub_element"
       (named_in ["ACC"; "PRE"; "EN"; "DN"; "TT"; "CU"; "CD"; "DN"; "OV";
                  "UN"; "UA"]).
Proof.
  intros H. groups_start H.
  cbv [re_timer_counter cat named paren digits] in M.
  inv_matches.
  repeat match goal with
  | H : matches (Cls _) _ _ |- _ =>
      apply cls_named_in in H as [-> H]; [|reflexivity]
  | H : matches (alts _) _ _ |- _ =>
      apply alts_named_in in H as [-> H]; [|reflexivity]
  end.
  groups_done.
Qed.

Lemma word_groups (s : string) (m : Match) :
  search re_word s = Some m ->
  text_of m "file_type" (named_in ["L"; "F"; "B"; "N"])
  /\ text_of m "file_number" numeral
  /\ text_of m "element_number" numeral
  /\ optional m "sub_element" numeral
  /\ optional m "_elem_cnt_token" any_text
  /\ optional m "element_count" digit_text.
Proof.
  intros H. groups_start H.
  cbv [re_word cat named paren digits bit_suffix count_token] in M.
  inv_matches.
  all: match goal with
       | H : matches (Cls _) _ _ |- _ =>
           apply cls_named_in in H as [-> H]; [|reflexivity]
       end.
  all: groups_done.
Qed.

Lemma io_groups (s : string) (m : Match) :
  search re_io s = Some m ->
  text_of m "file_type" (named_in ["I"; "O"])
  /\ group m "file_number" = Raise IndexError
  /\ text_of m "element_number" numeral
  /\ text_of m "position_number" numeral
  /\ optional m "sub_element" numeral
  /\ optional m "_elem_cnt_token" any_text
  /\ optional m "element_count" digit_text.
Proof.
  intros H. groups_start H.
  cbv [re_io cat named paren digits bit_suffix count_token] in M.
  inv_matches.
  all: match goal with
       | H : matches (Cls _) _ _ |- _ =>
           apply cls_named_in in H as [-> H]; [|reflexivity]
       end.
  all: cbn [record_group app] in *.
  all: split; [|split; [reflexivity|]].
  all: groups_done.
Qed.

Lemma string_groups (s : string) (m : Match) :
  search re_string s = Some m ->
  text_of m "file_type" (named_in ["ST"])
  /\ text_of m "file_number" numeral
  /\ text_of m "element_number" numeral
  /\ optional m "_elem_cnt_token" any_text
  /\ optional m "element_count" numeral.
Proof.
  intros H. groups_start H.
  cbv [re_string cat named paren digits] in M.
  inv_matches.
  all: repeat match goal with
       | H : matches (lit ?w) _ _ |- _ =>
           apply (alts_named_in [w]) in H as [-> H]; [|reflexivity]
       | H : matches (Cls "12") _ _ |- _ =>
           apply cls_digit in H as [-> H]
       end.
  all: groups_done.
Qed.

Lemma ascii_groups (s : string) (m : Match) :
  search re_ascii s = Some m ->
  text_of m "file_type" (named_in ["A"])
  /\ text_of m "file_number" numeral
  /\ text_of m "element_number" numeral
  /\ optional m "_elem_cnt_token" any_text
  /\ optional m "element_count" digit_text.
Proof.
  intros H. groups_start H.
  cbv [re_ascii cat named paren digits count_token] in M.
  repeat match goal with
  | H : matches (Cat _ _) _ _ |- _ =>
      apply cat_inv in H as (? & ? & ? & ? & -> & -> & ? & ?)
  | H : matches (Grp (Some "file_type") _) _ _ |- _ =>
      apply grp_inv in H as (? & -> & ?)
  end.
  match goal with
  | H : matches (Chr "A") _ _ |- _ =>
      apply chr_named_in in H as [-> H]; [|reflexivity]
  end.
  inv_matches.
  all: groups_done.
Qed.

Lemma status_groups (s : string) (m : Match) :
  search re_status s = Some m ->
  text_of m "file_type" (named_in ["S"])
  /\ text_of m "element_number" numeral
  /\ optional m "sub_element" numeral
  /\ optional m "_elem_cnt_token" any_text
  /\ optional m "element_count" digit_text.
Proof.
  intros H. groups_start H.
  cbv [re_status cat named paren digits bit_suffix count_token] in M.
  repeat match goal with
  | H : matches (Cat _ _) _ _ |- _ =>
      apply cat_inv in H as (? & ? & ? & ? & -> & -> & ? & ?)
  | H : matches (Grp (Some "file_type") _) _ _ |- _ =>
      apply grp_inv in H as (? & -> & ?)
  end.
  match goal with
  | H : matches (Chr "S") _ _ |- _ =>
      apply chr_named_in in H as [-> H]; [|reflexivity]
  end.
  inv_matches.
  all: groups_done.
Qed.

Lemma binary_groups (s : string) (m : Match) :
  search re_binary s = Some m ->
  text_of m "file_type" (named_in ["B"])
  /\ text_of m "file_number" numeral
  /\ text_of m "element_number" numeral
  /\ optional m "_elem_cnt_token" any_text
  /\ optional m "element_count" digit_text.
Proof.
  intros H. groups_start H.
  cbv [re_binary cat named paren digits count_token] in M.
  repeat match goal with
  | H : matches (Cat _ _) _ _ |- _ =>
      apply cat_inv in H as (? & ? & ? & ? & -> & -> & ? & ?)
  | H : matches (Grp (Some "file_type") _) _ _ |- _ =>
      apply grp_inv in H as (? & -> & ?)
  end.
  match goal with
  | H : matches (Chr "B") _ _ |- _ =>
      apply chr_named_in in H as [-> H]; [|reflexivity]
  end.
  inv_matches.
  all: groups_done.
Qed.

(** ** The exceptions of [parse_tag] *)

Lemma bind_returns {A B : Type} (a : result A) (k : A -> result B) :
  returns a -> (forall v, a = Ok v -> returns (k v)) -> returns (bind a k).
Proof. intros [v Hv] Hk. rewrite Hv. simpl. apply Hk, Hv. Qed.

Lemma group_returns (m : Match) (n : string) (P : string -> Prop) :
  optional m n P -> returns (group m n).
Proof. intros [H | (txt & H & _)]; rewrite H; eexists; reflexivity. Qed.

Lemma optional_some (m : Match) (n : string) (P : string -> Prop)
    (txt : string) :
  optional m n P -> group m n = Ok (Some txt) -> text_of m n P.
Proof. intros [H | H] Hg; [congruence | exact H]. Qed.

Lemma str_group_text (m : Match) (n : string) (P : string -> Prop)
    (v : string) :
  text_of m n P -> str_group m n = Ok v -> group m n = Ok (Some v) /\ P v.
Proof.
  intros (txt & Hg & Hp). unfold str_group. rewrite Hg. simpl.
  intros [= <-]. split; [reflexivity | exact Hp].
Qed.

Lemma str_group_returns (m : Match) (n : string) (P : string -> Prop) :
  text_of m n P -> returns (str_group m n).
Proof.
  intros (txt & Hg & _). unfold str_group. rewrite Hg. eexists. reflexivity.
Qed.

Lemma int_group_returns (m : Match) (n : string) :
  text_of m n numeral -> returns (int_group m n).
Proof.
  intros (txt & Hg & v & Hv). unfold int_group, str_group. rewrite Hg. simpl.
  exists v. exact Hv.
Qed.

Lemma between_returns (lo hi : Z) (x : result Z) :
  returns x -> returns (between lo hi x).
Proof. intros [v ->]. eexists. reflexivity. Qed.

Lemma py_and_returns (a b : result bool) :
  returns a -> returns b -> returns (py_and a b).
Proof.
  intros [x ->] [y ->]. unfold py_and. simpl. destruct x; eexists; reflexivity.
Qed.

Lemma tag_name_returns (m : Match) (P : string -> Prop) :
  optional m "_elem_cnt_token" P -> returns (tag_name_of m).
Proof.
  intros [H | (txt & H & _)]; unfold tag_name_of; rewrite H; eexists;
    reflexivity.
Qed.

Lemma count_returns (m : Match) :
  optional m "element_count" numeral -> returns (count_of m).
Proof.
  intros [H | (txt & H & v & Hv)]; unfold count_of; rewrite H; simpl.
  - eexists. reflexivity.
  - exists v. exact Hv.
Qed.

Lemma truediv_returns (a : Z) : returns (truediv a 16).
Proof. eexists. reflexivity. Qed.

Create HintDb returns.
#[local] Hint Resolve group_returns str_group_returns int_group_returns
  between_returns py_and_returns tag_name_returns count_returns
  truediv_returns : returns.

Ltac returns_step :=
  match goal with
  | |- returns (bind _ _) =>
      apply bind_returns; [solve [eauto 12 with returns] | intros ? ?]
  | |- returns (if ?b then _ else _) => destruct b
  | Hg : group ?m ?n = Ok ?o, Ho : optional ?m ?n _
    |- returns (match ?o with Some _ => _ | None => _ end) =>
      destruct o; [pose proof (optional_some _ _ _ _ Ho Hg) |]
  | |- returns (Ok _) => eexists; reflexivity
  end.

Lemma rule_string_returns (s : string) : returns (rule_string s).
Proof.
  unfold rule_string, rule_plain.
  destruct (search re_string s) as [m|] eqn:E; [|eexists; reflexivity].
  destruct (string_groups s m E) as (? & ? & ? & ? & ?).
  repeat returns_step.
Qed.

Lemma returns_not_raise {A : Type} (x : result A) (e : exn) :
  returns x -> x = Raise e -> False.
Proof. intros [v ->]. discriminate. Qed.

(** [int] reads the count unless it has too many digits. *)
Lemma count_of_outcome (m : Match) :
  optional m "element_count" digit_text ->
  returns (count_of m)
  \/ (count_of m = Raise ValueError
      /\ exists cnt,
           group m "element_count" = Ok (Some cnt)
           /\ (int_max_str_digits < String.length cnt)%nat).
Proof.
  intros [H | (cnt & H & Hd)]; unfold count_of; rewrite H; simpl.
  - left. eexists. reflexivity.
  - destruct (Nat.le_gt_cases (String.length cnt) int_max_str_digits)
      as [Hshort | Hlong].
    + left. exact (digit_text_numeral cnt Hd Hshort).
    + right. split; [exact (digit_text_long cnt Hlong)|].
      exists cnt. split; [reflexivity | exact Hlong].
Qed.

(** One step of a rule that raised: the next call returned, or it is the
    count, which [int] refused. *)
Ltac raise_step :=
  match goal with
  | H : bind (count_of ?m) _ = Raise _,
    Hc : optional ?m "element_count" digit_text |- _ =>
      let v := fresh "v" in
      let Hv := fresh "Hv" in
      let Hl := fresh "Hl" in
      destruct (count_of_outcome m Hc) as [[v Hv] | [Hv Hl]];
      rewrite Hv in H; cbn [bind] in H;
      [ | injection H as <-;
          destruct Hl as (? & ? & ?);
          try right; (split; [reflexivity|]);
          eexists _, _; repeat split; eassumption ]
  | H : bind ?a _ = Raise _ |- _ =>
      let v := fresh "v" in
      let Hv := fresh "Hv" in
      assert (returns a) as [v Hv] by eauto 12 with returns;
      rewrite Hv in H; cbn [bind] in H
  | H : (if ?b then _ else _) = Raise _ |- _ => destruct b
  | H : match ?o with Some _ => _ | None => _ end = Raise _,
    Hg : group ?m ?n = Ok ?o, Ho : optional ?m ?n _ |- _ =>
      destruct o; [pose proof (optional_some _ _ _ _ Ho Hg) |]
  | H : Ok _ = Raise _ |- _ => discriminate H
  end.

(** The block for word files raises only on a count of too many digits. *)
Lemma rule_word_raises (s : string) (e : exn) :
  rule_word s = Raise e -> e = ValueError /\ long_count re_word s.
Proof.
  unfold rule_word, long_count. intros H.
  destruct (search re_word s) as [m|] eqn:E; [|discriminate H].
  destruct (word_groups s m E) as (? & ? & ? & ? & ? & ?).
  repeat raise_step.
Qed.

Lemma rule_ascii_raises (s : string) (e : exn) :
  rule_ascii s = Raise e -> e = ValueError /\ long_count re_ascii s.
Proof.
  unfold rule_ascii, rule_plain, long_count. intros H.
  destruct (search re_ascii s) as [m|] eqn:E; [|discriminate H].
  destruct (ascii_groups s m E) as (? & ? & ? & ? & ?).
  repeat raise_step.
Qed.

Lemma rule_status_raises (s : string) (e : exn) :
  rule_status s = Raise e -> e = ValueError /\ long_count re_status s.
Proof.
  unfold rule_status, long_count. intros H.
  destruct (search re_status s) as [m|] eqn:E; [|discriminate H].
  destruct (status_groups s m E) as (? & ? & ? & ? & ?).
  repeat raise_step.
Qed.

Lemma rule_binary_raises (s : string) (e : exn) :
  rule_binary s = Raise e -> e = ValueError /\ long_count re_binary s.
Proof.
  unfold rule_binary, long_count. intros H.
  destruct (search re_binary s) as [m|] eqn:E; [|discriminate H].
  destruct (binary_groups s m E) as (? & ? & ? & ? & ?).
  repeat raise_step.
Qed.

(** The first block raises only when [PCCC_CT] lacks the field named in
    the address. *)
Lemma rule_timer_counter_raises (PCCC_CT : gmap string Z) (s : string)
    (e : exn) :
  rule_timer_counter PCCC_CT s = Raise e ->
  e = KeyError
  /\ exists m se, search re_timer_counter s = Some m
       /\ group m "sub_element" = Ok (Some se)
       /\ In (upper se) field_names /\ PCCC_CT !! upper se = None.
Proof.
  unfold rule_timer_counter. intros H.
  destruct (search re_timer_counter s) as [m|] eqn:E; [|discriminate H].
  destruct (timer_counter_groups s m E) as (? & ? & ? & Hse).
  repeat raise_step.
  match goal with
  | Hs : str_group m "sub_element" = Ok ?se |- _ =>
      destruct (str_group_text _ _ _ _ Hse Hs) as [Hg Hin];
      destruct (PCCC_CT !! upper se) eqn:Hk; simpl in H; [discriminate H|];
      injection H as <-; split; [reflexivity|];
      exists m, se; repeat split; [exact Hg | | exact Hk];
      unfold named_in in Hin; simpl in Hin; simpl; tauto
  end.
Qed.

(** The third block raises [IndexError] on a bit address, whose branch
    asks for the group [file_number] that the pattern does not declare,
    and otherwise only on a count of too many digits. *)
Lemma rule_io_raises (s : string) (e : exn) :
  rule_io s = Raise e ->
  (e = IndexError
   /\ exists m bit, search re_io s = Some m
        /\ group m "sub_element" = Ok (Some bit))
  \/ (e = ValueError /\ long_count re_io s).
Proof.
  unfold rule_io, long_count. intros H.
  destruct (search re_io s) as [m|] eqn:E; [|discriminate H].
  destruct (io_groups s m E) as (? & Hfn & ? & ? & Hse & ? & ?).
  do 2 raise_step.
  match goal with
  | Hg : group m "sub_element" = Ok ?o |- _ => destruct o as [bit|]
  end.
  - unfold int_group at 1, str_group at 1 in H. rewrite Hfn in H.
    simpl in H. injection H as <-. left. split; [reflexivity|].
    exists m, bit. split; [reflexivity | assumption].
  - repeat raise_step.
Qed.

Lemma first_rule_raise
    (rules : list (string -> result (option TagAddress)))
    (s : string) (e : exn) :
  first_rule rules s = Raise e ->
  exists rule, In rule rules /\ rule s = Raise e.
Proof.
  induction rules as [|rule rest IH]; simpl; [discriminate|].
  destruct (rule s) as [[d|]|e'] eqn:E; simpl; try discriminate.
  - intros H. destruct (IH H) as (r & Hin & Hr).
    exists r. split; [right; exact Hin | exact Hr].
  - intros [= <-]. exists rule. split; [left; reflexivity | exact E].
Qed.

(** X3: [parse_tag] raises in three cases only.  [IndexError]: the I/O
    pattern matched with a bit number, and the block asks for the group
    [file_number] that its pattern does not declare.  [KeyError]: the
    timer and counter pattern matched with a field name, one of the ten
    it accepts, that is not a key of [PCCC_CT].  [ValueError]: a pattern
    with a count of any length matched with a count of more digits than
    [int] reads.  Nothing else escapes: every other group asked for is
    declared and took part, and every other text handed to [int] is a
    numeral of at most four digits. *)
Theorem parse_tag_raises (PCCC_CT : gmap string Z) (s : string) (e : exn) :
  parse_tag PCCC_CT s = Raise e ->
  (e = IndexError
   /\ exists m bit, search re_io s = Some m
        /\ group m "sub_element" = Ok (Some bit))
  \/ (e = KeyError
      /\ exists m se, search re_timer_counter s = Some m
           /\ group m "sub_element" = Ok (Some se)
           /\ In (upper se) field_names /\ PCCC_CT !! upper se = None)
  \/ (e = ValueError
      /\ exists r, In r [re_word; re_io; re_ascii; re_status; re_binary]
           /\ long_count r s).
Proof.
  intros H. apply first_rule_raise in H as (rule & Hin & H).
  simpl in Hin.
  destruct Hin as [<-|[<-|[<-|[<-|[<-|[<-|[<-|[]]]]]]]].
  - right. left. exact (rule_timer_counter_raises PCCC_CT s e H).
  - right. right. destruct (rule_word_raises s e H) as [-> Hl].
    split; [reflexivity|]. exists re_word. split; [left; reflexivity | exact Hl].
  - destruct (rule_io_raises s e H) as [Hi | [-> Hl]]; [left; exact Hi|].
    right. right. split; [reflexivity|]. exists re_io. split; [right; left; reflexivity | exact Hl].
  - destruct (returns_not_raise _ _ (rule_string_returns s) H).
  - right. right. destruct (rule_ascii_raises s e H) as [-> Hl].
    split; [reflexivity|]. exists re_ascii.
    split; [right; right; left; reflexivity | exact Hl].
  - right. right. destruct (rule_status_raises s e H) as [-> Hl].
    split; [reflexivity|]. exists re_status.
    split; [right; right; right; left; reflexivity | exact Hl].
  - right. right. destruct (rule_binary_raises s e H) as [-> Hl].
    split; [reflexivity|]. exists re_binary.
    split; [right; right; right; right; left; reflexivity | exact Hl].
Qed.

Ltac file_type_done G :=
  match goal with
  | Hs : search _ _ = Some ?m, Hf : str_group ?m "file_type" = Ok ?ft |- _ =>
      let Hin := fresh "Hin" in
      pose proof (proj2 (str_group_text _ _ _ _ (proj1 (G _ _ Hs)) Hf)) as Hin;
      unfold named_in in Hin; simpl in Hin;
      unfold file_types; cbn [file_type In]; tauto
  end.

(** X4: for an address of characters below U+0100, the strings of this
    embedding, the file type of a dict that [parse_tag] returns is one of
    the eleven names [T], [C], [L], [F], [B], [N], [I], [O], [ST], [A],
    [S], in upper case whatever the case of the address.  (Beyond that
    alphabet [re.IGNORECASE] lets the class of the I/O pattern match
    U+0130, which [upper] leaves as it is.) *)
Theorem parse_tag_file_type (PCCC_CT : gmap string Z) (s : string)
    (t : TagAddress) :
  parse_tag PCCC_CT s = Ok (Some t) -> In (file_type t) file_types.
Proof.
  intros H. apply first_rule_some in H as (rule & Hin & H).
  simpl in Hin.
  destruct Hin as [<-|[<-|[<-|[<-|[<-|[<-|[<-|[]]]]]]]].
  - unfold rule_timer_counter in H. repeat rule_step.
    file_type_done timer_counter_groups.
  - unfold rule_word in H. repeat rule_step; file_type_done word_groups.
  - unfold rule_io in H. repeat rule_step; file_type_done io_groups.
  - unfold rule_string, rule_plain in H. repeat rule_step.
    file_type_done string_groups.
  - unfold rule_ascii, rule_plain in H. repeat rule_step.
    file_type_done ascii_groups.
  - unfold rule_status in H. repeat rule_step; file_type_done status_groups.
  - unfold rule_binary in H. repeat rule_step.
    file_type_done binary_groups.
Qed.

(** ** The properties on the sample connection *)

Lemma sample_read_built (c : Z) :
  exists request,
    read_request sample_PCCC_DATA_SIZE sample_PCCC_DATA_TYPE [x20] sample_path
      sample_vid sample_vsn [x0f] [xa2] (fst (sample_next_sequence c))
      sample_N7 = Ok request.
Proof.
  unfold read_request, request_head.
  rewrite (Pack_uint_ok _ (sample_sequence_fits c)).
  eexists. reflexivity.
Qed.

Lemma sample_write_built (c : Z) :
  exists request,
    write_request sample_PCCC_CT sample_PCCC_DATA_TYPE sample_Pack [x20]
      sample_path sample_vid sample_vsn [x0f] [xaa]
      (fst (sample_next_sequence c)) 2 (set_data_size 2 sample_N7) (VInt 5)
    = Ok request.
Proof.
  unfold write_request, request_head.
  rewrite (Pack_uint_ok _ (sample_sequence_fits c)).
  eexists. reflexivity.
Qed.

Ltac sample_arith :=
  first [ apply sample_sequence_fits
        | cbv beta iota delta [sample_N7 sample_N7_pair]; simpl; lia ].

Lemma read_tag_returns_witness :
  exists r,
    snd (sample_read_tag 7 "N7:0") = Ok r
    /\ name r = tag sample_N7 /\ type r = file_type sample_N7
    /\ (error r = None \/ value r = VNone).
Proof.
  unfold sample_read_tag.
  eapply read_tag_returns; vm_compute; reflexivity.
Defined.

Lemma parse_read_reply_empty_witness :
  _parse_read_reply sample_PCCC_CT sample_PCCC_DATA_SIZE sample_Unpack
    sample_N7 [] = Raise (DataError BadReadReply).
Proof. apply parse_read_reply_empty. simpl. lia. Defined.

Lemma read_request_layout_witness :
  exists fn en,
    int_of_str (file_number sample_N7) = Ok fn
    /\ py_int (element_number sample_N7) = Ok en
    /\ read_request sample_PCCC_DATA_SIZE sample_PCCC_DATA_TYPE [x20]
         sample_path sample_vid sample_vsn [x0f] [xa2] 7 sample_N7
       = Ok (_msg_start [x20] sample_path sample_vid sample_vsn ++ [x0f]
               ++ [x00] ++ [byte_of_Z 7; byte_of_Z (7 / 256)]
               ++ [xa2] ++ [byte_of_Z (2 * element_count sample_N7)]
               ++ [byte_of_Z fn] ++ [x89] ++ [byte_of_Z en] ++ [x00]).
Proof.
  apply (read_request_layout sample_PCCC_CT) with (s := "N7:0");
    first [vm_compute; reflexivity | sample_arith].
Defined.

Lemma read_too_large_witness :
  sample_read_tag 7 "N7:0{200}"
  = (snd (sample_next_sequence 7), Raise StructError).
Proof.
  unfold sample_read_tag.
  eapply read_too_large with (w := 2);
    first [vm_compute; reflexivity | sample_arith].
Defined.

Lemma write_tag_returns_witness :
  exists request r,
    write_request sample_PCCC_CT sample_PCCC_DATA_TYPE sample_Pack [x20]
      sample_path sample_vid sample_vsn [x0f] [xaa]
      (fst (sample_next_sequence 7)) 2 (set_data_size 2 sample_N7) (VInt 5)
    = Ok request
    /\ sample_write_tag 7 "N7:0" (VInt 5)
       = (snd (sample_send x00 sample_size_at (snd (sample_next_sequence 7))
                 request), Ok r)
    /\ name r = tag sample_N7 /\ type r = file_type sample_N7
    /\ error r
       = request_status sample_PCCC_ERROR_CODE
           (fst (sample_send x00 sample_size_at
                   (snd (sample_next_sequence 7)) request))
    /\ (error r = None -> value r = VInt 5)
    /\ (error r <> None -> value r = VNone).
Proof.
  destruct (sample_write_built 7) as [request Hreq].
  destruct (write_tag_returns sample_PCCC_CT sample_PCCC_DATA_SIZE
              sample_PCCC_DATA_TYPE sample_PCCC_ERROR_CODE sample_Pack [x20]
              sample_path sample_vid sample_vsn [x0f] [xaa] Z
              sample_next_sequence (sample_send x00 sample_size_at)
              7 "N7:0" (VInt 5) sample_N7 2 request
              ltac:(vm_compute; reflexivity) ltac:(vm_compute; reflexivity)
              Hreq) as (r & H).
  exists request, r. split; [exact Hreq | exact H].
Defined.

Lemma words_round_trip_witness :
  exists payload,
    snd (writeable_value sample_PCCC_CT sample_Pack
           (set_data_size (Z.of_nat 2) sample_N7_pair)
           (VList [VInt 1; VInt (-2)])) = Ok payload
    /\ length payload = (2 * length [VInt 1; VInt (-2)])%nat
    /\ _parse_read_reply sample_PCCC_CT sample_PCCC_DATA_SIZE sample_Unpack
         sample_N7_pair payload
       = Ok (mkTag (tag sample_N7_pair) (VList [VInt 1; VInt (-2)])
               (file_type sample_N7_pair) None).
Proof.
  apply (words_round_trip sample_PCCC_CT sample_PCCC_DATA_SIZE sample_Pack
           sample_Unpack "N7:0{2}" sample_N7_pair 2 [VInt 1; VInt (-2)]
           sample_pack_int sample_unpack_int).
  - vm_compute. reflexivity.
  - reflexivity.
  - reflexivity.
  - simpl. lia.
  - reflexivity.
  - reflexivity.
  - reflexivity.
  - lia.
  - repeat constructor; eexists; repeat split; reflexivity.
Defined.

Lemma word_round_trip_witness :
  snd (writeable_value sample_PCCC_CT sample_Pack
         (set_data_size (Z.of_nat 2) sample_N7) (VInt 5)) = Ok [x05; x00]
  /\ _parse_read_reply sample_PCCC_CT sample_PCCC_DATA_SIZE sample_Unpack
       sample_N7 [x05; x00]
     = Ok (mkTag (tag sample_N7) (VInt 5) (file_type sample_N7) None).
Proof.
  apply (word_round_trip sample_PCCC_CT sample_PCCC_DATA_SIZE sample_Pack
           sample_Unpack "N7:0" sample_N7 2 (VInt 5) sample_pack_int
           sample_unpack_int [x05; x00]).
  - vm_compute. reflexivity.
  - reflexivity.
  - simpl. lia.
  - intros x. discriminate.
  - reflexivity.
  - reflexivity.
  - reflexivity.
  - lia.
  - reflexivity.
  - reflexivity.
  - reflexivity.
Defined.

Lemma directory_never_partial_witness :
  exists o,
    sample_read_directory 5 130 = Some o
    /\ ((exists data, out_result o = Ok data
                      /\ 130 <= Z.of_nat (length data))
        \/ (exists status,
               out_result o = Raise (DataError (File0Error status)))
        \/ out_result o = Raise StructError).
Proof.
  eexists. split; [vm_compute; reflexivity|].
  eapply (directory_never_partial sample_PCCC_ERROR_CODE [x20] sample_path
            sample_vid sample_vsn [x0f] [xa2] Z sample_next_sequence
            (sample_send x00 sample_size_at) [x01] [x23] 5 130 0).
  vm_compute. reflexivity.
Defined.

Lemma directory_full_run_witness :
  exists o data,
    sample_read_directory 5 200 = Some o
    /\ out_result o = Ok data
    /\ Z.of_nat (length data) = 200
    /\ Z.of_nat (length (out_sent o)) = (200 + 79) / 80
    /\ (forall (i : nat) ch, out_sent o !! i = Some ch ->
          chunk_offset ch = 40 * Z.of_nat i
          /\ chunk_size ch = Z.min 80 (200 - 80 * Z.of_nat i)).
Proof.
  unfold sample_read_directory.
  apply directory_full_run;
    [exact sample_full_chunks | exact sample_sequence_fits | lia | lia].
Defined.

Lemma directory_starved_witness :
  _read_whole_file_directory sample_PCCC_ERROR_CODE [x20] sample_path
    sample_vid sample_vsn [x0f] [xa2] Z sample_next_sequence starved_send
    1000 [x01] [x23] 130 0 = None.
Proof.
  apply (directory_starved sample_PCCC_ERROR_CODE [x20] sample_path
           sample_vid sample_vsn [x0f] [xa2] Z sample_next_sequence
           starved_send [x01] [x23] 0 130).
  - exact sample_sequence_fits.
  - intros c' request. split; reflexivity.
  - lia.
Defined.

Lemma directory_size_reported_witness :
  0 <= 130 <= 65535
  /\ exists request raw b0 b1 rest,
       size_request [x20] sample_path sample_vid sample_vsn [x0f] [x01] [x23]
         (fst (sample_next_sequence 7)) = Ok request
       /\ raw = fst (directory_send (snd (sample_next_sequence 7)) request)
       /\ raw !! 58%nat = Some x00
       /\ drop SLC_REPLY_START raw = b0 :: b1 :: rest
       /\ 130 = uint16_le b0 b1.
Proof.
  apply (directory_size_reported sample_PCCC_ERROR_CODE).
  vm_compute. reflexivity.
Defined.

Lemma reported_size_offsets_fit_witness :
  exists o,
    _read_whole_file_directory sample_PCCC_ERROR_CODE [x20] sample_path
      sample_vid sample_vsn [x0f] [xa2] Z sample_next_sequence directory_send
      5 [x01] [x23] 130 8 = Some o
    /\ Forall (fun ch => 0 <= chunk_offset ch < 32768) (out_sent o).
Proof.
  eexists. split; [vm_compute; reflexivity|].
  eapply (reported_size_offsets_fit sample_PCCC_ERROR_CODE [x20] sample_path
            sample_vid sample_vsn [x0f] [xa2] Z sample_next_sequence
            directory_send 7 8 [x01] [x23] [x01] [x23] 130 5);
    vm_compute; reflexivity.
Defined.

Lemma parse_file0_total_witness :
  exists r,
    _parse_file0 sample_PCCC_DATA_SIZE sample_PCCC_DATA_TYPE_name
      (length (replicate 60 x00)) "1747-L552" (replicate 60 x00) = Some r
    /\ r = Ok ∅.
Proof.
  destruct (parse_file0_total sample_PCCC_DATA_SIZE
              sample_PCCC_DATA_TYPE_name "1747-L552" (replicate 60 x00))
    as (r & Hr & _ & Hmid).
  exists r. split; [exact Hr|]. apply Hmid. simpl. lia.
Defined.

Lemma parse_file0_entries_witness :
  sample_file0_entries !! "N0" = Some (mkFileInfo 5 10)
  /\ entry_ok sample_PCCC_DATA_SIZE sample_PCCC_DATA_TYPE_name "N0"
       (mkFileInfo 5 10).
Proof.
  assert (H : sample_file0_entries !! "N0" = Some (mkFileInfo 5 10))
    by (vm_compute; reflexivity).
  split; [exact H|].
  apply (parse_file0_entries sample_PCCC_DATA_SIZE sample_PCCC_DATA_TYPE_name
           5 "1747-L552" sample_file0 sample_file0_entries);
    [vm_compute; reflexivity | exact H].
Defined.

Lemma read_aborts_witness :
  sample_read 7 (["N7:0"] ++ "N7" :: ["N7:1"])
  = (fst (read_each sample_PCCC_CT sample_PCCC_DATA_SIZE sample_PCCC_DATA_TYPE
            sample_PCCC_ERROR_CODE sample_Unpack [x20] sample_path sample_vid
            sample_vsn [x0f] [xa2] Z sample_next_sequence
            (sample_send x00 sample_size_at) 7 ["N7:0"]),
     Raise (RequestError (ParseRead "N7"))).
Proof.
  unfold sample_read.
  eapply read_aborts; vm_compute; reflexivity.
Defined.

Lemma read_results_witness :
  exists ts,
    snd (sample_read 7 ["N7:0"; "n7:0"]) = Ok (single_or_list ts)
    /\ length ts = length ["N7:0"; "n7:0"]
    /\ Forall2 (fun a r => exists t, parse_tag sample_PCCC_CT a = Ok (Some t)
                            /\ name r = tag t /\ type r = file_type t)
         ["N7:0"; "n7:0"] ts.
Proof.
  unfold sample_read. apply read_results.
  repeat constructor.
  - exists sample_N7. split; [vm_compute; reflexivity | exact sample_read_built].
  - exists (mkTagAddress "N" "7" (VStr "0") None (Some VNone) 2 1 "n7:0" None).
    split; [vm_compute; reflexivity | exact sample_read_built].
Defined.

Lemma write_aborts_witness :
  sample_write 7 ([("N7:0", VInt 5)] ++ ("N7", VInt 6) :: [("N7:1", VInt 7)])
  = (fst (write_each sample_PCCC_CT sample_PCCC_DATA_SIZE
            sample_PCCC_DATA_TYPE sample_PCCC_ERROR_CODE sample_Pack [x20]
            sample_path sample_vid sample_vsn [x0f] [xaa] Z
            sample_next_sequence (sample_send x00 sample_size_at) 7
            [("N7:0", VInt 5)]),
     Raise (RequestError (ParseWrite "N7"))).
Proof.
  unfold sample_write.
  eapply write_aborts; vm_compute; reflexivity.
Defined.

Lemma write_results_witness :
  exists ts c',
    sample_write 7 [("N7:0", VInt 5)] = (c', Ok (single_or_list ts))
    /\ length ts = length [("N7:0", VInt 5)]
    /\ write_run sample_PCCC_CT sample_PCCC_DATA_SIZE sample_PCCC_DATA_TYPE
         sample_PCCC_ERROR_CODE sample_Pack [x20] sample_path sample_vid
         sample_vsn [x0f] [xaa] Z sample_next_sequence
         (sample_send x00 sample_size_at) 7 [("N7:0", VInt 5)] ts c'.
Proof.
  unfold sample_write. apply write_results.
  repeat constructor.
  exists sample_N7, 2. split; [vm_compute; reflexivity|].
  split; [vm_compute; reflexivity | exact sample_write_built].
Defined.

Lemma parse_tag_raises_witness :
  let s := String.append "N7:0{" (String.append (ones 4301) "}") in
  (ValueError = IndexError
   /\ exists m bit, search re_io s = Some m
        /\ group m "sub_element" = Ok (Some bit))
  \/ (ValueError = KeyError
      /\ exists m se, search re_timer_counter s = Some m
           /\ group m "sub_element" = Ok (Some se)
           /\ In (upper se) field_names
           /\ sample_PCCC_CT !! upper se = None)
  \/ (ValueError = ValueError
      /\ exists r, In r [re_word; re_io; re_ascii; re_status; re_binary]
           /\ long_count r s).
Proof. intros s. apply parse_tag_raises. vm_compute. reflexivity. Defined.

Lemma parse_tag_file_type_witness :
  In (file_type (mkTagAddress "ST" "9" (VInt 0) None None 2 1 "st9:0" None))
    file_types.
Proof.
  apply (parse_tag_file_type sample_PCCC_CT "st9:0"). vm_compute. reflexivity.
Defined.
